(** * Stock dashboard: the view-model builder of [StockDashboard.jsx]

    A shallow embedding of the data-shaping code of
    [frontend/src/Dashboards/StockDashboard.jsx]: [convertToInr],
    [transformMetrics], the [convertedHistorical] / [merged] construction of
    [handleStockSelect], [getCurrentPrice] and [getPriceChange], together
    with the part of the ECMAScript runtime these functions rely on
    (IEEE-754 binary64 numbers, [Number.prototype.toFixed],
    [Number.parseFloat], [ToNumber], truthiness, [??], [||], object spread,
    property access, [Array.prototype.map], and the settlement of the
    [Promise.all] join). *)

From Stdlib Require Import ZArith Ascii String.
From Stdlib Require Import Floats.SpecFloat.
From stdpp Require Import gmap strings list fin_maps.

#[local] Set Warnings "-register-all".
#[local] Open Scope string_scope.
#[local] Open Scope Z_scope.
#[local] Open Scope list_scope.

(* ===================================================================== *)
(** * ECMAScript numbers                                                  *)
(* ===================================================================== *)

(** Numbers are IEEE-754 binary64 values, in the executable specification
    of the Standard Library ([spec_float] with [prec = 53], [emax = 1024],
    rounding to nearest, ties to even).  Strings are Rocq strings, one
    character per code unit (code units below 256). *)
Module Number.

Definition prec : Z := 53.
Definition emax : Z := 1024.

Abbreviation number := spec_float.

Definition NaN : number := S754_nan.
Definition Infinity : number := S754_infinity false.
Definition zero : number := S754_zero false.

(** The double nearest to an integer. *)
Definition ofZ (z : Z) : number := binary_normalize prec emax z 0 false.

Definition mul : number → number → number := SFmul prec emax.
Definition sub : number → number → number := SFsub prec emax.
Definition div : number → number → number := SFdiv prec emax.

Definition isNaN (x : number) : bool :=
  match x with S754_nan => true | _ => false end.
Definition isZero (x : number) : bool :=
  match x with S754_zero _ => true | _ => false end.
Definition isInfinite (x : number) : bool :=
  match x with S754_infinity _ => true | _ => false end.

(** Structural comparison; on canonical representations it is equality of
    the represented doubles (with [NaN] equal to itself, [+0 ≠ -0]). *)
Definition same (x y : number) : bool :=
  match x, y with
  | S754_nan, S754_nan => true
  | S754_zero s, S754_zero t => Bool.eqb s t
  | S754_infinity s, S754_infinity t => Bool.eqb s t
  | S754_finite s m e, S754_finite t n f =>
      Bool.eqb s t && Pos.eqb m n && Z.eqb e f
  | _, _ => false
  end.

(** The double nearest to [(-1)^s * m * 10^e], for [0 ≤ m]. *)
Definition scale10 (s : bool) (m e : Z) : number :=
  match m with
  | Zpos p =>
      if 0 <=? e then binary_round prec emax s (Z.to_pos (m * 10 ^ e)) 0
      else SFdiv prec emax (S754_finite s p 0)
                           (S754_finite false (Z.to_pos (10 ^ (- e))) 0)
  | _ => S754_zero s
  end.

(** ** Decimal digits *)

Definition digitChar (d : Z) : ascii := ascii_of_N (Z.to_N (48 + d)).

Definition digitVal (c : ascii) : option Z :=
  let n := Z.of_N (N_of_ascii c) in
  if (48 <=? n) && (n <=? 57) then Some (n - 48) else None.

Fixpoint decimalAux (fuel : nat) (z : Z) (acc : string) : string :=
  match fuel with
  | O => acc
  | S fuel' =>
      if z <? 10 then String (digitChar z) acc
      else decimalAux fuel' (z / 10) (String (digitChar (z mod 10)) acc)
  end.

(** The decimal numeral of a non-negative integer, without leading zeros. *)
Definition decimal (z : Z) : string :=
  decimalAux (S (Z.to_nat (Z.log2 z))) z "".

Fixpoint zeros (n : nat) : string :=
  match n with O => "" | S n' => String "0" (zeros n') end.

Fixpoint takeS (n : nat) (s : string) : string :=
  match n, s with
  | S n', String c s' => String c (takeS n' s')
  | _, _ => ""
  end.

Fixpoint dropS (n : nat) (s : string) : string :=
  match n, s with
  | S n', String _ s' => dropS n' s'
  | _, _ => s
  end.

(** ** Number::toString (radix 10) *)

(** [scaled m e p] is the pair (quotient, remainder, divisor) of the exact
    value of [m * 2^e * 10^p] written as a fraction. *)
Definition scaled (m : positive) (e p : Z) : Z * Z * Z :=
  let num := Zpos m * (if 0 <=? e then 2 ^ e else 1)
                    * (if 0 <=? p then 10 ^ p else 1) in
  let den := (if 0 <=? e then 1 else 2 ^ (- e))
             * (if 0 <=? p then 1 else 10 ^ (- p)) in
  (num / den, num mod den, den).

(** The [n] with [10^(n-1) ≤ m * 2^e < 10^n]. *)
Fixpoint magnitudeBelow (fuel : nat) (m : positive) (e : Z) (t : Z) : Z :=
  match fuel with
  | O => 1 - t
  | S fuel' =>
      let '(q, _, _) := scaled m e t in
      if 1 <=? q then 1 - t else magnitudeBelow fuel' m e (t + 1)
  end.

Definition magnitude (m : positive) (e : Z) : Z :=
  let '(q, _, _) := scaled m e 0 in
  if 1 <=? q then Z.of_nat (String.length (decimal q))
  else magnitudeBelow 400 m e 1.

(** The shortest digit string [s] (with [k] digits) and exponent [n] such
    that [s * 10^(n-k)] rounds to the double [m * 2^e]; among the candidates
    of that length, the one closest to the double. *)
Fixpoint shortest (fuel : nat) (m : positive) (e n0 k : Z) : Z * Z * Z :=
  let '(q, r, den) := scaled m e (k - n0) in
  let x := S754_finite false m e in
  let okLo := same (scale10 false q (n0 - k)) x in
  let okHi := same (scale10 false (q + 1) (n0 - k)) x in
  let pick (s : Z) :=
    if s =? 10 ^ k then (10 ^ (k - 1), k, n0 + 1) else (s, k, n0) in
  match fuel with
  | O => pick q
  | S fuel' =>
      if okLo && okHi then
        match Z.compare (2 * r) den with
        | Lt => pick q
        | Gt => pick (q + 1)
        | Eq => if Z.even q then pick q else pick (q + 1)
        end
      else if okLo then pick q
      else if okHi then pick (q + 1)
      else shortest fuel' m e n0 (k + 1)
  end.

Definition toString (x : number) : string :=
  match x with
  | S754_nan => "NaN"
  | S754_zero _ => "0"
  | S754_infinity s => if s then "-Infinity" else "Infinity"
  | S754_finite sg m e =>
      let '(s, k, n) := shortest 20 m e (magnitude m e) 1 in
      let ds := decimal s in
      (if sg then "-" else "") +:+
      (if (k <=? n) && (n <=? 21) then ds +:+ zeros (Z.to_nat (n - k))
       else if (0 <? n) && (n <=? 21) then
         takeS (Z.to_nat n) ds +:+ "." +:+ dropS (Z.to_nat n) ds
       else if (-6 <? n) && (n <=? 0) then
         "0." +:+ zeros (Z.to_nat (- n)) +:+ ds
       else
         let ex := n - 1 in
         let exs := (if ex <? 0 then "-" else "+") +:+ decimal (Z.abs ex) in
         if k =? 1 then ds +:+ "e" +:+ exs
         else takeS 1 ds +:+ "." +:+ dropS 1 ds +:+ "e" +:+ exs)
  end.

(** ** Number.prototype.toFixed *)

(** The integer [n] for which [n / 10^f - m * 2^e] is as close to zero as
    possible, the larger one when there are two. *)
Definition fixedNearest (m : positive) (e : Z) (f : nat) : Z :=
  let num := Zpos m * 10 ^ Z.of_nat f in
  if 0 <=? e then num * 2 ^ e
  else (2 * num + 2 ^ (- e)) / (2 * 2 ^ (- e)).

Definition fixedDigits (n : Z) (f : nat) : string :=
  let m := decimal n in
  match f with
  | O => m
  | _ =>
      let k := String.length m in
      let m' := if (k <=? f)%nat then zeros (f + 1 - k) +:+ m else m in
      let k' := String.length m' in
      takeS (k' - f) m' +:+ "." +:+ dropS (k' - f) m'
  end.

Definition atLeast1e21 (m : positive) (e : Z) : bool :=
  let '(q, _, _) := scaled m e 0 in 10 ^ 21 <=? q.

(** [x.toFixed(f)], for [0 ≤ f ≤ 100] (outside that range the runtime
    raises a RangeError; the dashboard passes the literals 2 and 3 only). *)
Definition toFixed (x : number) (f : nat) : string :=
  match x with
  | S754_finite s m e =>
      (if s then "-" else "") +:+
      (if atLeast1e21 m e then toString (S754_finite false m e)
       else fixedDigits (fixedNearest m e f) f)
  | S754_zero _ => fixedDigits 0 f
  | _ => toString x
  end.

(** ** StringToNumber and parseFloat *)

(** WhiteSpace and LineTerminator code units (below 256). *)
Definition isSpace (c : ascii) : bool :=
  let n := N_of_ascii c in
  bool_decide (n ∈ [9; 10; 11; 12; 13; 32; 160]%N).

Fixpoint trimStart (s : string) : string :=
  match s with
  | String c s' => if isSpace c then trimStart s' else s
  | EmptyString => s
  end.

Definition trim (s : string) : string :=
  String.rev (trimStart (String.rev (trimStart s))).

(** Leading decimal digits: their value, their count, and the rest. *)
Fixpoint digitsOf (s : string) (acc : Z) (cnt : Z) : Z * Z * string :=
  match s with
  | String c s' =>
      match digitVal c with
      | Some d => digitsOf s' (10 * acc + d) (cnt + 1)
      | None => (acc, cnt, s)
      end
  | EmptyString => (acc, cnt, s)
  end.

Definition signOf (s : string) : bool * string :=
  match s with
  | String "-" s' => (true, s')
  | String "+" s' => (false, s')
  | _ => (false, s)
  end.

(** An optional ExponentPart: its value and the rest. *)
Definition exponentOf (s : string) : Z * string :=
  match s with
  | String c s' =>
      if bool_decide (c = "e"%char ∨ c = "E"%char) then
        let '(sg, s'') := signOf s' in
        let '(v, cnt, rest) := digitsOf s'' 0 0 in
        if 0 <? cnt then ((if sg then - v else v), rest) else (0, s)
      else (0, s)
  | EmptyString => (0, s)
  end.

Definition stripPrefix (p s : string) : option string :=
  if String.prefix p s
  then Some (dropS (String.length p) s) else None.

(** The longest prefix of [s] that is a StrDecimalLiteral: its value and
    the rest of the string. *)
Definition decimalLiteral (s : string) : option (number * string) :=
  let '(sg, s1) := signOf s in
  match stripPrefix "Infinity" s1 with
  | Some rest => Some (S754_infinity sg, rest)
  | None =>
      let '(ip, icnt, s2) := digitsOf s1 0 0 in
      match s2 with
      | String "." s3 =>
          let '(m, fcnt, s4) := digitsOf s3 ip 0 in
          if (icnt =? 0) && (fcnt =? 0) then None
          else
            let '(ex, rest) := exponentOf s4 in
            Some (scale10 sg m (ex - fcnt), rest)
      | _ =>
          if icnt =? 0 then None
          else
            let '(ex, rest) := exponentOf s2 in
            Some (scale10 sg ip ex, rest)
      end
  end.

Definition parseFloat (s : string) : number :=
  match decimalLiteral (trimStart s) with
  | Some (x, _) => x
  | None => NaN
  end.

Definition radixDigit (c : ascii) : option Z :=
  let n := Z.of_N (N_of_ascii c) in
  if (48 <=? n) && (n <=? 57) then Some (n - 48)
  else if (97 <=? n) && (n <=? 102) then Some (n - 87)
  else if (65 <=? n) && (n <=? 70) then Some (n - 55)
  else None.

Fixpoint radixDigits (b : Z) (s : string) (acc : Z) : option Z :=
  match s with
  | String c s' =>
      match radixDigit c with
      | Some d => if d <? b then radixDigits b s' (b * acc + d) else None
      | None => None
      end
  | EmptyString => Some acc
  end.

(** A NonDecimalIntegerLiteral ([0x], [0o], [0b] and their capitals). *)
Definition nonDecimalLiteral (s : string) : option number :=
  match s with
  | String "0" (String c (String d s')) =>
      let body := String d s' in
      let radix :=
        if bool_decide (c = "x"%char ∨ c = "X"%char) then Some 16
        else if bool_decide (c = "o"%char ∨ c = "O"%char) then Some 8
        else if bool_decide (c = "b"%char ∨ c = "B"%char) then Some 2
        else None in
      match radix with
      | Some b => ofZ <$> radixDigits b body 0
      | None => None
      end
  | _ => None
  end.

Definition StringToNumber (s : string) : number :=
  let t := trim s in
  match t with
  | EmptyString => zero
  | _ =>
      match nonDecimalLiteral t with
      | Some x => x
      | None =>
          match decimalLiteral t with
          | Some (x, EmptyString) => x
          | _ => NaN
          end
      end
  end.

End Number.

Import Number.

(* ===================================================================== *)
(** * ECMAScript values                                                   *)
(* ===================================================================== *)

(** The values the dashboard handles: what [JSON.parse] produces, plus
    [undefined] (the result of reading a missing property).  Objects are
    finite maps from property names to values; no value is callable. *)
Inductive value :=
| VUndefined
| VNull
| VBool (b : bool)
| VNum (x : number)
| VStr (s : string)
| VArr (a : list value)
| VObj (o : gmap string value).

(** The values [JSON.parse] can return. *)
Inductive JSON : value → Prop :=
| JSON_null : JSON VNull
| JSON_bool b : JSON (VBool b)
| JSON_num x : isNaN x = false → valid_binary prec emax x = true → JSON (VNum x)
| JSON_str s : JSON (VStr s)
| JSON_arr a : Forall JSON a → JSON (VArr a)
| JSON_obj o : map_Forall (λ _ v, JSON v) o → JSON (VObj o).

(** An object literal with the given properties. *)
Definition object (props : list (string * value)) : value :=
  VObj (list_to_map props).

(** ** Completions: a value, or a thrown exception *)

Inductive exn := TypeError.

Inductive result (A : Type) :=
| Ok (a : A)
| Throw (e : exn).
Arguments Ok {A} a.
Arguments Throw {A} e.

#[global] Instance result_ret : MRet result := λ A a, Ok a.
#[global] Instance result_bind : MBind result := λ A B f r,
  match r with Ok a => f a | Throw e => Throw e end.
#[global] Instance result_fmap : FMap result := λ A B f r,
  match r with Ok a => Ok (f a) | Throw e => Throw e end.

Definition isOk {A} (r : result A) : bool :=
  match r with Ok _ => true | Throw _ => false end.

(** ** Abstract operations *)

Module JS.

(** ToBoolean. *)
Definition truthy (v : value) : bool :=
  match v with
  | VUndefined | VNull => false
  | VBool b => b
  | VNum x => negb (isZero x || isNaN x)
  | VStr s => negb (bool_decide (s = ""))
  | VArr _ | VObj _ => true
  end.

Definition nullish (v : value) : bool :=
  match v with VUndefined | VNull => true | _ => false end.

(** [a ?? b] and [a || b], for an operand [b] without effects. *)
Definition coalesce (a b : value) : value := if nullish a then b else a.
Definition or (a b : value) : value := if truthy a then a else b.

(** ToString.  An object converts through [Object.prototype.toString]
    unless it has an own property [toString]: that property shadows the
    inherited method, is not callable, and OrdinaryToPrimitive then finds
    no primitive.  An array converts through [Array.prototype.join]. *)
Fixpoint ToString (v : value) : result string :=
  match v with
  | VUndefined => Ok "undefined"
  | VNull => Ok "null"
  | VBool b => Ok (if b then "true" else "false")
  | VNum x => Ok (Number.toString x)
  | VStr s => Ok s
  | VArr a =>
      String.concat "," <$>
        mapM (λ e, match e with
                   | VUndefined | VNull => Ok ""
                   | _ => ToString e
                   end) a
  | VObj o =>
      match o !! "toString" with
      | Some _ => Throw TypeError
      | None => Ok "[object Object]"
      end
  end.

(** ToNumber; arrays and objects go through ToPrimitive, which for them
    ends in the string conversion above. *)
Definition ToNumber (v : value) : result number :=
  match v with
  | VUndefined => Ok NaN
  | VNull => Ok zero
  | VBool b => Ok (if b then ofZ 1 else zero)
  | VNum x => Ok x
  | VStr s => Ok (StringToNumber s)
  | VArr _ | VObj _ => StringToNumber <$> ToString v
  end.

Definition indexed (a : list value) : gmap string value :=
  list_to_map (imap (λ i e, (decimal (Z.of_nat i), e)) a).

Definition codeUnits (s : string) : list value :=
  (λ c, VStr (String c "")) <$> list_ascii_of_string s.

(** The own enumerable properties of a value, as object spread
    [{...v}] copies them. *)
Definition ownProps (v : value) : gmap string value :=
  match v with
  | VObj o => o
  | VArr a => indexed a
  | VStr s => indexed (codeUnits s)
  | _ => ∅
  end.

(** [v.k] for a property name [k].  Inherited members are not modelled:
    the dashboard reads none ([date], [price], [ds], [yhat], [symbol],
    [error], [regression], [classification] and the metric names are not
    members of any built-in prototype). *)
Definition getProp (v : value) (k : string) : result value :=
  match v with
  | VUndefined | VNull => Throw TypeError
  | VArr a =>
      if bool_decide (k = "length") then Ok (VNum (ofZ (Z.of_nat (length a))))
      else Ok (default VUndefined (ownProps v !! k))
  | VStr s =>
      if bool_decide (k = "length")
      then Ok (VNum (ofZ (Z.of_nat (String.length s))))
      else Ok (default VUndefined (ownProps v !! k))
  | _ => Ok (default VUndefined (ownProps v !! k))
  end.

(** [v.map(f)]: only an array has a callable [map]. *)
Definition arrayMap (f : value → result value) (v : value)
  : result (list value) :=
  match v with
  | VArr a => mapM f a
  | _ => Throw TypeError
  end.

End JS.

Import JS.

(* ===================================================================== *)
(** * The dashboard                                                       *)
(* ===================================================================== *)

Definition API_BASE : string :=
  "https://quantitative-stock-price-forecasting-using-the-t-production.up.railway.app".

Definition USD_TO_INR : number := ofZ 83.

(** [(value ?? 0) * USD_TO_INR], printed with two decimals and read back. *)
Definition convertToInr (v : value) : result number :=
  x ← ToNumber (coalesce v (VNum zero));
  Ok (parseFloat (toFixed (mul x USD_TO_INR) 2)).

(** [Number(v)]. *)
Definition toNumberValue (v : value) : result value := VNum <$> ToNumber v.

(** [Number(value ?? 0).toFixed(digits)], for the digit counts 2 and 3 the
    overlay asks for; as for [toFixed], the model covers [digits] up to
    100, beyond which the runtime raises a RangeError.  ([formatPrice] and
    [formatVolume] delegate to [Intl.NumberFormat] and are not modelled.) *)
Definition formatDecimal (v : value) (digits : nat) : result string :=
  x ← ToNumber (coalesce v (VNum zero));
  Ok (toFixed x digits).

Definition emptyMatrix : value :=
  object [("tn", VNum zero); ("fp", VNum zero);
          ("fn", VNum zero); ("tp", VNum zero)].

Definition transformMetrics (metricsData : value) : result value :=
  if negb (truthy metricsData) then Ok VNull
  else
    err ← getProp metricsData "error";
    if truthy err then Ok VNull
    else
      r ← getProp metricsData "regression";
      let regression := or r (object []) in
      c ← getProp metricsData "classification";
      let classification := or c (object []) in
      mae ← getProp regression "mae";
      mae' ← convertToInr (coalesce mae (VNum zero));
      rmse ← getProp regression "rmse";
      rmse' ← convertToInr (coalesce rmse (VNum zero));
      mape ← getProp regression "mape";
      mape' ← toNumberValue (coalesce mape (VNum zero));
      r2 ← getProp regression "r2";
      r2' ← toNumberValue (coalesce r2 (VNum zero));
      accuracy ← getProp classification "accuracy";
      accuracy' ← toNumberValue (coalesce accuracy (VNum zero));
      precision ← getProp classification "precision";
      precision' ← toNumberValue (coalesce precision (VNum zero));
      recall ← getProp classification "recall";
      recall' ← toNumberValue (coalesce recall (VNum zero));
      f1 ← getProp classification "f1";
      f1' ← toNumberValue (coalesce f1 (VNum zero));
      cm ← getProp classification "confusion_matrix";
      Ok (VObj
            (<["classification" :=
                 VObj (<["confusion_matrix" := or cm emptyMatrix]>
                      (<["f1" := f1']>
                      (<["recall" := recall']>
                      (<["precision" := precision']>
                      (<["accuracy" := accuracy']>
                         (ownProps classification))))))]>
            (<["regression" :=
                 VObj (<["r2" := r2']>
                      (<["mape" := mape']>
                      (<["rmse" := VNum rmse']>
                      (<["mae" := VNum mae']>
                         (ownProps regression)))))]>
               (ownProps metricsData)))).

(** ** Component state *)

Record state := State {
  selectedStock : value;
  mergedData : list value;
  stockData : list value;
  loading : bool;
  companies : value;
  metrics : value
}.

(** The [useState] initial values. *)
Definition initialState : state :=
  {| selectedStock := VNull; mergedData := []; stockData := [];
     loading := false; companies := VArr []; metrics := VNull |}.

Definition setSelectedStock (v : value) (st : state) : state :=
  {| selectedStock := v; mergedData := mergedData st;
     stockData := stockData st; loading := loading st;
     companies := companies st; metrics := metrics st |}.
Definition setMergedData (l : list value) (st : state) : state :=
  {| selectedStock := selectedStock st; mergedData := l;
     stockData := stockData st; loading := loading st;
     companies := companies st; metrics := metrics st |}.
Definition setStockData (l : list value) (st : state) : state :=
  {| selectedStock := selectedStock st; mergedData := mergedData st;
     stockData := l; loading := loading st;
     companies := companies st; metrics := metrics st |}.
Definition setLoading (b : bool) (st : state) : state :=
  {| selectedStock := selectedStock st; mergedData := mergedData st;
     stockData := stockData st; loading := b;
     companies := companies st; metrics := metrics st |}.
Definition setMetrics (v : value) (st : state) : state :=
  {| selectedStock := selectedStock st; mergedData := mergedData st;
     stockData := stockData st; loading := loading st;
     companies := companies st; metrics := v |}.

(** Handlers run against the component state and may throw; the updates
    made before a throw stay. *)
Definition eff (A : Type) : Type := state → result A * state.

#[global] Instance eff_ret : MRet eff := λ A a st, (Ok a, st).
#[global] Instance eff_bind : MBind eff := λ A B f m st,
  match m st with
  | (Ok a, st') => f a st'
  | (Throw e, st') => (Throw e, st')
  end.

Definition lift {A} (r : result A) : eff A := λ st, (r, st).
Definition set (f : state → state) : eff unit := λ st, (Ok tt, f st).
Definition catch {A} (m : eff A) (h : exn → eff A) : eff A := λ st,
  match m st with
  | (Throw e, st') => h e st'
  | completed => completed
  end.

(** ** handleStockSelect *)

(** The three mapping callbacks of the [.then] callback:
    [d => ({...d, price: convertToInr(d.price)})],
    [d => ({date: d.date, price: d.price})] and
    [d => ({date: d.ds, prediction: convertToInr(d.yhat)})]. *)
Definition convertRecord (d : value) : result value :=
  p ← getProp d "price";
  p' ← convertToInr p;
  Ok (VObj (<["price" := VNum p']> (ownProps d))).

Definition pricePoint (d : value) : result value :=
  date ← getProp d "date";
  price ← getProp d "price";
  Ok (object [("date", date); ("price", price)]).

Definition forecastPoint (d : value) : result value :=
  ds ← getProp d "ds";
  yhat ← getProp d "yhat";
  prediction ← convertToInr yhat;
  Ok (object [("date", ds); ("prediction", VNum prediction)]).

(** [(historicalData || []).map(...)] *)
Definition convertedHistorical (historicalData : value) : result (list value) :=
  arrayMap convertRecord (or historicalData (VArr [])).

(** The merged chart series, from the converted historical records and
    the forecast payload. *)
Definition merged (convertedHistorical : list value) (predictionData : value)
  : result (list value) :=
  hs ← mapM pricePoint convertedHistorical;
  fs ← arrayMap forecastPoint (or predictionData (VArr []));
  Ok (hs ++ fs).

(** What a [fetch] settles to: a rejection, or a response with its status
    flag and, when its body is JSON text, the parsed body. *)
Inductive fetched :=
| NetworkError
| Response (ok : bool) (json : option value).

(** [fetch(url).then(res => res.json())]: fulfilled with the parsed body,
    or rejected.  The status flag is not read. *)
Definition fetchJson (net : string → fetched) (url : string) : option value :=
  match net url with
  | NetworkError => None
  | Response _ body => body
  end.

(** The endpoint URL [`${API_BASE}/<route>/${company.symbol}`]. *)
Definition endpoint (route : string) (company : value) : result string :=
  symbol ← getProp company "symbol";
  s ← ToString symbol;
  Ok (API_BASE +:+ "/" +:+ route +:+ "/" +:+ s).

(** The [.then] callback of the join. *)
Definition onData (historicalData predictionData metricsData : value) : eff unit :=
  ch ← lift (convertedHistorical historicalData);
  set (setStockData ch);;
  mg ← lift (merged ch predictionData);
  set (setMergedData mg);;
  m ← lift (transformMetrics metricsData);
  set (setMetrics m);;
  set (setLoading false).

(** The [.catch] callback of the join (the [console.error] is not modelled). *)
Definition onError : eff unit :=
  set (setStockData []);;
  set (setMergedData []);;
  set (setMetrics VNull);;
  set (setLoading false).

(** [handleStockSelect(company)], run until the join has settled and its
    callback has returned, against the network [net]. *)
Definition handleStockSelect (net : string → fetched) (company : value) : eff unit :=
  set (setLoading true);;
  set (setSelectedStock company);;
  stock ← lift (endpoint "stock" company);
  predict ← lift (endpoint "predict" company);
  metricsUrl ← lift (endpoint "metrics" company);
  match fetchJson net stock, fetchJson net predict, fetchJson net metricsUrl with
  | Some historicalData, Some predictionData, Some metricsData =>
      catch (onData historicalData predictionData metricsData) (λ _, onError)
  | _, _, _ => onError
  end.

(** ** Derived figures *)

Definition getCurrentPrice (stockData : list value) : result value :=
  match last stockData with
  | Some d => getProp d "price"
  | None => Ok (VNum zero)
  end.

Definition getPriceChange (stockData : list value) : result value :=
  if (length stockData <? 2)%nat
  then Ok (object [("change", VNum zero); ("percentage", VNum zero)])
  else
    current ← getProp (default VUndefined (stockData !! (length stockData - 1)%nat)) "price";
    previous ← getProp (default VUndefined (stockData !! (length stockData - 2)%nat)) "price";
    c ← ToNumber current;
    p ← ToNumber previous;
    let change := sub c p in
    p' ← ToNumber previous;
    Ok (object [("change", VNum change);
                ("percentage", VNum (mul (div change p') (ofZ 100)))]).


(* ===================================================================== *)
(** * Vocabulary of the specification                                     *)
(* ===================================================================== *)

(** [v.k] as a value, for a receiver that is not [null] or [undefined] and
    a name other than [length]. *)
Definition prop (v : value) (k : string) : value :=
  default VUndefined (ownProps v !! k).

(** Values whose numeric coercion cannot throw: no object with an own
    [toString] property is reached through arrays. *)
Fixpoint plain (v : value) : bool :=
  match v with
  | VArr a => forallb plain a
  | VObj o => match o !! "toString" with Some _ => false | None => true end
  | _ => true
  end.

(** An array element the mapping callbacks can process: it is not [null]
    or [undefined], and the field they coerce is plain. *)
Definition usable (leaf : string) (d : value) : bool :=
  negb (nullish d) && plain (prop d leaf).

(** A payload the [(payload || []).map(...)] idiom accepts. *)
Definition usablePayload (leaf : string) (v : value) : bool :=
  negb (truthy v) ||
  match v with
  | VArr a => forallb (usable leaf) a
  | _ => false
  end.

Definition regressionOf (m : value) : value :=
  or (prop m "regression") (object []).
Definition classificationOf (m : value) : value :=
  or (prop m "classification") (object []).

Definition convertedLeaves : list string := ["mae"; "rmse"].
Definition regressionLeaves : list string := ["mape"; "r2"].
Definition classificationLeaves : list string :=
  ["accuracy"; "precision"; "recall"; "f1"].

(** A metrics payload whose eight coerced leaves are plain. *)
Definition plainMetrics (m : value) : bool :=
  forallb (λ k, plain (prop (regressionOf m) k))
          (convertedLeaves ++ regressionLeaves) &&
  forallb (λ k, plain (prop (classificationOf m) k)) classificationLeaves.

(** A metrics payload [transformMetrics] can use: the guard stops it, or
    its leaves are plain. *)
Definition usableMetrics (m : value) : bool :=
  negb (truthy m) || truthy (prop m "error") || plainMetrics m.

(** The currency conversion on numbers: times 83, two decimals. *)
Definition inr (x : number) : number :=
  parseFloat (toFixed (mul x (ofZ 83)) 2).

(** The object [transformMetrics] returns for a payload [m] that passes its
    guard, given the numbers its eight leaves coerce to. *)
Definition normalized (m : value)
    (mae rmse mape r2 accuracy precision recall f1 : number) : value :=
  VObj
    (<["classification" :=
         VObj (<["confusion_matrix" :=
                   or (prop (classificationOf m) "confusion_matrix") emptyMatrix]>
              (<["f1" := VNum f1]>
              (<["recall" := VNum recall]>
              (<["precision" := VNum precision]>
              (<["accuracy" := VNum accuracy]>
                 (ownProps (classificationOf m)))))))]>
    (<["regression" :=
         VObj (<["r2" := VNum r2]>
              (<["mape" := VNum mape]>
              (<["rmse" := VNum (inr rmse)]>
              (<["mae" := VNum (inr mae)]>
                 (ownProps (regressionOf m))))))]>
       (ownProps m))).

(** The number a leaf [k] of the section [s] coerces to, 0 standing in for
    a missing leaf. *)
Definition leafNumber (s : value) (k : string) : result number :=
  ToNumber (coalesce (prop s k) (VNum zero)).


(** The composition the handler performs on the two series payloads; the
    specification calls it buildMergedSeries. *)
Definition buildMergedSeries (historicalData predictionData : value)
  : result (list value) :=
  ch ← convertedHistorical historicalData;
  merged ch predictionData.

(** The projection of a raw historical record onto [{date, price}], in the
    specification's words: conversion and projection in one step. *)
Definition historicalPoint (d : value) : result value :=
  date ← getProp d "date";
  price ← getProp d "price";
  p ← convertToInr price;
  Ok (object [("date", date); ("price", VNum p)]).

(** A chart point with a price and no prediction, and the converse. *)
Definition priceOnly (pt : value) : Prop :=
  ∃ o x, pt = VObj o ∧ o !! "price" = Some (VNum x) ∧ o !! "prediction" = None.
Definition predictionOnly (pt : value) : Prop :=
  ∃ o x, pt = VObj o ∧ o !! "prediction" = Some (VNum x) ∧ o !! "price" = None.

(** A stored historical record: its price is a number. *)
Definition priced (d : value) (x : number) : Prop :=
  getProp d "price" = Ok (VNum x).

(** The view state the [.catch] callback leaves. *)
Definition isReset (st : state) : Prop :=
  stockData st = [] ∧ mergedData st = [] ∧ metrics st = VNull ∧
  loading st = false.

(** ** Sample payloads *)

Definition num (m e : Z) : value := VNum (scale10 false m e).

Definition AAPL : value :=
  object [("symbol", VStr "AAPL"); ("name", VStr "Apple"); ("sector", VStr "Tech")].

Definition sampleHistorical : list value :=
  [object [("date", VStr "2024-01-01"); ("price", num 100 0); ("volume", num 5000 0)];
   object [("date", VStr "2024-01-02"); ("price", num 12045 (-4)); ("volume", num 7000 0)];
   object [("date", VStr "2024-01-03"); ("volume", num 1 0)]].

(** A forecast whose dates repeat the last two historical dates. *)
Definition sampleForecast : list value :=
  [object [("ds", VStr "2024-01-02"); ("yhat", num 2 0)];
   object [("ds", VStr "2024-01-03"); ("yhat", num 25 (-1))]].

(** The metrics payload of the specification's scenario 9. *)
Definition sampleMetrics : value :=
  object
    [("regression",
      object [("mae", num 1 0); ("rmse", num 2 0); ("mape", num 3 0);
              ("r2", num 9 (-1))]);
     ("classification",
      object [("accuracy", num 8 (-1)); ("precision", num 7 (-1));
              ("recall", num 6 (-1)); ("f1", num 65 (-2));
              ("confusion_matrix",
               object [("tn", num 1 0); ("fp", num 2 0);
                       ("fn", num 3 0); ("tp", num 4 0)])])].

Definition errorBody : value := object [("error", VStr "x")].

(** Stored historical records priced 0 and 110. *)
Definition flatRecord : value := object [("price", num 0 0)].
Definition risenRecord : value := object [("price", num 110 0)].

(** A metrics payload whose error field is present and empty. *)
Definition emptyErrorBody : value := object [("error", VStr "")].

(** A network on which the three endpoints of [AAPL] answer with the
    given outcomes. *)
Definition network (stock predict metricsR : fetched) (url : string) : fetched :=
  if bool_decide (url = API_BASE +:+ "/stock/AAPL") then stock
  else if bool_decide (url = API_BASE +:+ "/predict/AAPL") then predict
  else if bool_decide (url = API_BASE +:+ "/metrics/AAPL") then metricsR
  else NetworkError.

(** The endpoints answer with the sample series, and the metrics endpoint
    with a non-OK status and a JSON error body. *)
Definition metricsRefused : string → fetched :=
  network (Response true (Some (VArr sampleHistorical)))
          (Response true (Some (VArr sampleForecast)))
          (Response false (Some errorBody)).

(** The stock endpoint cannot be reached. *)
Definition stockUnreachable : string → fetched :=
  network NetworkError
          (Response true (Some (VArr sampleForecast)))
          (Response true (Some sampleMetrics)).

(** A metrics payload with a leaf that is an object having an own
    [toString] property. *)
Definition shadowedMetrics : value :=
  object [("regression",
           object [("mae", object [("toString", VNull)])])].

(** A metrics payload with one regression leaf, no classification section
    and no confusion matrix (scenario 5 of the specification). *)
Definition partialMetrics : value :=
  object [("regression", object [("mae", num 1 0)]); ("symbol", VStr "AAPL")].

(* ===================================================================== *)
(** * The rest of the component                                           *)
(* ===================================================================== *)

Definition setCompanies (v : value) (st : state) : state :=
  {| selectedStock := selectedStock st; mergedData := mergedData st;
     stockData := stockData st; loading := loading st;
     companies := v; metrics := metrics st |}.

(** ** A selection in two steps *)

(** The synchronous part of [handleStockSelect]: the two state updates and
    the three request URLs. *)
Definition selectBegin (company : value) : eff (string * string * string) :=
  set (setLoading true);;
  set (setSelectedStock company);;
  stock ← lift (endpoint "stock" company);
  predict ← lift (endpoint "predict" company);
  metricsUrl ← lift (endpoint "metrics" company);
  mret (stock, predict, metricsUrl).

(** The settlement of the join of the three requests, whenever it
    happens. *)
Definition selectSettle (net : string → fetched)
    (urls : string * string * string) : eff unit :=
  match fetchJson net urls.1.1, fetchJson net urls.1.2, fetchJson net urls.2 with
  | Some historicalData, Some predictionData, Some metricsData =>
      catch (onData historicalData predictionData metricsData) (λ _, onError)
  | _, _, _ => onError
  end.

(** ** The mount effect *)

Definition symbolsUrl : string := API_BASE +:+ "/symbols".

(** [items && items.length > 0] *)
Definition hasItems (items : value) : result bool :=
  if truthy items then
    len ← getProp items "length";
    n ← ToNumber len;
    Ok (SFltb zero n)
  else Ok false.

(** The [.then(items => ...)] callback of the mount effect. *)
Definition onSymbols (net : string → fetched) (items : value) : eff unit :=
  set (setCompanies items);;
  go ← lift (hasItems items);
  if go : bool then
    first ← lift (getProp items "0");
    handleStockSelect net first
  else mret tt.

(** The effect run once on mount: fetch the symbols, store them, select
    the first; on any failure store an empty list. *)
Definition onMount (net : string → fetched) : eff unit :=
  match fetchJson net symbolsUrl with
  | Some items => catch (onSymbols net items) (λ _, set (setCompanies (VArr [])))
  | None => set (setCompanies (VArr []))
  end.

(** ** States the component can be in *)

(** The states reached from the initial one by the mount effect, by the
    synchronous part of a selection and by the settlement of a join, in
    any order. *)
Inductive reachable : state → Prop :=
| reachable_initial : reachable initialState
| reachable_mount net st :
    reachable st → reachable (snd (onMount net st))
| reachable_begin company st :
    reachable st → reachable (snd (selectBegin company st))
| reachable_settle net urls st :
    reachable st → reachable (snd (selectSettle net urls st)).

(** What every reachable state satisfies: the stored records are objects
    with a numeric price, the merged series is their projection followed
    by forecast points, and the metrics are [null] or a normalized
    object. *)
Definition storedRecord (d : value) : Prop :=
  ∃ o x, d = VObj o ∧ o !! "price" = Some (VNum x).

Definition shaped (st : state) : Prop :=
  Forall storedRecord (stockData st) ∧
  (∃ hs fs, mapM pricePoint (stockData st) = Ok hs ∧
            mergedData st = hs ++ fs ∧ Forall predictionOnly fs) ∧
  (metrics st = VNull ∨
   ∃ m a b c d e f g h, metrics st = normalized m a b c d e f g h).

(** ** More sample data *)

Definition MSFT : value :=
  object [("symbol", VStr "MSFT"); ("name", VStr "Microsoft"); ("sector", VStr "Tech")].

(** A network serving the sample series for [AAPL], empty series and no
    metrics for [MSFT], and the two companies as symbols. *)
Definition twoCompanies (url : string) : fetched :=
  if bool_decide (url = symbolsUrl) then Response true (Some (VArr [AAPL; MSFT]))
  else if bool_decide (url = API_BASE +:+ "/stock/AAPL")
    then Response true (Some (VArr sampleHistorical))
  else if bool_decide (url = API_BASE +:+ "/predict/AAPL")
    then Response true (Some (VArr sampleForecast))
  else if bool_decide (url = API_BASE +:+ "/metrics/AAPL")
    then Response true (Some sampleMetrics)
  else if bool_decide (url = API_BASE +:+ "/stock/MSFT")
    then Response true (Some (VArr []))
  else if bool_decide (url = API_BASE +:+ "/predict/MSFT")
    then Response true (Some (VArr []))
  else if bool_decide (url = API_BASE +:+ "/metrics/MSFT")
    then Response true (Some errorBody)
  else NetworkError.

(** A symbols endpoint that answers with the given body. *)
Definition symbolsOnly (body : option value) (url : string) : fetched :=
  if bool_decide (url = symbolsUrl) then Response true body else NetworkError.

(** The sample series after conversion and after merging, and the sample
    metrics after normalization. *)
Definition sampleConverted : list value :=
  [object [("date", VStr "2024-01-01"); ("price", num 8300 0);
           ("volume", num 5000 0)];
   object [("date", VStr "2024-01-02"); ("price", num 9997 (-2));
           ("volume", num 7000 0)];
   object [("date", VStr "2024-01-03"); ("volume", num 1 0);
           ("price", num 0 0)]].

Definition sampleMerged : list value :=
  [object [("date", VStr "2024-01-01"); ("price", num 8300 0)];
   object [("date", VStr "2024-01-02"); ("price", num 9997 (-2))];
   object [("date", VStr "2024-01-03"); ("price", num 0 0)];
   object [("date", VStr "2024-01-02"); ("prediction", num 166 0)];
   object [("date", VStr "2024-01-03"); ("prediction", num 2075 (-1))]].

Definition sampleNormalized : value :=
  object
    [("regression",
      object [("mae", num 83 0); ("rmse", num 166 0); ("mape", num 3 0);
              ("r2", num 9 (-1))]);
     ("classification",
      object [("accuracy", num 8 (-1)); ("precision", num 7 (-1));
              ("recall", num 6 (-1)); ("f1", num 65 (-2));
              ("confusion_matrix",
               object [("tn", num 1 0); ("fp", num 2 0);
                       ("fn", num 3 0); ("tp", num 4 0)])])].

Definition urlsOf (symbol : string) : string * string * string :=
  (API_BASE +:+ "/stock/" +:+ symbol, API_BASE +:+ "/predict/" +:+ symbol,
   API_BASE +:+ "/metrics/" +:+ symbol).

(** ** What the render computes *)

(** [Math.max] and [Math.min] on the coerced arguments: [NaN] as soon as
    one is met, [+0] above [-0]. *)
Definition maxStep (highest x : number) : number :=
  let h := match x, highest with
           | S754_zero false, S754_zero true => x
           | _, _ => highest
           end in
  if SFltb h x then x else h.

Definition minStep (lowest x : number) : number :=
  let l := match x, lowest with
           | S754_zero true, S754_zero false => x
           | _, _ => lowest
           end in
  if SFltb x l then x else l.

Fixpoint mathMaxFrom (highest : number) (xs : list number) : number :=
  match xs with
  | [] => highest
  | x :: xs' => if isNaN x then NaN else mathMaxFrom (maxStep highest x) xs'
  end.

Fixpoint mathMinFrom (lowest : number) (xs : list number) : number :=
  match xs with
  | [] => lowest
  | x :: xs' => if isNaN x then NaN else mathMinFrom (minStep lowest x) xs'
  end.

Definition mathMax (xs : list number) : number :=
  mathMaxFrom (S754_infinity true) xs.
Definition mathMin (xs : list number) : number :=
  mathMinFrom (S754_infinity false) xs.

(** The argument of [formatPrice] in the High and Low cells:
    [Math.max(...stockData.map(d => d.price))] and its [Math.min] twin. *)
Definition statHigh (stockData : list value) : result number :=
  prices ← mapM (λ d, getProp d "price") stockData;
  xs ← mapM ToNumber prices;
  Ok (mathMax xs).

Definition statLow (stockData : list value) : result number :=
  prices ← mapM (λ d, getProp d "price") stockData;
  xs ← mapM ToNumber prices;
  Ok (mathMin xs).

(** ToPrimitive without a hint, and the [+] operator. *)
Definition ToPrimitive (v : value) : result value :=
  match v with
  | VArr _ | VObj _ => VStr <$> ToString v
  | _ => Ok v
  end.

Definition add (a b : value) : result value :=
  pa ← ToPrimitive a;
  pb ← ToPrimitive b;
  match pa, pb with
  | VStr s, _ => t ← ToString pb; Ok (VStr (s +:+ t))
  | _, VStr t => s ← ToString pa; Ok (VStr (s +:+ t))
  | _, _ =>
      x ← ToNumber pa;
      y ← ToNumber pb;
      Ok (VNum (SFadd prec emax x y))
  end.

(** [array.reduce(f, init)]. *)
Fixpoint reduce (f : value → value → result value) (init : value)
    (a : list value) : result value :=
  match a with
  | [] => Ok init
  | d :: a' => acc ← f init d; reduce f acc a'
  end.

(** The argument of [formatVolume] in the Avg Volume cell:
    [stockData.reduce((sum, d) => sum + d.volume, 0) / stockData.length]. *)
Definition statAvgVolume (stockData : list value) : result number :=
  total ← reduce (λ sum d, volume ← getProp d "volume"; add sum volume)
                 (VNum zero) stockData;
  t ← ToNumber total;
  Ok (div t (ofZ (Z.of_nat (length stockData)))).

(** [priceChange.change >= 0]. *)
Definition isPositive (stockData : list value) : result bool :=
  priceChange ← getPriceChange stockData;
  change ← getProp priceChange "change";
  c ← ToNumber change;
  Ok (SFleb zero c).

(** [v.toFixed(digits)] as a method call: only a number has the method. *)
Definition callToFixed (v : value) (digits : nat) : result string :=
  match v with
  | VNum x => Ok (toFixed x digits)
  | _ => Throw TypeError
  end.

(** [priceChange.percentage.toFixed(2)], the text before the percent sign
    in the header. *)
Definition percentageText (stockData : list value) : result string :=
  priceChange ← getPriceChange stockData;
  percentage ← getProp priceChange "percentage";
  callToFixed percentage 2.

(** The cells of the metrics overlay: the argument handed to
    [formatPrice], a formatted text, or a value rendered as it is. *)
Inductive cell :=
| Price (v : value)
| Text (s : string)
| Child (v : value).

Definition read2 (v : value) (a b : string) : result value :=
  x ← getProp v a; getProp x b.
Definition read3 (v : value) (a b c : string) : result value :=
  x ← getProp v a; y ← getProp x b; getProp y c.

(** [metrics && (...)]: nothing for falsy metrics, else the twelve rows. *)
Definition overlay (metrics : value) : result (option (list (string * cell))) :=
  if truthy metrics then
    mae ← read2 metrics "regression" "mae";
    rmse ← read2 metrics "regression" "rmse";
    mape ← read2 metrics "regression" "mape";
    mapeText ← formatDecimal mape 2;
    r2 ← read2 metrics "regression" "r2";
    r2Text ← formatDecimal r2 3;
    accuracy ← read2 metrics "classification" "accuracy";
    accuracyText ← formatDecimal accuracy 3;
    precision ← read2 metrics "classification" "precision";
    precisionText ← formatDecimal precision 3;
    recall ← read2 metrics "classification" "recall";
    recallText ← formatDecimal recall 3;
    f1 ← read2 metrics "classification" "f1";
    f1Text ← formatDecimal f1 3;
    tn ← read3 metrics "classification" "confusion_matrix" "tn";
    fp ← read3 metrics "classification" "confusion_matrix" "fp";
    fn ← read3 metrics "classification" "confusion_matrix" "fn";
    tp ← read3 metrics "classification" "confusion_matrix" "tp";
    Ok (Some [("MAE", Price mae); ("RMSE", Price rmse);
              ("MAPE", Text (mapeText +:+ "%")); ("R²", Text r2Text);
              ("Accuracy", Text accuracyText); ("Precision", Text precisionText);
              ("Recall", Text recallText); ("F1", Text f1Text);
              ("TN", Child tn); ("FP", Child fp); ("FN", Child fn);
              ("TP", Child tp)])
  else Ok None.

(** [a === b].  Two arrays or objects are equal when they are the same
    object; identity is not part of the model, so no answer is given
    there. *)
Definition strictEquals (a b : value) : option bool :=
  match a, b with
  | VUndefined, VUndefined | VNull, VNull => Some true
  | VBool x, VBool y => Some (Bool.eqb x y)
  | VNum x, VNum y => Some (SFeqb x y)
  | VStr s, VStr t => Some (bool_decide (s = t))
  | (VArr _ | VObj _), (VArr _ | VObj _) => None
  | _, _ => Some false
  end.

(** [v?.k] *)
Definition optionalProp (v : value) (k : string) : result value :=
  if nullish v then Ok VUndefined else getProp v k.

(** The key of a created element: React leaves an [undefined] key out and
    coerces any other one with ['' + key]. *)
Definition elementKey (key : value) : result (option string) :=
  match key with
  | VUndefined => Ok None
  | _ => k ← add (VStr "") key; s ← ToString k; Ok (Some s)
  end.

(** What React accepts as a child when it renders: text and numbers, the
    values it skips ([null], [undefined], booleans), and arrays of such
    children; an object that is not an element is refused with an Error
    ("Objects are not valid as a React child"). *)
Fixpoint validChild (v : value) : bool :=
  match v with
  | VObj _ => false
  | VArr a => forallb validChild a
  | _ => true
  end.

(** A row of the company list: the key of its element, whether it is shown
    selected, and the three children. *)
Record row := Row {
  rowKey : option string;
  rowSelected : option bool;
  rowSymbol : value;
  rowName : value;
  rowSector : value
}.

(** The callback of [companies.map]: the five property reads, then the
    creation of the element, which coerces the key. *)
Definition sidebarRow (selectedStock company : value) : result row :=
  key ← getProp company "symbol";
  selected ← optionalProp selectedStock "symbol";
  symbol ← getProp company "symbol";
  name ← getProp company "name";
  sector ← getProp company "sector";
  k ← elementKey key;
  Ok {| rowKey := k; rowSelected := strictEquals selected symbol;
        rowSymbol := symbol; rowName := name; rowSector := sector |}.

(** [companies.map(company => ...)] in the left panel. *)
Definition sidebar (companies selectedStock : value) : result (list row) :=
  match companies with
  | VArr a => mapM (sidebarRow selectedStock) a
  | _ => Throw TypeError
  end.

Definition rowAccepted (r : row) : bool :=
  validChild (rowSymbol r) && validChild (rowName r) && validChild (rowSector r).

(** The outcome of rendering the company list: the rows are shown, the
    evaluation of [companies.map(...)] throws, or React refuses a child of
    one of the created rows. *)
Inductive rendering :=
| Shown (rows : list row)
| Thrown (e : exn)
| Refused.

Definition companyList (companies selectedStock : value) : rendering :=
  match sidebar companies selectedStock with
  | Ok rows => if forallb rowAccepted rows then Shown rows else Refused
  | Throw e => Thrown e
  end.

(** The order of the numbers, as triples compared lexicographically. *)
Definition rank (x : number) : Z * Z * Z :=
  match x with
  | S754_infinity true => (-2, 0, 0)
  | S754_finite true m e => (-1, - e, - Zpos m)
  | S754_zero _ => (0, 0, 0)
  | S754_finite false m e => (1, e, Zpos m)
  | S754_infinity false => (2, 0, 0)
  | S754_nan => (3, 0, 0)
  end.

Definition below (a b : Z * Z * Z) : Prop :=
  a.1.1 < b.1.1 ∨
  (a.1.1 = b.1.1 ∧ (a.1.2 < b.1.2 ∨ (a.1.2 = b.1.2 ∧ a.2 < b.2))).

(** Stored records with volumes. *)
Definition volumeRecords : list value :=
  [object [("price", num 8300 0); ("volume", num 5000 0)];
   object [("price", num 9997 (-2))];
   object [("price", num 0 0); ("volume", num 1 0)]].

(** ** Vocabulary of the render properties *)

(** "[x] is not greater than [h]", for numbers that are not [NaN]. *)
Definition atMost (x h : number) : Prop := SFltb h x = false.

(** The reducer of the Avg Volume cell. *)
Definition addVolume (sum d : value) : result value :=
  volume ← getProp d "volume"; add sum volume.

Definition numberOrMissing (d : value) : Prop :=
  getProp d "volume" = Ok VUndefined ∨ ∃ x, getProp d "volume" = Ok (VNum x).


(** The key of an element whose key coerces, and the row created for a
    company that is not [null] or [undefined] and whose symbol coerces. *)
Definition keyText (v : value) : option string :=
  match elementKey v with Ok k => k | Throw _ => None end.

Definition childrenAccepted (company : value) : bool :=
  validChild (prop company "symbol") && validChild (prop company "name") &&
  validChild (prop company "sector").

Definition rowOf (selectedStock company : value) : row :=
  {| rowKey := keyText (prop company "symbol");
     rowSelected :=
       strictEquals
         (if nullish selectedStock then VUndefined
          else prop selectedStock "symbol")
         (prop company "symbol");
     rowSymbol := prop company "symbol";
     rowName := prop company "name";
     rowSector := prop company "sector" |}.

(** Strings of decimal digits and the number they denote after [acc]. *)
Fixpoint digitString (s : string) : bool :=
  match s with
  | EmptyString => true
  | String c s' =>
      match digitVal c with Some _ => digitString s' | None => false end
  end.

Fixpoint digitsValue (s : string) (acc : Z) : Z :=
  match s with
  | EmptyString => acc
  | String c s' => digitsValue s' (10 * acc + default 0 (digitVal c))
  end.

(* ===================================================================== *)
(** * Completions                                                         *)
(* ===================================================================== *)

Lemma exn_unique (e : exn) : e = TypeError.
Proof. by destruct e. Qed.

Lemma bind_Ok {A B} (f : A → result B) (a : A) : (Ok a ≫= f) = f a.
Proof. reflexivity. Qed.

Lemma bind_inv {A B} (f : A → result B) (r : result A) (b : B) :
  (r ≫= f) = Ok b → ∃ a, r = Ok a ∧ f a = Ok b.
Proof. destruct r as [a|e]; [eauto | discriminate]. Qed.

Section mapM_result.
Context {A B : Type} (f : A → result B).

Lemma mapM_nil : mapM f [] = Ok [].
Proof. reflexivity. Qed.

Lemma mapM_cons x l :
  mapM f (x :: l) = (y ← f x; k ← mapM f l; Ok (y :: k)).
Proof. reflexivity. Qed.

Lemma mapM_Ok_Forall2 l k :
  mapM f l = Ok k ↔ Forall2 (λ x y, f x = Ok y) l k.
Proof.
  revert k. induction l as [|x l IH]; intros k.
  - rewrite mapM_nil. split.
    + intros [= <-]. constructor.
    + intros Hk. by inversion Hk.
  - rewrite mapM_cons. split.
    + intros (y & Hy & Hk)%bind_inv. apply bind_inv in Hk as (k' & Hk' & [= <-]).
      constructor; [done | by apply IH].
    + intros Hk. inversion Hk as [|? y ? k' Hy Hk']; subst.
      apply IH in Hk'. by rewrite Hy, Hk'.
Qed.

Lemma mapM_Ok_length l k : mapM f l = Ok k → length k = length l.
Proof. intros H%mapM_Ok_Forall2. symmetry. by eapply Forall2_length. Qed.

Lemma mapM_total l :
  Forall (λ x, ∃ y, f x = Ok y) l → ∃ k, mapM f l = Ok k.
Proof.
  induction 1 as [|x l [y Hy] _ [k Hk]].
  - by exists [].
  - exists (y :: k). by rewrite mapM_cons, Hy, Hk.
Qed.

End mapM_result.

(** Mapping twice is mapping the composition (there is one exception). *)
Lemma mapM_compose {A B C} (f : A → result B) (g : B → result C) l :
  (mapM f l ≫= mapM g) = mapM (λ x, f x ≫= g) l.
Proof.
  induction l as [|x l IH]; [reflexivity|].
  rewrite !mapM_cons. destruct (f x) as [y|e]; simpl.
  - rewrite <- IH. destruct (mapM f l) as [k|e]; simpl.
    + reflexivity.
    + destruct (g y) as [z|e']; simpl; [done|].
      by rewrite (exn_unique e), (exn_unique e').
  - reflexivity.
Qed.

Lemma mapM_ext_result {A B} (f g : A → result B) l :
  Forall (λ x, f x = g x) l → mapM f l = mapM g l.
Proof.
  induction 1 as [|x l Hx _ IH]; [reflexivity|].
  by rewrite !mapM_cons, Hx, IH.
Qed.

Lemma bind_assoc {A B C} (r : result A) (f : A → result B) (g : B → result C) :
  ((r ≫= f) ≫= g) = (r ≫= λ a, f a ≫= g).
Proof. by destruct r. Qed.

(* ===================================================================== *)
(** * Runtime lemmas                                                      *)
(* ===================================================================== *)

(** Induction on values that descends through arrays only. *)
Lemma value_array_ind (P : value → Prop) :
  P VUndefined → P VNull → (∀ b, P (VBool b)) → (∀ x, P (VNum x)) →
  (∀ s, P (VStr s)) → (∀ o, P (VObj o)) →
  (∀ a, Forall P a → P (VArr a)) →
  ∀ v, P v.
Proof.
  intros Hu Hn Hb Hx Hs Ho Ha. fix IH 1.
  intros [| |b|x|s|a|o];
    [apply Hu | apply Hn | apply Hb | apply Hx | apply Hs | | apply Ho].
  apply Ha. induction a as [|e a IHa]; constructor; [apply IH | exact IHa].
Qed.

Lemma truthy_not_nullish v : truthy v = true → nullish v = false.
Proof. by destruct v. Qed.

Lemma coalesce_idem v w : coalesce (coalesce v w) w = coalesce v w.
Proof. unfold coalesce. destruct (nullish v) eqn:Hv; [by destruct (nullish w)|by rewrite Hv]. Qed.

Lemma coalesce_nullish v w : nullish v = true → coalesce v w = w.
Proof. unfold coalesce. by intros ->. Qed.

Lemma or_falsy v w : truthy v = false → or v w = w.
Proof. unfold or. by intros ->. Qed.

Lemma plain_coalesce v : plain v = true → plain (coalesce v (VNum zero)) = true.
Proof. unfold coalesce. by destruct (nullish v). Qed.

Lemma ToString_plain v : plain v = true → ∃ s, ToString v = Ok s.
Proof.
  induction v as [| |b|x|s|o|a IH] using value_array_ind; simpl; eauto.
  - destruct (o !! "toString"); [discriminate | eauto].
  - intros Hp.
    assert (∃ k, mapM (λ e, match e with
                            | VUndefined | VNull => Ok ""
                            | _ => ToString e
                            end) a = Ok k) as [k ->]; [|simpl; eauto].
    apply mapM_total. rewrite forallb_forall in Hp.
    rewrite Forall_forall in IH |- *. intros e He.
    specialize (IH e He). specialize (Hp e (proj1 (list_elem_of_In _ _) He)).
    destruct e; eauto.
Qed.

Lemma ToNumber_plain v : plain v = true → ∃ x, ToNumber v = Ok x.
Proof.
  intros Hp. destruct v; simpl; eauto.
  all: destruct (ToString_plain _ Hp) as [s Hs]; simpl in Hs; rewrite Hs; simpl; eauto.
Qed.

Lemma getProp_obj o k : getProp (VObj o) k = Ok (default VUndefined (o !! k)).
Proof. reflexivity. Qed.

Lemma getProp_nullish v k : nullish v = true → getProp v k = Throw TypeError.
Proof. by destruct v. Qed.

Lemma getProp_prop v k :
  nullish v = false → k ≠ "length" → getProp v k = Ok (prop v k).
Proof.
  intros Hv Hk. destruct v; try done; simpl.
  all: by rewrite bool_decide_eq_false_2.
Qed.

Lemma prop_obj o k : prop (VObj o) k = default VUndefined (o !! k).
Proof. reflexivity. Qed.

(** ** The currency conversion *)

Lemma convertToInr_Ok v x :
  ToNumber (coalesce v (VNum zero)) = Ok x → convertToInr v = Ok (inr x).
Proof. unfold convertToInr. by intros ->. Qed.

Lemma convertToInr_inv v y :
  convertToInr v = Ok y →
  ∃ x, ToNumber (coalesce v (VNum zero)) = Ok x ∧ y = inr x.
Proof.
  unfold convertToInr. intros (x & Hx & [= <-])%bind_inv. eauto.
Qed.

Lemma convertToInr_plain v :
  plain v = true →
  ∃ x, ToNumber (coalesce v (VNum zero)) = Ok x ∧ convertToInr v = Ok (inr x).
Proof.
  intros Hp. destruct (ToNumber_plain _ (plain_coalesce _ Hp)) as [x Hx].
  exists x. split; [done | by apply convertToInr_Ok].
Qed.

(** ** The two mapping callbacks *)

(** Converting a record and projecting the result onto [{date, price}] is
    the historical projection. *)
Lemma convert_then_project d :
  (convertRecord d ≫= pricePoint) = historicalPoint d.
Proof.
  unfold historicalPoint, convertRecord, pricePoint.
  destruct (nullish d) eqn:Hd.
  - by rewrite !getProp_nullish.
  - rewrite !getProp_prop by done. simpl.
    destruct (convertToInr (prop d "price")) as [p'|e]; simpl; [|done].
    rewrite lookup_insert_ne by done. by rewrite lookup_insert_eq.
Qed.

Lemma historicalPoint_usable d :
  usable "price" d = true →
  ∃ x, ToNumber (coalesce (prop d "price") (VNum zero)) = Ok x ∧
       historicalPoint d =
         Ok (object [("date", prop d "date"); ("price", VNum (inr x))]).
Proof.
  unfold usable. intros [Hd Hp]%andb_true_iff. apply negb_true_iff in Hd.
  destruct (convertToInr_plain _ Hp) as (x & Hx & Hc). exists x. split; [done|].
  unfold historicalPoint. rewrite !getProp_prop by done. simpl. by rewrite Hc.
Qed.

Lemma forecastPoint_usable d :
  usable "yhat" d = true →
  ∃ x, ToNumber (coalesce (prop d "yhat") (VNum zero)) = Ok x ∧
       forecastPoint d =
         Ok (object [("date", prop d "ds"); ("prediction", VNum (inr x))]).
Proof.
  unfold usable. intros [Hd Hp]%andb_true_iff. apply negb_true_iff in Hd.
  destruct (convertToInr_plain _ Hp) as (x & Hx & Hc). exists x. split; [done|].
  unfold forecastPoint. rewrite !getProp_prop by done. simpl. by rewrite Hc.
Qed.

Lemma historicalPoint_priceOnly d pt : historicalPoint d = Ok pt → priceOnly pt.
Proof.
  unfold historicalPoint.
  intros (date & _ & (price & _ & (p & _ & [= <-])%bind_inv)%bind_inv)%bind_inv.
  eexists _, p. split; [reflexivity|]. split; by simplify_map_eq.
Qed.

Lemma forecastPoint_predictionOnly d pt :
  forecastPoint d = Ok pt → predictionOnly pt.
Proof.
  unfold forecastPoint.
  intros (ds & _ & (yhat & _ & (p & _ & [= <-])%bind_inv)%bind_inv)%bind_inv.
  eexists _, p. split; [reflexivity|]. split; by simplify_map_eq.
Qed.

(** ** The merged series *)

Lemma arrayMap_inv f v k : arrayMap f v = Ok k → ∃ a, v = VArr a ∧ mapM f a = Ok k.
Proof. destruct v; try discriminate. eauto. Qed.


Lemma merged_arrays ch F :
  merged ch (VArr F) =
  (hs ← mapM pricePoint ch; fs ← mapM forecastPoint F; Ok (hs ++ fs)).
Proof. reflexivity. Qed.

Lemma buildMergedSeries_arrays H F :
  buildMergedSeries (VArr H) (VArr F) =
  (hs ← mapM historicalPoint H; fs ← mapM forecastPoint F; Ok (hs ++ fs)).
Proof.
  unfold buildMergedSeries, convertedHistorical, merged. simpl.
  rewrite <- bind_assoc, mapM_compose.
  by rewrite (mapM_ext_result _ historicalPoint H)
    by (apply Forall_forall; intros d _; apply convert_then_project).
Qed.

Lemma buildMergedSeries_inv h p mg :
  buildMergedSeries h p = Ok mg →
  ∃ H F, or h (VArr []) = VArr H ∧ or p (VArr []) = VArr F ∧
         buildMergedSeries (VArr H) (VArr F) = Ok mg.
Proof.
  unfold buildMergedSeries, convertedHistorical, merged.
  intros (ch & (H & HH & Hch)%arrayMap_inv & Hm)%bind_inv.
  apply bind_inv in Hm as (hs & Hhs & Hm).
  apply bind_inv in Hm as (fs & (F & HF & Hfs)%arrayMap_inv & [= <-]).
  exists H, F. split; [done|]. split; [done|].
  simpl. rewrite Hch. simpl. rewrite Hhs. simpl. by rewrite Hfs.
Qed.

Lemma mapM_historicalPoint_usable H :
  Forall (λ d, usable "price" d = true) H →
  ∃ hs, mapM historicalPoint H = Ok hs.
Proof.
  intros HH. apply mapM_total. eapply Forall_impl; [exact HH|].
  intros d (x & _ & ->)%historicalPoint_usable. eauto.
Qed.

Lemma mapM_forecastPoint_usable F :
  Forall (λ d, usable "yhat" d = true) F →
  ∃ fs, mapM forecastPoint F = Ok fs.
Proof.
  intros HF. apply mapM_total. eapply Forall_impl; [exact HF|].
  intros d (x & _ & ->)%forecastPoint_usable. eauto.
Qed.

Lemma buildMergedSeries_split H F mg :
  buildMergedSeries (VArr H) (VArr F) = Ok mg →
  ∃ hs fs, mg = hs ++ fs ∧
           mapM historicalPoint H = Ok hs ∧ mapM forecastPoint F = Ok fs.
Proof.
  rewrite buildMergedSeries_arrays.
  intros (hs & Hhs & (fs & Hfs & [= <-])%bind_inv)%bind_inv. eauto.
Qed.

Lemma inr_zero : inr zero = zero.
Proof. vm_compute. reflexivity. Qed.

Lemma convertRecord_usable d :
  usable "price" d = true →
  ∃ x, ToNumber (coalesce (prop d "price") (VNum zero)) = Ok x ∧
       convertRecord d = Ok (VObj (<["price" := VNum (inr x)]> (ownProps d))).
Proof.
  intros [Hd Hp]%andb_true_iff. apply negb_true_iff in Hd.
  destruct (convertToInr_plain _ Hp) as (x & Hx & Hc). exists x. split; [done|].
  unfold convertRecord. rewrite getProp_prop by done. simpl. by rewrite Hc.
Qed.

Lemma convertedHistorical_usable H :
  Forall (λ d, usable "price" d = true) H →
  ∃ ch, convertedHistorical (VArr H) = Ok ch.
Proof.
  intros HH. apply mapM_total. eapply Forall_impl; [exact HH|].
  intros d (x & _ & ->)%convertRecord_usable. eauto.
Qed.

(* ===================================================================== *)
(** * The historical series and the merged series                         *)
(* ===================================================================== *)


(** The sample series: the forecast dates repeat historical dates, and all
    five points are kept. *)
Example merged_sample :
  buildMergedSeries (VArr sampleHistorical) (VArr sampleForecast) =
  Ok [object [("date", VStr "2024-01-01"); ("price", num 8300 0)];
      object [("date", VStr "2024-01-02"); ("price", num 9997 (-2))];
      object [("date", VStr "2024-01-03"); ("price", num 0 0)];
      object [("date", VStr "2024-01-02"); ("prediction", num 166 0)];
      object [("date", VStr "2024-01-03"); ("prediction", num 2075 (-1))]].
Proof. vm_compute. reflexivity. Qed.


(** C3.  For a list of raw historical records (more generally, of elements
    that are not null and whose price is plain), the normalized list is
    returned with the same length and order; each output record carries
    the input price, 0 when it is missing, times 83 and rounded to two
    decimals, and every other field of the input record unchanged. *)
Theorem convertedHistorical_records (H : list value) :
  Forall (λ d, usable "price" d = true) H →
  ∃ ch,
    convertedHistorical (VArr H) = Ok ch ∧
    length ch = length H ∧
    Forall2 (λ d d', ∃ o' x,
       d' = VObj o' ∧
       ToNumber (coalesce (prop d "price") (VNum zero)) = Ok x ∧
       o' !! "price" = Some (VNum (parseFloat (toFixed (mul x (ofZ 83)) 2))) ∧
       (nullish (prop d "price") = true → o' !! "price" = Some (VNum zero)) ∧
       (∀ k, k ≠ "price" → o' !! k = ownProps d !! k)) H ch.
Proof.
  intros HH. destruct (convertedHistorical_usable _ HH) as [ch Hch].
  exists ch. split; [done|].
  split; [by eapply (mapM_Ok_length convertRecord)|].
  apply mapM_Ok_Forall2 in Hch.
  induction Hch as [|d d' H ch Hd _ IH]; [constructor|].
  inversion HH as [|? ? Hu HH']; subst.
  constructor; [|by apply IH].
  destruct (convertRecord_usable _ Hu) as (x & Hx & Hc).
  rewrite Hc in Hd. injection Hd as <-.
  eexists _, x. split; [reflexivity|]. split; [done|].
  split; [by rewrite lookup_insert_eq|]. split.
  - intros Hn. rewrite lookup_insert_eq. rewrite coalesce_nullish in Hx by done.
    injection Hx as <-. by rewrite inr_zero.
  - intros k Hk. by rewrite lookup_insert_ne.
Qed.

(** The specification's scenario 8 and its neighbours: 1.2045 becomes
    99.97, the other fields stay, a missing price becomes 0. *)
Example convertedHistorical_sample :
  convertedHistorical (VArr sampleHistorical) =
  Ok [object [("date", VStr "2024-01-01"); ("price", num 8300 0);
              ("volume", num 5000 0)];
      object [("date", VStr "2024-01-02"); ("price", num 9997 (-2));
              ("volume", num 7000 0)];
      object [("date", VStr "2024-01-03"); ("volume", num 1 0);
              ("price", num 0 0)]].
Proof. vm_compute. reflexivity. Qed.

Lemma convertedHistorical_records_witness :
  Forall (λ d, usable "price" d = true) sampleHistorical ∧
  ∃ ch,
    convertedHistorical (VArr sampleHistorical) = Ok ch ∧
    length ch = length sampleHistorical ∧
    Forall2 (λ d d', ∃ o' x,
       d' = VObj o' ∧
       ToNumber (coalesce (prop d "price") (VNum zero)) = Ok x ∧
       o' !! "price" = Some (VNum (parseFloat (toFixed (mul x (ofZ 83)) 2))) ∧
       (nullish (prop d "price") = true → o' !! "price" = Some (VNum zero)) ∧
       (∀ k, k ≠ "price" → o' !! k = ownProps d !! k)) sampleHistorical ch.
Proof.
  assert (Forall (λ d, usable "price" d = true) sampleHistorical) as HH
    by (repeat constructor).
  split; [exact HH|].
  exact (convertedHistorical_records sampleHistorical HH).
Defined.

(** C8.  With an empty historical list the merged series is the forecast
    projection alone, and with an empty forecast list it is the historical
    projection alone, as completions: the empty side contributes neither a
    point nor an error.  This holds of [merged] on the stored records and
    of the whole construction on the raw records, and usable lists give a
    series. *)
Theorem merged_absorbs_empty (H F ch : list value) :
  merged [] (VArr F) = mapM forecastPoint F ∧
  merged ch (VArr []) = mapM pricePoint ch ∧
  buildMergedSeries (VArr []) (VArr F) = mapM forecastPoint F ∧
  buildMergedSeries (VArr H) (VArr []) = mapM historicalPoint H ∧
  buildMergedSeries (VArr []) (VArr []) = Ok [] ∧
  (Forall (λ d, usable "yhat" d = true) F →
   ∃ fs, buildMergedSeries (VArr []) (VArr F) = Ok fs ∧
         Forall2 (λ d pt, forecastPoint d = Ok pt) F fs) ∧
  (Forall (λ d, usable "price" d = true) H →
   ∃ hs, buildMergedSeries (VArr H) (VArr []) = Ok hs ∧
         Forall2 (λ d pt, historicalPoint d = Ok pt) H hs).
Proof.
  assert (merged [] (VArr F) = mapM forecastPoint F) as HmF.
  { rewrite merged_arrays. simpl. by destruct (mapM forecastPoint F). }
  assert (merged ch (VArr []) = mapM pricePoint ch) as HmH.
  { rewrite merged_arrays. simpl.
    destruct (mapM pricePoint ch); simpl; [|done]. by rewrite app_nil_r. }
  assert (buildMergedSeries (VArr []) (VArr F) = mapM forecastPoint F) as HF.
  { rewrite buildMergedSeries_arrays. simpl. by destruct (mapM forecastPoint F). }
  assert (buildMergedSeries (VArr H) (VArr []) = mapM historicalPoint H) as HH.
  { rewrite buildMergedSeries_arrays. simpl.
    destruct (mapM historicalPoint H); simpl; [|done]. by rewrite app_nil_r. }
  split; [done|]. split; [done|]. split; [done|]. split; [done|].
  split; [reflexivity|]. split.
  - intros [fs Hfs]%mapM_forecastPoint_usable. exists fs.
    rewrite HF. split; [done | by apply mapM_Ok_Forall2].
  - intros [hs Hhs]%mapM_historicalPoint_usable. exists hs.
    rewrite HH. split; [done | by apply mapM_Ok_Forall2].
Qed.

Lemma merged_absorbs_empty_witness :
  Forall (λ d, usable "yhat" d = true) sampleForecast ∧
  Forall (λ d, usable "price" d = true) sampleHistorical ∧
  (∃ fs, buildMergedSeries (VArr []) (VArr sampleForecast) = Ok fs ∧
         Forall2 (λ d pt, forecastPoint d = Ok pt) sampleForecast fs) ∧
  (∃ hs, buildMergedSeries (VArr sampleHistorical) (VArr []) = Ok hs ∧
         Forall2 (λ d pt, historicalPoint d = Ok pt) sampleHistorical hs).
Proof.
  assert (Forall (λ d, usable "yhat" d = true) sampleForecast) as HF
    by (repeat constructor).
  assert (Forall (λ d, usable "price" d = true) sampleHistorical) as HH
    by (repeat constructor).
  split; [exact HF|]. split; [exact HH|].
  destruct (merged_absorbs_empty sampleHistorical sampleForecast [])
    as (_ & _ & _ & _ & _ & Hf & Hh).
  split; [exact (Hf HF) | exact (Hh HH)].
Defined.

(** C9.  Every point of a merged series has exactly one of the two value
    fields: the points that come from the historical list carry a price and
    no prediction, those that come from the forecast list carry a prediction
    and no price. *)
Theorem merged_points_exclusive (h p : value) (mg : list value) :
  buildMergedSeries h p = Ok mg →
  ∃ H F hs fs,
    or h (VArr []) = VArr H ∧ or p (VArr []) = VArr F ∧
    mg = hs ++ fs ∧ length hs = length H ∧ length fs = length F ∧
    Forall priceOnly hs ∧ Forall predictionOnly fs ∧
    Forall (λ pt, ∃ o, pt = VObj o ∧
                       (is_Some (o !! "price") ↔ o !! "prediction" = None)) mg.
Proof.
  intros (H & F & HH & HF & Hmg)%buildMergedSeries_inv.
  apply buildMergedSeries_split in Hmg as (hs & fs & -> & Hhs & Hfs).
  exists H, F, hs, fs.
  assert (Forall priceOnly hs) as Hp.
  { apply mapM_Ok_Forall2 in Hhs. clear HH.
    induction Hhs; constructor; eauto using historicalPoint_priceOnly. }
  assert (Forall predictionOnly fs) as Hq.
  { apply mapM_Ok_Forall2 in Hfs. clear HF.
    induction Hfs; constructor; eauto using forecastPoint_predictionOnly. }
  repeat split; try done.
  - by eapply mapM_Ok_length.
  - by eapply mapM_Ok_length.
  - apply Forall_app. split.
    + eapply Forall_impl; [exact Hp|]. intros pt (o & x & -> & Hx & Hn).
      exists o. split; [done|]. rewrite Hx, Hn. split; eauto.
    + eapply Forall_impl; [exact Hq|]. intros pt (o & x & -> & Hx & Hn).
      exists o. split; [done|]. rewrite Hx, Hn. split; [by intros [? [=]] | done].
Qed.

Lemma merged_points_exclusive_witness :
  ∃ mg,
    buildMergedSeries (VArr sampleHistorical) (VArr sampleForecast) = Ok mg ∧
    ∃ H F hs fs,
      or (VArr sampleHistorical) (VArr []) = VArr H ∧
      or (VArr sampleForecast) (VArr []) = VArr F ∧
      mg = hs ++ fs ∧ length hs = length H ∧ length fs = length F ∧
      Forall priceOnly hs ∧ Forall predictionOnly fs ∧
      Forall (λ pt, ∃ o, pt = VObj o ∧
                         (is_Some (o !! "price") ↔ o !! "prediction" = None)) mg.
Proof.
  eexists. split; [exact merged_sample|].
  exact (merged_points_exclusive _ _ _ merged_sample).
Defined.

(* ===================================================================== *)
(** * The metrics                                                         *)
(* ===================================================================== *)

Lemma section_not_nullish v : nullish (or v (object [])) = false.
Proof.
  unfold or. destruct (truthy v) eqn:Hv; [by apply truthy_not_nullish | done].
Qed.

Lemma toNumberValue_Ok v x : ToNumber v = Ok x → toNumberValue v = Ok (VNum x).
Proof. unfold toNumberValue. by intros ->. Qed.

Lemma toNumberValue_inv v y :
  toNumberValue v = Ok y → ∃ x, ToNumber v = Ok x ∧ y = VNum x.
Proof.
  unfold toNumberValue. destruct (ToNumber v); [|discriminate].
  intros [= <-]. eauto.
Qed.

Lemma convertToInr_leaf_Ok s k x :
  leafNumber s k = Ok x →
  convertToInr (coalesce (prop s k) (VNum zero)) = Ok (inr x).
Proof. intros Hx. apply convertToInr_Ok. by rewrite coalesce_idem. Qed.

Lemma convertToInr_leaf_inv s k y :
  convertToInr (coalesce (prop s k) (VNum zero)) = Ok y →
  ∃ x, leafNumber s k = Ok x ∧ y = inr x.
Proof.
  intros (x & Hx & ->)%convertToInr_inv. rewrite coalesce_idem in Hx. eauto.
Qed.

Lemma leafNumber_plain s k : plain (prop s k) = true → ∃ x, leafNumber s k = Ok x.
Proof. intros Hp. apply ToNumber_plain. by apply plain_coalesce. Qed.

Lemma leafNumber_missing s k : nullish (prop s k) = true → leafNumber s k = Ok zero.
Proof. intros Hn. unfold leafNumber. by rewrite coalesce_nullish. Qed.

Lemma transformMetrics_falsy m : truthy m = false → transformMetrics m = Ok VNull.
Proof. unfold transformMetrics. by intros ->. Qed.

Lemma transformMetrics_error m :
  truthy m = true → truthy (prop m "error") = true →
  transformMetrics m = Ok VNull.
Proof.
  intros Hm He. unfold transformMetrics. rewrite Hm. cbn [negb].
  rewrite (getProp_prop m "error") by (by apply truthy_not_nullish || done).
  rewrite bind_Ok. by rewrite He.
Qed.

(** Reading the payload and its two sections never throws once the guard
    has passed. *)
Ltac read_step :=
  first [ rewrite bind_Ok
        | rewrite getProp_prop by (done || apply section_not_nullish) ];
  cbv beta zeta.

Lemma transformMetrics_Ok m a b c d e f g h :
  truthy m = true → truthy (prop m "error") = false →
  leafNumber (regressionOf m) "mae" = Ok a →
  leafNumber (regressionOf m) "rmse" = Ok b →
  leafNumber (regressionOf m) "mape" = Ok c →
  leafNumber (regressionOf m) "r2" = Ok d →
  leafNumber (classificationOf m) "accuracy" = Ok e →
  leafNumber (classificationOf m) "precision" = Ok f →
  leafNumber (classificationOf m) "recall" = Ok g →
  leafNumber (classificationOf m) "f1" = Ok h →
  transformMetrics m = Ok (normalized m a b c d e f g h).
Proof.
  intros Hm He Ha Hb Hc Hd Hee Hf Hg Hh.
  pose proof (truthy_not_nullish _ Hm) as Hn.
  unfold transformMetrics. rewrite Hm. cbn [negb].
  repeat read_step. rewrite He. repeat read_step.
  fold (regressionOf m) (classificationOf m).
  rewrite (convertToInr_leaf_Ok _ _ _ Ha). repeat read_step.
  rewrite (convertToInr_leaf_Ok _ _ _ Hb). repeat read_step.
  rewrite (toNumberValue_Ok _ _ Hc). repeat read_step.
  rewrite (toNumberValue_Ok _ _ Hd). repeat read_step.
  rewrite (toNumberValue_Ok _ _ Hee). repeat read_step.
  rewrite (toNumberValue_Ok _ _ Hf). repeat read_step.
  rewrite (toNumberValue_Ok _ _ Hg). repeat read_step.
  rewrite (toNumberValue_Ok _ _ Hh). repeat read_step.
  reflexivity.
Qed.

Lemma transformMetrics_inv m r :
  truthy m = true → truthy (prop m "error") = false →
  transformMetrics m = Ok r →
  ∃ a b c d e f g h,
    leafNumber (regressionOf m) "mae" = Ok a ∧
    leafNumber (regressionOf m) "rmse" = Ok b ∧
    leafNumber (regressionOf m) "mape" = Ok c ∧
    leafNumber (regressionOf m) "r2" = Ok d ∧
    leafNumber (classificationOf m) "accuracy" = Ok e ∧
    leafNumber (classificationOf m) "precision" = Ok f ∧
    leafNumber (classificationOf m) "recall" = Ok g ∧
    leafNumber (classificationOf m) "f1" = Ok h ∧
    r = normalized m a b c d e f g h.
Proof.
  intros Hm He.
  pose proof (truthy_not_nullish _ Hm) as Hn.
  unfold transformMetrics. rewrite Hm. cbn [negb].
  repeat read_step. rewrite He. repeat read_step.
  fold (regressionOf m) (classificationOf m).
  cbn [mbind result_bind].
  intros (? & (a & Ha & ->)%convertToInr_leaf_inv & H)%bind_inv.
  apply bind_inv in H as (? & (b & Hb & ->)%convertToInr_leaf_inv & H).
  apply bind_inv in H as (? & (c & Hc & ->)%toNumberValue_inv & H).
  apply bind_inv in H as (? & (d & Hd & ->)%toNumberValue_inv & H).
  apply bind_inv in H as (? & (e & Hee & ->)%toNumberValue_inv & H).
  apply bind_inv in H as (? & (f & Hf & ->)%toNumberValue_inv & H).
  apply bind_inv in H as (? & (g & Hg & ->)%toNumberValue_inv & H).
  apply bind_inv in H as (? & (h & Hh & ->)%toNumberValue_inv & H).
  injection H as <-.
  by exists a, b, c, d, e, f, g, h.
Qed.

(** The guard, exactly. *)
Lemma transformMetrics_null_iff m :
  transformMetrics m = Ok VNull ↔
  truthy m = false ∨ truthy (prop m "error") = true.
Proof.
  split.
  - intros Hr. destruct (truthy m) eqn:Hm; [|by left].
    destruct (truthy (prop m "error")) eqn:He; [by right|].
    by apply transformMetrics_inv in Hr as (?&?&?&?&?&?&?&?&?&?&?&?&?&?&?&?&?).
  - intros [Hm|He].
    + by apply transformMetrics_falsy.
    + destruct (truthy m) eqn:Hm; [by apply transformMetrics_error|].
      by apply transformMetrics_falsy.
Qed.

Lemma plainMetrics_leaves m :
  plainMetrics m = true →
  ∃ a b c d e f g h,
    leafNumber (regressionOf m) "mae" = Ok a ∧
    leafNumber (regressionOf m) "rmse" = Ok b ∧
    leafNumber (regressionOf m) "mape" = Ok c ∧
    leafNumber (regressionOf m) "r2" = Ok d ∧
    leafNumber (classificationOf m) "accuracy" = Ok e ∧
    leafNumber (classificationOf m) "precision" = Ok f ∧
    leafNumber (classificationOf m) "recall" = Ok g ∧
    leafNumber (classificationOf m) "f1" = Ok h.
Proof.
  unfold plainMetrics. cbn [forallb app convertedLeaves regressionLeaves classificationLeaves].
  rewrite !andb_true_iff.
  intros [(Ha & Hb & Hc & Hd & _) (He & Hf & Hg & Hh & _)].
  destruct (leafNumber_plain _ _ Ha) as [a ?], (leafNumber_plain _ _ Hb) as [b ?],
    (leafNumber_plain _ _ Hc) as [c ?], (leafNumber_plain _ _ Hd) as [d ?],
    (leafNumber_plain _ _ He) as [e ?], (leafNumber_plain _ _ Hf) as [f ?],
    (leafNumber_plain _ _ Hg) as [g ?], (leafNumber_plain _ _ Hh) as [h ?].
  by exists a, b, c, d, e, f, g, h.
Qed.

Lemma transformMetrics_total m :
  plainMetrics m = true → ∃ r, transformMetrics m = Ok r.
Proof.
  intros (a & b & c & d & e & f & g & h & Ha & Hb & Hc & Hd & He & Hf & Hg & Hh)%plainMetrics_leaves.
  destruct (truthy m) eqn:Hm; [|by rewrite transformMetrics_falsy; eauto].
  destruct (truthy (prop m "error")) eqn:Her.
  - rewrite transformMetrics_error by done. eauto.
  - erewrite transformMetrics_Ok by done. eauto.
Qed.

(** C5.  For a metrics payload that is present and carries no (truthy)
    error marker, and whose eight leaves are plain, [transformMetrics]
    returns an object in which [regression.mae] and [regression.rmse] are
    the input leaves times 83 rounded to two decimals, the six other leaves
    are the input leaves coerced to numbers, a missing leaf counts as 0, an
    absent (or otherwise falsy) confusion matrix is the object with the four
    fields [tn], [fp], [fn] and [tp], each the number 0, a truthy one is
    kept as it is, and every other field of the payload and of its two
    sections is unchanged. *)
Theorem transformMetrics_normalizes (m : value) :
  truthy m = true → truthy (prop m "error") = false → plainMetrics m = true →
  ∃ out reg cls,
    transformMetrics m = Ok (VObj out) ∧
    out !! "regression" = Some (VObj reg) ∧
    out !! "classification" = Some (VObj cls) ∧
    (∀ k, k ≠ "regression" → k ≠ "classification" →
          out !! k = ownProps m !! k) ∧
    (∀ k, k ∈ convertedLeaves →
          ∃ x, leafNumber (regressionOf m) k = Ok x ∧
               reg !! k = Some (VNum (parseFloat (toFixed (mul x (ofZ 83)) 2)))) ∧
    (∀ k, k ∈ regressionLeaves →
          ∃ x, leafNumber (regressionOf m) k = Ok x ∧ reg !! k = Some (VNum x)) ∧
    (∀ k, k ∉ convertedLeaves ++ regressionLeaves →
          reg !! k = ownProps (regressionOf m) !! k) ∧
    (∀ k, k ∈ classificationLeaves →
          ∃ x, leafNumber (classificationOf m) k = Ok x ∧
               cls !! k = Some (VNum x)) ∧
    (∀ s k, nullish (prop s k) = true → leafNumber s k = Ok zero) ∧
    (truthy (prop (classificationOf m) "confusion_matrix") = true →
     cls !! "confusion_matrix" =
       Some (prop (classificationOf m) "confusion_matrix")) ∧
    (truthy (prop (classificationOf m) "confusion_matrix") = false →
     cls !! "confusion_matrix" =
       Some (object [("tn", VNum (S754_zero false));
                     ("fp", VNum (S754_zero false));
                     ("fn", VNum (S754_zero false));
                     ("tp", VNum (S754_zero false))])) ∧
    (∀ k, k ∉ "confusion_matrix" :: classificationLeaves →
          cls !! k = ownProps (classificationOf m) !! k).
Proof.
  intros Hm He Hp.
  destruct (plainMetrics_leaves _ Hp)
    as (a & b & c & d & e & f & g & h & Ha & Hb & Hc & Hd & Hee & Hf & Hg & Hh).
  rewrite (transformMetrics_Ok m a b c d e f g h) by done.
  unfold normalized. eexists _, _, _. split; [reflexivity|].
  split; [by simplify_map_eq|]. split; [by simplify_map_eq|].
  split; [intros k ? ?; by simplify_map_eq|].
  split.
  { intros k Hk. apply list_elem_of_In in Hk. destruct Hk as [<-|[<-|[ ]]].
    - exists a. split; [done | by simplify_map_eq].
    - exists b. split; [done | by simplify_map_eq]. }
  split.
  { intros k Hk. apply list_elem_of_In in Hk. destruct Hk as [<-|[<-|[ ]]].
    - exists c. split; [done | by simplify_map_eq].
    - exists d. split; [done | by simplify_map_eq]. }
  split.
  { intros k Hk. unfold convertedLeaves, regressionLeaves in Hk. cbn [app] in Hk.
    rewrite !not_elem_of_cons in Hk. destruct Hk as (? & ? & ? & ? & _).
    by simplify_map_eq. }
  split.
  { intros k Hk. apply list_elem_of_In in Hk.
    destruct Hk as [<-|[<-|[<-|[<-|[ ]]]]].
    - exists e. split; [done | by simplify_map_eq].
    - exists f. split; [done | by simplify_map_eq].
    - exists g. split; [done | by simplify_map_eq].
    - exists h. split; [done | by simplify_map_eq]. }
  split; [apply leafNumber_missing|].
  split; [intros Hcm; unfold or; rewrite Hcm; by simplify_map_eq|].
  split; [intros Hcm; rewrite or_falsy by done; by simplify_map_eq|].
  intros k Hk. unfold classificationLeaves in Hk.
  rewrite !not_elem_of_cons in Hk. destruct Hk as (? & ? & ? & ? & ? & _).
  by simplify_map_eq.
Qed.

(** The specification's scenario 9: [mae] 1 and [rmse] 2 become 83 and 166,
    everything else is as in the payload. *)
Example transformMetrics_sample :
  transformMetrics sampleMetrics =
  Ok (object
    [("regression",
      object [("mae", num 83 0); ("rmse", num 166 0); ("mape", num 3 0);
              ("r2", num 9 (-1))]);
     ("classification",
      object [("accuracy", num 8 (-1)); ("precision", num 7 (-1));
              ("recall", num 6 (-1)); ("f1", num 65 (-2));
              ("confusion_matrix",
               object [("tn", num 1 0); ("fp", num 2 0);
                       ("fn", num 3 0); ("tp", num 4 0)])])]).
Proof. vm_compute. reflexivity. Qed.

(** A payload without a classification section gets zeroed classification
    leaves and the empty matrix (scenario 5). *)
Example transformMetrics_partial :
  transformMetrics partialMetrics =
  Ok (object
    [("symbol", VStr "AAPL");
     ("regression",
      object [("mae", num 83 0); ("rmse", num 0 0); ("mape", num 0 0);
              ("r2", num 0 0)]);
     ("classification",
      object [("accuracy", num 0 0); ("precision", num 0 0);
              ("recall", num 0 0); ("f1", num 0 0);
              ("confusion_matrix",
               object [("tn", VNum (S754_zero false));
                       ("fp", VNum (S754_zero false));
                       ("fn", VNum (S754_zero false));
                       ("tp", VNum (S754_zero false))])])]).
Proof. vm_compute. reflexivity. Qed.

Lemma transformMetrics_normalizes_witness :
  truthy partialMetrics = true ∧
  truthy (prop partialMetrics "error") = false ∧
  plainMetrics partialMetrics = true ∧
  truthy (prop (classificationOf partialMetrics) "confusion_matrix") = false ∧
  nullish (prop (regressionOf partialMetrics) "rmse") = true ∧
  ∃ out reg cls,
    transformMetrics partialMetrics = Ok (VObj out) ∧
    out !! "regression" = Some (VObj reg) ∧
    out !! "classification" = Some (VObj cls) ∧
    out !! "symbol" = Some (VStr "AAPL") ∧
    (∃ x, leafNumber (regressionOf partialMetrics) "mae" = Ok x ∧
          reg !! "mae" = Some (VNum (parseFloat (toFixed (mul x (ofZ 83)) 2)))) ∧
    leafNumber (regressionOf partialMetrics) "rmse" = Ok zero ∧
    cls !! "confusion_matrix" =
      Some (object [("tn", VNum (S754_zero false));
                    ("fp", VNum (S754_zero false));
                    ("fn", VNum (S754_zero false));
                    ("tp", VNum (S754_zero false))]).
Proof.
  assert (truthy partialMetrics = true) as Hm by reflexivity.
  assert (truthy (prop partialMetrics "error") = false) as He
    by (vm_compute; reflexivity).
  assert (plainMetrics partialMetrics = true) as Hp by (vm_compute; reflexivity).
  assert (truthy (prop (classificationOf partialMetrics) "confusion_matrix")
          = false) as Hcm by (vm_compute; reflexivity).
  assert (nullish (prop (regressionOf partialMetrics) "rmse") = true) as Hn
    by (vm_compute; reflexivity).
  assert ("symbol" ≠ "regression") as H1 by discriminate.
  assert ("symbol" ≠ "classification") as H2 by discriminate.
  assert ("mae" ∈ convertedLeaves) as H3 by (left).
  split; [exact Hm|]. split; [exact He|]. split; [exact Hp|].
  split; [exact Hcm|]. split; [exact Hn|].
  destruct (transformMetrics_normalizes partialMetrics Hm He Hp)
    as (out & reg & cls & Hout & Hreg & Hcls & Hrest & Hconv & _ & _ & _ &
        Hmissing & _ & Hdefault & _).
  exists out, reg, cls.
  split; [exact Hout|]. split; [exact Hreg|]. split; [exact Hcls|].
  split; [exact (eq_trans (Hrest "symbol" H1 H2) eq_refl)|].
  split; [exact (Hconv "mae" H3)|].
  split; [exact (Hmissing _ _ Hn)|].
  exact (Hdefault Hcm).
Defined.

(** C4, as the code has it.  [transformMetrics] returns [null], as a value
    and not as a thrown exception, whenever its input is falsy (absent in
    particular) or carries a truthy error marker. *)
Theorem transformMetrics_null (m : value) :
  truthy m = false ∨ truthy (prop m "error") = true →
  transformMetrics m = Ok VNull.
Proof. apply transformMetrics_null_iff. Qed.

(** So it does for [null], for a missing payload and for [{error: "x"}]. *)
Example transformMetrics_null_samples :
  transformMetrics VNull = Ok VNull ∧
  transformMetrics VUndefined = Ok VNull ∧
  transformMetrics errorBody = Ok VNull.
Proof. repeat split; vm_compute; reflexivity. Qed.

Lemma transformMetrics_null_witness :
  (truthy errorBody = false ∨ truthy (prop errorBody "error") = true) ∧
  transformMetrics errorBody = Ok VNull.
Proof.
  assert (truthy errorBody = false ∨ truthy (prop errorBody "error") = true)
    as H by (right; vm_compute; reflexivity).
  split; [exact H|].
  exact (transformMetrics_null errorBody H).
Defined.

(** C4 as stated fails: a payload that carries an error field whose value
    is the empty string is normalized, not turned into [null]. *)
Lemma transformMetrics_null_counterexample :
  ownProps emptyErrorBody !! "error" = Some (VStr "") ∧
  transformMetrics emptyErrorBody ≠ Ok VNull ∧
  transformMetrics emptyErrorBody =
    Ok (object
      [("error", VStr "");
       ("regression",
        object [("mae", num 0 0); ("rmse", num 0 0); ("mape", num 0 0);
                ("r2", num 0 0)]);
       ("classification",
        object [("accuracy", num 0 0); ("precision", num 0 0);
                ("recall", num 0 0); ("f1", num 0 0);
                ("confusion_matrix", emptyMatrix)])]).
Proof.
  assert (transformMetrics emptyErrorBody =
    Ok (object
      [("error", VStr "");
       ("regression",
        object [("mae", num 0 0); ("rmse", num 0 0); ("mape", num 0 0);
                ("r2", num 0 0)]);
       ("classification",
        object [("accuracy", num 0 0); ("precision", num 0 0);
                ("recall", num 0 0); ("f1", num 0 0);
                ("confusion_matrix", emptyMatrix)])])) as H
    by (vm_compute; reflexivity).
  split; [vm_compute; reflexivity|]. split; [|exact H].
  rewrite H. discriminate.
Qed.

(** C10.  Only a truthy error marker counts: the result is [null] exactly
    when the input is falsy or its error field is truthy; for an object
    whose error field is present but falsy the result is never [null], any
    result is the normalized object, and there is one when the leaves are
    plain. *)
Theorem transformMetrics_truthy_marker_only :
  (∀ m, transformMetrics m = Ok VNull ↔
        truthy m = false ∨ truthy (prop m "error") = true) ∧
  (∀ o e, o !! "error" = Some e → truthy e = false →
     transformMetrics (VObj o) ≠ Ok VNull ∧
     (∀ r, transformMetrics (VObj o) = Ok r →
           ∃ a b c d e f g h, r = normalized (VObj o) a b c d e f g h) ∧
     (plainMetrics (VObj o) = true →
      ∃ a b c d e f g h,
        transformMetrics (VObj o) = Ok (normalized (VObj o) a b c d e f g h))).
Proof.
  split; [apply transformMetrics_null_iff|].
  intros o e Ho He.
  assert (truthy (prop (VObj o) "error") = false) as He'
    by (by rewrite prop_obj, Ho).
  split.
  { intros [Hm|Hm]%transformMetrics_null_iff; [done|]. by rewrite He' in Hm. }
  split.
  { intros r Hr. apply transformMetrics_inv in Hr
      as (a & b & c & d & e' & f & g & h & _ & _ & _ & _ & _ & _ & _ & _ & ->);
      [|done..].
    by exists a, b, c, d, e', f, g, h. }
  intros (a & b & c & d & e' & f & g & h & Ha & Hb & Hc & Hd & Hee & Hf & Hg & Hh)%plainMetrics_leaves.
  exists a, b, c, d, e', f, g, h. by apply transformMetrics_Ok.
Qed.

Lemma transformMetrics_truthy_marker_only_witness :
  ownProps emptyErrorBody !! "error" = Some (VStr "") ∧
  truthy (VStr "") = false ∧
  plainMetrics emptyErrorBody = true ∧
  transformMetrics emptyErrorBody ≠ Ok VNull ∧
  ∃ a b c d e f g h,
    transformMetrics emptyErrorBody =
      Ok (normalized emptyErrorBody a b c d e f g h).
Proof.
  assert (ownProps emptyErrorBody !! "error" = Some (VStr "")) as Ho
    by (vm_compute; reflexivity).
  assert (truthy (VStr "") = false) as He by reflexivity.
  assert (plainMetrics emptyErrorBody = true) as Hp by (vm_compute; reflexivity).
  split; [exact Ho|]. split; [exact He|]. split; [exact Hp|].
  destruct (proj2 transformMetrics_truthy_marker_only _ _ Ho He) as (Hn & _ & Hr).
  split; [exact Hn | exact (Hr Hp)].
Defined.

(* ===================================================================== *)
(** * The price change                                                    *)
(* ===================================================================== *)

Lemma convertedHistorical_priced h ch :
  convertedHistorical h = Ok ch → Forall (λ d, ∃ x, priced d x) ch.
Proof.
  unfold convertedHistorical. intros (a & _ & Hch)%arrayMap_inv.
  apply mapM_Ok_Forall2 in Hch.
  induction Hch as [|d d' a ch Hd _ IH]; constructor; [|done].
  apply bind_inv in Hd as (p & _ & (x & _ & [= <-])%bind_inv).
  exists x. unfold priced. by rewrite getProp_obj, lookup_insert_eq.
Qed.

Lemma getPriceChange_short sd :
  (length sd < 2)%nat →
  getPriceChange sd =
    Ok (object [("change", VNum zero); ("percentage", VNum zero)]).
Proof.
  intros Hl. unfold getPriceChange.
  by rewrite (proj2 (Nat.ltb_lt _ _) Hl).
Qed.

Lemma getPriceChange_last_two l dp dc p c :
  priced dp p → priced dc c →
  getPriceChange (l ++ [dp; dc]) =
    Ok (object [("change", VNum (sub c p));
                ("percentage", VNum (mul (div (sub c p) p) (ofZ 100)))]).
Proof.
  unfold priced. intros Hp Hc. unfold getPriceChange.
  rewrite length_app. cbn [length].
  rewrite (proj2 (Nat.ltb_ge _ _)) by lia.
  replace (length l + 2 - 1)%nat with (length l + 1)%nat by lia.
  replace (length l + 2 - 2)%nat with (length l + 0)%nat by lia.
  rewrite !lookup_app_r by lia.
  replace (length l + 1 - length l)%nat with 1%nat by lia.
  replace (length l + 0 - length l)%nat with 0%nat by lia.
  cbn [lookup list_lookup default from_option id]. by rewrite Hc, Hp.
Qed.

Lemma percentage_of_zero_previous c p :
  isZero p = true →
  isNaN (mul (div (sub c p) p) (ofZ 100)) ||
  isInfinite (mul (div (sub c p) p) (ofZ 100)) = true.
Proof.
  destruct p as [sp| | |]; try discriminate. intros _.
  destruct c as [sc|sc| |sc m e]; try destruct sc; destruct sp;
    vm_compute; reflexivity.
Qed.

Lemma list_last_two {A} (l : list A) :
  (2 ≤ length l)%nat → ∃ l' a b, l = l' ++ [a; b].
Proof.
  intros Hl. destruct l as [|b l' _] using rev_ind; [simpl in Hl; lia|].
  destruct l' as [|a l'' _] using rev_ind.
  - simpl in Hl. lia.
  - exists l'', a, b. by rewrite <- app_assoc.
Qed.

Lemma getPriceChange_total sd :
  Forall (λ d, ∃ x, priced d x) sd → ∃ r, getPriceChange sd = Ok r.
Proof.
  intros Hsd. destruct (decide (length sd < 2)%nat) as [Hl|Hl].
  - rewrite getPriceChange_short by done. eauto.
  - destruct (list_last_two sd) as (l & dp & dc & ->); [lia|].
    apply Forall_app in Hsd as [_ Hsd].
    inversion Hsd as [|? ? [p Hp] Hsd']; subst.
    inversion Hsd' as [|? ? [c Hc] _]; subst.
    rewrite (getPriceChange_last_two l dp dc p c) by done. eauto.
Qed.

(** C6.  On fewer than two points the price change is [{change: 0,
    percentage: 0}]; on a series that ends with records priced [p] then [c]
    the change is [c - p] and the percentage [(c - p) / p * 100]; the
    division is not guarded, so a previous price of zero gives an infinite
    or NaN percentage, not an error. *)
Theorem getPriceChange_spec (sd : list value) :
  ((length sd < 2)%nat →
   getPriceChange sd =
     Ok (object [("change", VNum zero); ("percentage", VNum zero)])) ∧
  (∀ l dp dc p c,
     sd = l ++ [dp; dc] → priced dp p → priced dc c →
     getPriceChange sd =
       Ok (object [("change", VNum (sub c p));
                   ("percentage", VNum (mul (div (sub c p) p) (ofZ 100)))]) ∧
     (isZero p = true →
      isNaN (mul (div (sub c p) p) (ofZ 100)) ||
      isInfinite (mul (div (sub c p) p) (ofZ 100)) = true)).
Proof.
  split; [apply getPriceChange_short|].
  intros l dp dc p c -> Hp Hc.
  split; [by apply getPriceChange_last_two | apply percentage_of_zero_previous].
Qed.

(** Scenario 7 of the specification, and a zero previous price. *)
Example getPriceChange_samples :
  getPriceChange [object [("date", VStr "d1"); ("price", num 100 0)];
                  object [("date", VStr "d2"); ("price", num 110 0)]] =
    Ok (object [("change", num 10 0); ("percentage", num 10 0)]) ∧
  getPriceChange [object [("price", num 0 0)]; object [("price", num 110 0)]] =
    Ok (object [("change", num 110 0); ("percentage", VNum Infinity)]) ∧
  getPriceChange [object [("price", num 0 0)]; object [("price", num 0 0)]] =
    Ok (object [("change", num 0 0); ("percentage", VNum NaN)]) ∧
  getPriceChange [object [("price", num 100 0)]] =
    Ok (object [("change", num 0 0); ("percentage", num 0 0)]).
Proof. repeat split; vm_compute; reflexivity. Qed.

Lemma getPriceChange_spec_witness :
  (length [risenRecord] < 2)%nat ∧
  getPriceChange [risenRecord] =
    Ok (object [("change", VNum zero); ("percentage", VNum zero)]) ∧
  priced flatRecord zero ∧ priced risenRecord (scale10 false 110 0) ∧
  isZero zero = true ∧
  getPriceChange [flatRecord; risenRecord] =
    Ok (object [("change", VNum (sub (scale10 false 110 0) zero));
                ("percentage",
                 VNum (mul (div (sub (scale10 false 110 0) zero) zero)
                           (ofZ 100)))]) ∧
  isNaN (mul (div (sub (scale10 false 110 0) zero) zero) (ofZ 100)) ||
  isInfinite (mul (div (sub (scale10 false 110 0) zero) zero) (ofZ 100)) = true.
Proof.
  assert ((length [risenRecord] < 2)%nat) as Hl by (simpl; lia).
  assert (priced flatRecord zero) as Hp by (vm_compute; reflexivity).
  assert (priced risenRecord (scale10 false 110 0)) as Hc
    by (vm_compute; reflexivity).
  assert (isZero zero = true) as Hz by reflexivity.
  split; [exact Hl|].
  split; [exact (proj1 (getPriceChange_spec [risenRecord]) Hl)|].
  split; [exact Hp|]. split; [exact Hc|]. split; [exact Hz|].
  destruct (proj2 (getPriceChange_spec [flatRecord; risenRecord])
                  [] flatRecord risenRecord _ _ eq_refl Hp Hc) as [Hr Hq].
  split; [exact Hr | exact (Hq Hz)].
Defined.

(* ===================================================================== *)
(** * The join and its callbacks                                          *)
(* ===================================================================== *)

Lemma onError_run st :
  onError st =
  (Ok tt, setLoading false (setMetrics VNull (setMergedData [] (setStockData [] st)))).
Proof. reflexivity. Qed.

Lemma onError_resets st : fst (onError st) = Ok tt ∧ isReset (snd (onError st)).
Proof. rewrite onError_run. by repeat split. Qed.

Lemma onData_run h p m st :
  onData h p m st =
  match convertedHistorical h with
  | Throw e => (Throw e, st)
  | Ok ch =>
      match merged ch p with
      | Throw e => (Throw e, setStockData ch st)
      | Ok mg =>
          match transformMetrics m with
          | Throw e => (Throw e, setMergedData mg (setStockData ch st))
          | Ok r =>
              (Ok tt, setLoading false (setMetrics r
                        (setMergedData mg (setStockData ch st))))
          end
      end
  end.
Proof.
  unfold onData, mbind, eff_bind, lift, set.
  destruct (convertedHistorical h) as [ch|e]; [|done].
  destruct (merged ch p) as [mg|e]; [|done].
  by destruct (transformMetrics m) as [r|e].
Qed.

(** Whatever the payloads, the join's callbacks complete normally. *)
Lemma callbacks_never_throw h p m st :
  fst (catch (onData h p m) (λ _, onError) st) = Ok tt.
Proof.
  unfold catch. rewrite onData_run.
  destruct (convertedHistorical h) as [ch|e]; [|done].
  destruct (merged ch p) as [mg|e]; [|done].
  by destruct (transformMetrics m) as [r|e].
Qed.

Lemma callbacks_reset_on_throw h p m st :
  isOk (buildMergedSeries h p) && isOk (transformMetrics m) = false →
  isReset (snd (catch (onData h p m) (λ _, onError) st)).
Proof.
  unfold catch, buildMergedSeries. rewrite onData_run.
  destruct (convertedHistorical h) as [ch|e]; simpl; [|by intros _; repeat split].
  destruct (merged ch p) as [mg|e]; simpl; [|by intros _; repeat split].
  destruct (transformMetrics m) as [r|e]; simpl; [done | by intros _; repeat split].
Qed.

Lemma callbacks_commit h p m st ch mg r :
  convertedHistorical h = Ok ch → merged ch p = Ok mg →
  transformMetrics m = Ok r →
  catch (onData h p m) (λ _, onError) st =
  (Ok tt, setLoading false (setMetrics r (setMergedData mg (setStockData ch st)))).
Proof.
  intros Hch Hmg Hr. unfold catch. by rewrite onData_run, Hch, Hmg, Hr.
Qed.

Lemma handleStockSelect_run net company st stock predict metricsUrl :
  endpoint "stock" company = Ok stock →
  endpoint "predict" company = Ok predict →
  endpoint "metrics" company = Ok metricsUrl →
  handleStockSelect net company st =
  match fetchJson net stock, fetchJson net predict, fetchJson net metricsUrl with
  | Some h, Some p, Some m => catch (onData h p m) (λ _, onError)
  | _, _, _ => onError
  end (setSelectedStock company (setLoading true st)).
Proof.
  intros H1 H2 H3. unfold handleStockSelect.
  unfold mbind at 1 2 3 4 5. unfold eff_bind, lift, set.
  by rewrite H1, H2, H3.
Qed.

Lemma handleStockSelect_commits net company st stock predict metricsUrl
    h p m ch mg r :
  endpoint "stock" company = Ok stock →
  endpoint "predict" company = Ok predict →
  endpoint "metrics" company = Ok metricsUrl →
  fetchJson net stock = Some h → fetchJson net predict = Some p →
  fetchJson net metricsUrl = Some m →
  convertedHistorical h = Ok ch → merged ch p = Ok mg →
  transformMetrics m = Ok r →
  handleStockSelect net company st =
  (Ok tt, setLoading false (setMetrics r (setMergedData mg (setStockData ch
            (setSelectedStock company (setLoading true st)))))).
Proof.
  intros H1 H2 H3 Hh Hp Hm Hch Hmg Hr.
  rewrite (handleStockSelect_run _ _ _ _ _ _ H1 H2 H3), Hh, Hp, Hm.
  by apply callbacks_commit.
Qed.

(** The stored historical records are priced in every state the handler
    leaves, if they were before. *)
Lemma handleStockSelect_priced net company st :
  Forall (λ d, ∃ x, priced d x) (stockData st) →
  Forall (λ d, ∃ x, priced d x) (stockData (snd (handleStockSelect net company st))).
Proof.
  intros Hst. unfold handleStockSelect.
  unfold mbind at 1 2 3 4 5. unfold eff_bind, lift, set.
  destruct (endpoint "stock" company) as [stock|]; [|done].
  destruct (endpoint "predict" company) as [predict|]; [|done].
  destruct (endpoint "metrics" company) as [metricsUrl|]; [|done].
  destruct (fetchJson net stock) as [h|]; [|constructor].
  destruct (fetchJson net predict) as [p|]; [|constructor].
  destruct (fetchJson net metricsUrl) as [m|]; [|constructor].
  unfold catch. rewrite onData_run.
  destruct (convertedHistorical h) as [ch|e] eqn:Hch; [|constructor].
  destruct (merged ch p) as [mg|e]; [|constructor].
  destruct (transformMetrics m) as [r|e]; [|constructor].
  by eapply convertedHistorical_priced.
Qed.

(** C7, as the code has it.  When one of the three fetch promises rejects
    (the request fails or the body is not JSON text), or the callback
    throws on the delivered payloads, the handler completes and leaves the
    reset state: empty series, [null] metrics, loading off. *)
Theorem handleStockSelect_failure_resets
    (net : string → fetched) (company : value) (st : state)
    (stock predict metricsUrl : string) :
  endpoint "stock" company = Ok stock →
  endpoint "predict" company = Ok predict →
  endpoint "metrics" company = Ok metricsUrl →
  (fetchJson net stock = None ∨ fetchJson net predict = None ∨
   fetchJson net metricsUrl = None ∨
   ∃ h p m, fetchJson net stock = Some h ∧ fetchJson net predict = Some p ∧
            fetchJson net metricsUrl = Some m ∧
            isOk (buildMergedSeries h p) && isOk (transformMetrics m) = false) →
  fst (handleStockSelect net company st) = Ok tt ∧
  isReset (snd (handleStockSelect net company st)).
Proof.
  intros H1 H2 H3 Hfail.
  rewrite (handleStockSelect_run _ _ _ _ _ _ H1 H2 H3).
  destruct Hfail as [Hf|[Hf|[Hf|(h & p & m & Hh & Hp & Hm & Hthrow)]]].
  - rewrite Hf. apply onError_resets.
  - rewrite Hf. destruct (fetchJson net stock); apply onError_resets.
  - rewrite Hf. destruct (fetchJson net stock), (fetchJson net predict);
      apply onError_resets.
  - rewrite Hh, Hp, Hm. split.
    + apply callbacks_never_throw.
    + by apply callbacks_reset_on_throw.
Qed.

Lemma handleStockSelect_failure_resets_witness :
  endpoint "stock" AAPL = Ok (API_BASE +:+ "/stock/AAPL") ∧
  endpoint "predict" AAPL = Ok (API_BASE +:+ "/predict/AAPL") ∧
  endpoint "metrics" AAPL = Ok (API_BASE +:+ "/metrics/AAPL") ∧
  fetchJson stockUnreachable (API_BASE +:+ "/stock/AAPL") = None ∧
  fst (handleStockSelect stockUnreachable AAPL initialState) = Ok tt ∧
  isReset (snd (handleStockSelect stockUnreachable AAPL initialState)).
Proof.
  assert (endpoint "stock" AAPL = Ok (API_BASE +:+ "/stock/AAPL")) as H1
    by (vm_compute; reflexivity).
  assert (endpoint "predict" AAPL = Ok (API_BASE +:+ "/predict/AAPL")) as H2
    by (vm_compute; reflexivity).
  assert (endpoint "metrics" AAPL = Ok (API_BASE +:+ "/metrics/AAPL")) as H3
    by (vm_compute; reflexivity).
  assert (fetchJson stockUnreachable (API_BASE +:+ "/stock/AAPL") = None) as Hf
    by (vm_compute; reflexivity).
  split; [exact H1|]. split; [exact H2|]. split; [exact H3|]. split; [exact Hf|].
  exact (handleStockSelect_failure_resets stockUnreachable AAPL initialState
           _ _ _ H1 H2 H3 (or_introl Hf)).
Defined.

(** C7 as stated fails for a non-OK status: the status flag is not read, so
    a refused metrics request that still carries a JSON body leaves the
    series on display, with [null] metrics. *)
Lemma handleStockSelect_failure_resets_counterexample :
  metricsRefused (API_BASE +:+ "/metrics/AAPL") = Response false (Some errorBody) ∧
  fst (handleStockSelect metricsRefused AAPL initialState) = Ok tt ∧
  length (stockData (snd (handleStockSelect metricsRefused AAPL initialState))) = 3%nat ∧
  length (mergedData (snd (handleStockSelect metricsRefused AAPL initialState))) = 5%nat ∧
  convertedHistorical (VArr sampleHistorical) =
    Ok (stockData (snd (handleStockSelect metricsRefused AAPL initialState))) ∧
  metrics (snd (handleStockSelect metricsRefused AAPL initialState)) = VNull ∧
  ¬ isReset (snd (handleStockSelect metricsRefused AAPL initialState)).
Proof.
  assert (length (stockData (snd (handleStockSelect metricsRefused AAPL initialState))) = 3%nat)
    as Hl by (vm_compute; reflexivity).
  split; [vm_compute; reflexivity|]. split; [vm_compute; reflexivity|].
  split; [exact Hl|]. split; [vm_compute; reflexivity|].
  split; [vm_compute; reflexivity|]. split; [vm_compute; reflexivity|].
  intros (Hs & _). rewrite Hs in Hl. discriminate.
Qed.

(* ===================================================================== *)
(** * Totality of the transformation layer                                *)
(* ===================================================================== *)

Lemma isOk_fmap {A B} (f : A → B) (r : result A) : isOk (f <$> r) = isOk r.
Proof. by destruct r. Qed.

Lemma isOk_mapM {A B} (f : A → result B) l :
  isOk (mapM f l) = forallb (λ x, isOk (f x)) l.
Proof.
  induction l as [|x l IH]; [reflexivity|].
  rewrite mapM_cons. simpl. destruct (f x); simpl; [|done].
  rewrite <- IH. by destruct (mapM f l).
Qed.

Lemma forallb_ext_Forall {A} (f g : A → bool) l :
  Forall (λ x, f x = g x) l → forallb f l = forallb g l.
Proof. induction 1 as [|x l Hx _ IH]; simpl; [done | by rewrite Hx, IH]. Qed.

(** The string conversion throws exactly on the values that are not
    plain; so does the numeric conversion. *)
Lemma isOk_ToString v : isOk (ToString v) = plain v.
Proof.
  induction v as [| |b|x|s|o|a IH] using value_array_ind; simpl; try done.
  - by destruct (o !! "toString").
  - rewrite isOk_fmap, isOk_mapM. apply forallb_ext_Forall.
    eapply Forall_impl; [exact IH|]. intros e He. by destruct e.
Qed.

Lemma isOk_ToNumber v : isOk (ToNumber v) = plain v.
Proof.
  destruct v; try done.
  all: unfold ToNumber; by rewrite isOk_fmap, isOk_ToString.
Qed.

Lemma plain_coalesce_eq v : plain (coalesce v (VNum zero)) = plain v.
Proof. unfold coalesce. by destruct v. Qed.

Lemma isOk_convertToInr v : isOk (convertToInr v) = plain v.
Proof.
  unfold convertToInr. rewrite <- plain_coalesce_eq, <- isOk_ToNumber.
  by destruct (ToNumber _).
Qed.

Lemma isOk_convertRecord d : isOk (convertRecord d) = usable "price" d.
Proof.
  unfold usable, convertRecord. destruct (nullish d) eqn:Hd.
  - rewrite !getProp_nullish by done. reflexivity.
  - rewrite getProp_prop by done. simpl.
    rewrite <- isOk_convertToInr. by destruct (convertToInr _).
Qed.

Lemma isOk_forecastPoint d : isOk (forecastPoint d) = usable "yhat" d.
Proof.
  unfold usable, forecastPoint. destruct (nullish d) eqn:Hd.
  - rewrite !getProp_nullish by done. reflexivity.
  - rewrite !getProp_prop by done. simpl.
    rewrite <- isOk_convertToInr. by destruct (convertToInr _).
Qed.

Lemma isOk_arrayMap f leaf v :
  (∀ d, isOk (f d) = usable leaf d) →
  isOk (arrayMap f (or v (VArr []))) = usablePayload leaf v.
Proof.
  intros Hf. unfold usablePayload, or.
  destruct (truthy v) eqn:Hv; [|done]. simpl.
  destruct v; try done. simpl. rewrite isOk_mapM.
  apply forallb_ext_Forall, Forall_forall. auto.
Qed.

Lemma isOk_convertedHistorical h :
  isOk (convertedHistorical h) = usablePayload "price" h.
Proof. apply isOk_arrayMap, isOk_convertRecord. Qed.

Lemma convertedHistorical_objects h ch :
  convertedHistorical h = Ok ch → ∃ hs, mapM pricePoint ch = Ok hs.
Proof.
  intros Hch. apply mapM_total.
  eapply Forall_impl; [exact (convertedHistorical_priced _ _ Hch)|].
  intros d [x Hx]. unfold pricePoint.
  assert (nullish d = false) as Hd by (by destruct d).
  rewrite !getProp_prop by done. eauto.
Qed.

Lemma isOk_merged h ch p :
  convertedHistorical h = Ok ch →
  isOk (merged ch p) = usablePayload "yhat" p.
Proof.
  intros [hs Hhs]%convertedHistorical_objects. unfold merged. rewrite Hhs. simpl.
  rewrite <- (isOk_arrayMap forecastPoint) by apply isOk_forecastPoint.
  by destruct (arrayMap _ _).
Qed.

Lemma isOk_transformMetrics m : isOk (transformMetrics m) = usableMetrics m.
Proof.
  unfold usableMetrics. destruct (truthy m) eqn:Hm; simpl.
  2: { by rewrite transformMetrics_falsy. }
  destruct (truthy (prop m "error")) eqn:He; simpl.
  { by rewrite transformMetrics_error. }
  destruct (plainMetrics m) eqn:Hp.
  - by destruct (transformMetrics_total m Hp) as [r ->].
  - destruct (transformMetrics m) as [r|e] eqn:Hr; [|done].
    apply transformMetrics_inv in Hr
      as (a & b & c & d & e & f & g & h & Ha & Hb & Hc & Hd & Hee & Hf & Hg & Hh & _);
      [|done..].
    assert (∀ s k x, leafNumber s k = Ok x → plain (prop s k) = true) as Hleaf.
    { intros s k x Hx. rewrite <- plain_coalesce_eq, <- isOk_ToNumber.
      unfold leafNumber in Hx. by rewrite Hx. }
    unfold plainMetrics in Hp. simpl in Hp.
    by rewrite (Hleaf _ _ _ Ha), (Hleaf _ _ _ Hb), (Hleaf _ _ _ Hc),
      (Hleaf _ _ _ Hd), (Hleaf _ _ _ Hee), (Hleaf _ _ _ Hf), (Hleaf _ _ _ Hg),
      (Hleaf _ _ _ Hh) in Hp.
Qed.

Ltac json :=
  repeat first
    [ apply JSON_obj | apply JSON_arr | apply JSON_null | apply JSON_str
    | apply JSON_bool | apply map_Forall_insert_2 | apply map_Forall_empty
    | apply Forall_cons_2 | apply Forall_nil_2
    | apply JSON_num; reflexivity ].

(** C1, as the code has it.  Each transformation completes without
    throwing exactly on the payloads it can use: a series payload that is
    falsy or an array of elements that are not null and whose coerced field
    is plain; a metrics payload that is falsy, carries a truthy error
    marker, or has plain leaves.  On the other payloads it throws, and
    whatever the payloads the callbacks of the join complete normally. *)
Theorem transformation_total_on_usable (h p m : value) :
  isOk (convertedHistorical h) = usablePayload "price" h ∧
  (∀ ch, convertedHistorical h = Ok ch →
         isOk (merged ch p) = usablePayload "yhat" p) ∧
  isOk (transformMetrics m) = usableMetrics m ∧
  (∀ st, fst (catch (onData h p m) (λ _, onError) st) = Ok tt).
Proof.
  split; [apply isOk_convertedHistorical|].
  split; [intros ch; apply isOk_merged|].
  split; [apply isOk_transformMetrics | apply callbacks_never_throw].
Qed.

Lemma transformation_total_on_usable_witness :
  isOk (convertedHistorical (VArr sampleHistorical)) = true ∧
  isOk (merged [] (VArr sampleForecast)) = true ∧
  isOk (merged [] errorBody) = false ∧
  isOk (transformMetrics emptyErrorBody) = true ∧
  isOk (transformMetrics shadowedMetrics) = false.
Proof.
  destruct (transformation_total_on_usable
              (VArr sampleHistorical) VNull emptyErrorBody) as (Hh & _ & Hm & _).
  destruct (transformation_total_on_usable (VArr []) (VArr sampleForecast)
              shadowedMetrics) as (_ & Hp & Hs & _).
  destruct (transformation_total_on_usable (VArr []) errorBody VNull)
    as (_ & He & _ & _).
  specialize (Hp [] eq_refl). specialize (He [] eq_refl).
  rewrite Hh, Hp, He, Hm, Hs. vm_compute. by repeat split.
Defined.

(** C1 as stated fails: on JSON payloads of other shapes the
    transformations throw.  A truthy payload that is not an array (the
    error body) has no callable [map]; a [null] array element has no
    properties to read; a leaf object with an own [toString] has no
    primitive value. *)
Lemma transformation_total_counterexample :
  JSON errorBody ∧ convertedHistorical errorBody = Throw TypeError ∧
  JSON (VArr [VNull]) ∧ convertedHistorical (VArr [VNull]) = Throw TypeError ∧
  merged [] errorBody = Throw TypeError ∧
  JSON shadowedMetrics ∧ transformMetrics shadowedMetrics = Throw TypeError.
Proof.
  repeat split; try (vm_compute; reflexivity).
  - unfold errorBody, object. simpl. json.
  - json.
  - unfold shadowedMetrics, object. simpl. json.
Qed.

(* ===================================================================== *)
(** * Selections in flight                                                *)
(* ===================================================================== *)

Lemma handleStockSelect_split net company st :
  handleStockSelect net company st = (selectBegin company ≫= selectSettle net) st.
Proof.
  unfold handleStockSelect, selectBegin, selectSettle.
  unfold mbind, mret, eff_bind, eff_ret, lift, set.
  destruct (endpoint "stock" company) as [stock|]; [|done].
  destruct (endpoint "predict" company) as [predict|]; [|done].
  by destruct (endpoint "metrics" company) as [metricsUrl|].
Qed.

Lemma selectBegin_run company st stock predict metricsUrl :
  endpoint "stock" company = Ok stock →
  endpoint "predict" company = Ok predict →
  endpoint "metrics" company = Ok metricsUrl →
  selectBegin company st =
  (Ok (stock, predict, metricsUrl), setSelectedStock company (setLoading true st)).
Proof.
  intros H1 H2 H3. unfold selectBegin.
  unfold mbind, mret, eff_bind, eff_ret, lift, set. by rewrite H1, H2, H3.
Qed.

Lemma selectBegin_state company st :
  snd (selectBegin company st) = setSelectedStock company (setLoading true st).
Proof.
  unfold selectBegin. unfold mbind, mret, eff_bind, eff_ret, lift, set.
  destruct (endpoint "stock" company) as [stock|]; [|done].
  destruct (endpoint "predict" company) as [predict|]; [|done].
  by destruct (endpoint "metrics" company) as [metricsUrl|].
Qed.

(** A settlement either commits the three transformed payloads or leaves
    the reset state; it never throws. *)
Lemma selectSettle_cases net urls st :
  fst (selectSettle net urls st) = Ok tt ∧
  (snd (selectSettle net urls st) =
     setLoading false (setMetrics VNull (setMergedData [] (setStockData [] st))) ∨
   ∃ h p m ch mg r,
     fetchJson net urls.1.1 = Some h ∧ fetchJson net urls.1.2 = Some p ∧
     fetchJson net urls.2 = Some m ∧
     convertedHistorical h = Ok ch ∧ merged ch p = Ok mg ∧
     transformMetrics m = Ok r ∧
     snd (selectSettle net urls st) =
       setLoading false (setMetrics r (setMergedData mg (setStockData ch st)))).
Proof.
  unfold selectSettle.
  destruct (fetchJson net urls.1.1) as [h|]; [|by split; [|left]].
  destruct (fetchJson net urls.1.2) as [p|]; [|by split; [|left]].
  destruct (fetchJson net urls.2) as [m|]; [|by split; [|left]].
  split; [apply callbacks_never_throw|].
  unfold catch. rewrite onData_run.
  destruct (convertedHistorical h) as [ch|e] eqn:Hch; [|by left].
  destruct (merged ch p) as [mg|e] eqn:Hmg; [|by left].
  destruct (transformMetrics m) as [r|e] eqn:Hr; [|by left].
  right. by exists h, p, m, ch, mg, r.
Qed.

Lemma selectSettle_commit net urls st h p m ch mg r :
  fetchJson net urls.1.1 = Some h → fetchJson net urls.1.2 = Some p →
  fetchJson net urls.2 = Some m →
  convertedHistorical h = Ok ch → merged ch p = Ok mg →
  transformMetrics m = Ok r →
  selectSettle net urls st =
  (Ok tt, setLoading false (setMetrics r (setMergedData mg (setStockData ch st)))).
Proof.
  intros Hh Hp Hm Hch Hmg Hr. unfold selectSettle. rewrite Hh, Hp, Hm.
  by apply callbacks_commit.
Qed.

(** X1.  A response that arrives after a newer selection overwrites the
    display.  If company [A] is selected, then [B], and the join of [A]
    settles last with usable payloads, the state shows [A]'s series and
    metrics while the selected company is [B], whatever [B]'s requests
    gave. *)
Theorem stale_response_overwrites
    (net : string → fetched) (A B : value) (st st1 st2 : state)
    (urlsA urlsB : string * string * string)
    (h p m : value) (ch mg : list value) (r : value) :
  selectBegin A st = (Ok urlsA, st1) →
  selectBegin B st1 = (Ok urlsB, st2) →
  fetchJson net urlsA.1.1 = Some h → fetchJson net urlsA.1.2 = Some p →
  fetchJson net urlsA.2 = Some m →
  convertedHistorical h = Ok ch → merged ch p = Ok mg →
  transformMetrics m = Ok r →
  let final := snd (selectSettle net urlsA (snd (selectSettle net urlsB st2))) in
  selectedStock final = B ∧ stockData final = ch ∧ mergedData final = mg ∧
  metrics final = r ∧ loading final = false.
Proof.
  intros HA HB Hh Hp Hm Hch Hmg Hr final.
  assert (selectedStock st2 = B) as HselB.
  { pose proof (selectBegin_state B st1) as Hs. rewrite HB in Hs. simpl in Hs.
    by rewrite Hs. }
  assert (selectedStock (snd (selectSettle net urlsB st2)) = B) as Hsel.
  { destruct (selectSettle_cases net urlsB st2) as [_ [->|(?&?&?&?&?&?&_&_&_&_&_&_&->)]];
      exact HselB. }
  unfold final.
  rewrite (selectSettle_commit _ _ _ _ _ _ _ _ _ Hh Hp Hm Hch Hmg Hr). simpl.
  by rewrite Hsel.
Qed.

Lemma stale_response_overwrites_witness :
  selectBegin AAPL initialState =
    (Ok (urlsOf "AAPL"), setSelectedStock AAPL (setLoading true initialState)) ∧
  selectBegin MSFT (setSelectedStock AAPL (setLoading true initialState)) =
    (Ok (urlsOf "MSFT"),
     setSelectedStock MSFT (setLoading true
       (setSelectedStock AAPL (setLoading true initialState)))) ∧
  convertedHistorical (VArr sampleHistorical) = Ok sampleConverted ∧
  merged sampleConverted (VArr sampleForecast) = Ok sampleMerged ∧
  transformMetrics sampleMetrics = Ok sampleNormalized ∧
  selectedStock (snd (selectSettle twoCompanies (urlsOf "AAPL")
    (snd (selectSettle twoCompanies (urlsOf "MSFT")
       (setSelectedStock MSFT (setLoading true
          (setSelectedStock AAPL (setLoading true initialState)))))))) = MSFT ∧
  stockData (snd (selectSettle twoCompanies (urlsOf "AAPL")
    (snd (selectSettle twoCompanies (urlsOf "MSFT")
       (setSelectedStock MSFT (setLoading true
          (setSelectedStock AAPL (setLoading true initialState)))))))) =
    sampleConverted.
Proof.
  assert (selectBegin AAPL initialState =
    (Ok (urlsOf "AAPL"), setSelectedStock AAPL (setLoading true initialState)))
    as HA by (apply selectBegin_run; vm_compute; reflexivity).
  assert (selectBegin MSFT (setSelectedStock AAPL (setLoading true initialState)) =
    (Ok (urlsOf "MSFT"),
     setSelectedStock MSFT (setLoading true
       (setSelectedStock AAPL (setLoading true initialState)))))
    as HB by (apply selectBegin_run; vm_compute; reflexivity).
  assert (fetchJson twoCompanies (urlsOf "AAPL").1.1 = Some (VArr sampleHistorical))
    as Hh by (vm_compute; reflexivity).
  assert (fetchJson twoCompanies (urlsOf "AAPL").1.2 = Some (VArr sampleForecast))
    as Hp by (vm_compute; reflexivity).
  assert (fetchJson twoCompanies (urlsOf "AAPL").2 = Some sampleMetrics)
    as Hm by (vm_compute; reflexivity).
  assert (convertedHistorical (VArr sampleHistorical) = Ok sampleConverted)
    as Hch by (vm_compute; reflexivity).
  assert (merged sampleConverted (VArr sampleForecast) = Ok sampleMerged)
    as Hmg by (vm_compute; reflexivity).
  assert (transformMetrics sampleMetrics = Ok sampleNormalized)
    as Hr by (vm_compute; reflexivity).
  destruct (stale_response_overwrites twoCompanies AAPL MSFT _ _ _ _ _
              _ _ _ _ _ _ HA HB Hh Hp Hm Hch Hmg Hr) as (Hsel & Hsd & _).
  split; [exact HA|]. split; [exact HB|]. split; [exact Hch|].
  split; [exact Hmg|]. split; [exact Hr|]. split; [exact Hsel | exact Hsd].
Defined.

(* ===================================================================== *)
(** * The mount effect                                                    *)
(* ===================================================================== *)

Lemma hasItems_falsy items : truthy items = false → hasItems items = Ok false.
Proof. unfold hasItems. by intros ->. Qed.

Lemma hasItems_empty_array : hasItems (VArr []) = Ok false.
Proof. reflexivity. Qed.

Lemma hasItems_no_length o :
  o !! "length" = None → hasItems (VObj o) = Ok false.
Proof. intros Ho. unfold hasItems. simpl. by rewrite Ho. Qed.

Lemma onSymbols_run net items st :
  onSymbols net items st =
  match hasItems items with
  | Throw e => (Throw e, setCompanies items st)
  | Ok false => (Ok tt, setCompanies items st)
  | Ok true =>
      match getProp items "0" with
      | Ok first => handleStockSelect net first (setCompanies items st)
      | Throw e => (Throw e, setCompanies items st)
      end
  end.
Proof.
  unfold onSymbols. unfold mbind at 1 2. unfold eff_bind at 1 2. unfold set, lift.
  destruct (hasItems items) as [[|]|e]; [|done..].
  unfold mbind, eff_bind. by destruct (getProp items "0").
Qed.

Lemma hasItems_true_truthy items : hasItems items = Ok true → truthy items = true.
Proof. unfold hasItems. by destruct (truthy items). Qed.

Lemma first_item items :
  truthy items = true → getProp items "0" = Ok (prop items "0").
Proof. intros Ht. apply getProp_prop; [by apply truthy_not_nullish | done]. Qed.

Lemma handleStockSelect_throw net company st e :
  endpoint "stock" company = Throw e →
  handleStockSelect net company st =
  (Throw e, setSelectedStock company (setLoading true st)).
Proof.
  intros He. unfold handleStockSelect.
  unfold mbind at 1 2 3. unfold eff_bind, lift, set. by rewrite He.
Qed.

Lemma handleStockSelect_never_throws net company st stock predict metricsUrl :
  endpoint "stock" company = Ok stock →
  endpoint "predict" company = Ok predict →
  endpoint "metrics" company = Ok metricsUrl →
  fst (handleStockSelect net company st) = Ok tt.
Proof.
  intros H1 H2 H3. rewrite handleStockSelect_split.
  unfold mbind, eff_bind. rewrite (selectBegin_run _ _ _ _ _ H1 H2 H3).
  apply selectSettle_cases.
Qed.

(** X2.  The mount effect never throws, and when the symbols request is
    rejected or its body is not JSON it stores an empty company list and
    changes nothing else. *)
Theorem onMount_failure (net : string → fetched) (st : state) :
  fst (onMount net st) = Ok tt ∧
  (fetchJson net symbolsUrl = None →
   onMount net st = (Ok tt, setCompanies (VArr []) st)).
Proof.
  split.
  - unfold onMount. destruct (fetchJson net symbolsUrl) as [items|]; [|done].
    unfold catch. by destruct (onSymbols net items st) as [[[]|e] st'].
  - intros Hf. unfold onMount. by rewrite Hf.
Qed.

Lemma onMount_failure_witness :
  fetchJson (symbolsOnly None) symbolsUrl = None ∧
  onMount (symbolsOnly None) initialState =
    (Ok tt, setCompanies (VArr []) initialState).
Proof.
  assert (fetchJson (symbolsOnly None) symbolsUrl = None) as Hf
    by (vm_compute; reflexivity).
  split; [exact Hf|].
  exact (proj2 (onMount_failure (symbolsOnly None) initialState) Hf).
Defined.

(** X3.  When the symbols payload passes the guard [items && items.length >
    0] and the URLs of its first item can be built, the mount effect stores
    the payload and performs the selection of [items[0]]. *)
Theorem onMount_selects_first
    (net : string → fetched) (st : state) (items : value)
    (stock predict metricsUrl : string) :
  fetchJson net symbolsUrl = Some items →
  hasItems items = Ok true →
  endpoint "stock" (prop items "0") = Ok stock →
  endpoint "predict" (prop items "0") = Ok predict →
  endpoint "metrics" (prop items "0") = Ok metricsUrl →
  onMount net st = handleStockSelect net (prop items "0") (setCompanies items st) ∧
  companies (snd (onMount net st)) = items ∧
  selectedStock (snd (onMount net st)) = prop items "0".
Proof.
  intros Hf Hg H1 H2 H3.
  assert (onMount net st =
          handleStockSelect net (prop items "0") (setCompanies items st)) as Hrun.
  { unfold onMount, catch. rewrite Hf, onSymbols_run, Hg.
    rewrite (first_item _ (hasItems_true_truthy _ Hg)).
    pose proof (handleStockSelect_never_throws net _ (setCompanies items st)
                  _ _ _ H1 H2 H3) as Hok.
    by destruct (handleStockSelect net (prop items "0") (setCompanies items st))
      as [[[]|e] st']. }
  split; [exact Hrun|]. rewrite Hrun, handleStockSelect_split.
  unfold mbind, eff_bind. rewrite (selectBegin_run _ _ _ _ _ H1 H2 H3).
  destruct (selectSettle_cases net (stock, predict, metricsUrl)
              (setSelectedStock (prop items "0")
                 (setLoading true (setCompanies items st))))
    as [_ [->|(?&?&?&?&?&?&_&_&_&_&_&_&->)]]; by split.
Qed.

Lemma onMount_selects_first_witness :
  fetchJson twoCompanies symbolsUrl = Some (VArr [AAPL; MSFT]) ∧
  hasItems (VArr [AAPL; MSFT]) = Ok true ∧
  prop (VArr [AAPL; MSFT]) "0" = AAPL ∧
  onMount twoCompanies initialState =
    handleStockSelect twoCompanies (prop (VArr [AAPL; MSFT]) "0")
      (setCompanies (VArr [AAPL; MSFT]) initialState) ∧
  companies (snd (onMount twoCompanies initialState)) = VArr [AAPL; MSFT] ∧
  selectedStock (snd (onMount twoCompanies initialState)) =
    prop (VArr [AAPL; MSFT]) "0".
Proof.
  assert (fetchJson twoCompanies symbolsUrl = Some (VArr [AAPL; MSFT])) as Hf
    by (vm_compute; reflexivity).
  assert (hasItems (VArr [AAPL; MSFT]) = Ok true) as Hg
    by (vm_compute; reflexivity).
  assert (prop (VArr [AAPL; MSFT]) "0" = AAPL) as H0 by (vm_compute; reflexivity).
  assert (endpoint "stock" (prop (VArr [AAPL; MSFT]) "0") = Ok (urlsOf "AAPL").1.1)
    as H1 by (vm_compute; reflexivity).
  assert (endpoint "predict" (prop (VArr [AAPL; MSFT]) "0") = Ok (urlsOf "AAPL").1.2)
    as H2 by (vm_compute; reflexivity).
  assert (endpoint "metrics" (prop (VArr [AAPL; MSFT]) "0") = Ok (urlsOf "AAPL").2)
    as H3 by (vm_compute; reflexivity).
  split; [exact Hf|]. split; [exact Hg|]. split; [exact H0|].
  exact (onMount_selects_first twoCompanies initialState _ _ _ _ Hf Hg H1 H2 H3).
Defined.

(** X4.  A symbols payload that is falsy, an empty array, or an object
    without a [length] is stored as the company list and nothing is
    selected: every other part of the state stays. *)
Theorem onMount_no_selection
    (net : string → fetched) (st : state) (items : value) :
  fetchJson net symbolsUrl = Some items →
  truthy items = false ∨ items = VArr [] ∨
    (∃ o, items = VObj o ∧ o !! "length" = None) →
  onMount net st = (Ok tt, setCompanies items st).
Proof.
  intros Hf Hitems.
  assert (hasItems items = Ok false) as Hg.
  { destruct Hitems as [Hi|[->|(o & -> & Ho)]];
      [by apply hasItems_falsy | apply hasItems_empty_array
      | by apply hasItems_no_length]. }
  unfold onMount, catch. by rewrite Hf, onSymbols_run, Hg.
Qed.

Lemma onMount_no_selection_witness :
  fetchJson (symbolsOnly (Some errorBody)) symbolsUrl = Some errorBody ∧
  (truthy errorBody = false ∨ errorBody = VArr [] ∨
   ∃ o, errorBody = VObj o ∧ o !! "length" = None) ∧
  onMount (symbolsOnly (Some errorBody)) initialState =
    (Ok tt, setCompanies errorBody initialState).
Proof.
  assert (fetchJson (symbolsOnly (Some errorBody)) symbolsUrl = Some errorBody)
    as Hf by (vm_compute; reflexivity).
  assert (truthy errorBody = false ∨ errorBody = VArr [] ∨
          ∃ o, errorBody = VObj o ∧ o !! "length" = None) as Hi.
  { right. right. eexists. split; [reflexivity|]. vm_compute. reflexivity. }
  split; [exact Hf|]. split; [exact Hi|].
  exact (onMount_no_selection _ initialState errorBody Hf Hi).
Defined.

(** X5.  When the guard passes but the selection of the first item throws
    before any request is made (the item is [null], or its symbol has no
    string form), the mount effect's [.catch] replaces the company list by
    the empty list; the item stays selected and the loading flag stays
    on, and no series or metrics change. *)
Theorem onMount_first_item_unusable
    (net : string → fetched) (st : state) (items : value) (e : exn) :
  fetchJson net symbolsUrl = Some items →
  hasItems items = Ok true →
  endpoint "stock" (prop items "0") = Throw e →
  onMount net st =
    (Ok tt, setCompanies (VArr [])
              (setSelectedStock (prop items "0")
                 (setLoading true (setCompanies items st)))) ∧
  companies (snd (onMount net st)) = VArr [] ∧
  loading (snd (onMount net st)) = true ∧
  selectedStock (snd (onMount net st)) = prop items "0" ∧
  stockData (snd (onMount net st)) = stockData st ∧
  mergedData (snd (onMount net st)) = mergedData st ∧
  metrics (snd (onMount net st)) = metrics st.
Proof.
  intros Hf Hg He.
  assert (onMount net st =
    (Ok tt, setCompanies (VArr [])
              (setSelectedStock (prop items "0")
                 (setLoading true (setCompanies items st))))) as Hrun.
  { unfold onMount, catch. rewrite Hf, onSymbols_run, Hg.
    rewrite (first_item _ (hasItems_true_truthy _ Hg)).
    by rewrite (handleStockSelect_throw _ _ _ _ He). }
  split; [exact Hrun|]. by rewrite Hrun.
Qed.

Lemma onMount_first_item_unusable_witness :
  fetchJson (symbolsOnly (Some (VArr [VNull; AAPL]))) symbolsUrl =
    Some (VArr [VNull; AAPL]) ∧
  hasItems (VArr [VNull; AAPL]) = Ok true ∧
  endpoint "stock" (prop (VArr [VNull; AAPL]) "0") = Throw TypeError ∧
  companies (snd (onMount (symbolsOnly (Some (VArr [VNull; AAPL]))) initialState))
    = VArr [] ∧
  loading (snd (onMount (symbolsOnly (Some (VArr [VNull; AAPL]))) initialState))
    = true.
Proof.
  assert (fetchJson (symbolsOnly (Some (VArr [VNull; AAPL]))) symbolsUrl =
          Some (VArr [VNull; AAPL])) as Hf by (vm_compute; reflexivity).
  assert (hasItems (VArr [VNull; AAPL]) = Ok true) as Hg
    by (vm_compute; reflexivity).
  assert (endpoint "stock" (prop (VArr [VNull; AAPL]) "0") = Throw TypeError)
    as He by (vm_compute; reflexivity).
  destruct (onMount_first_item_unusable _ initialState _ _ Hf Hg He)
    as (_ & Hc & Hl & _).
  split; [exact Hf|]. split; [exact Hg|]. split; [exact He|].
  split; [exact Hc | exact Hl].
Defined.

(* ===================================================================== *)
(** * What every reachable state satisfies                                *)
(* ===================================================================== *)

Lemma convertRecord_stored d d' : convertRecord d = Ok d' → storedRecord d'.
Proof.
  unfold convertRecord. intros (p & _ & (x & _ & [= <-])%bind_inv)%bind_inv.
  eexists _, x. split; [reflexivity | by rewrite lookup_insert_eq].
Qed.

Lemma convertedHistorical_stored h ch :
  convertedHistorical h = Ok ch → Forall storedRecord ch.
Proof.
  unfold convertedHistorical. intros (a & _ & Hch)%arrayMap_inv.
  apply mapM_Ok_Forall2 in Hch.
  induction Hch; constructor; eauto using convertRecord_stored.
Qed.

Lemma storedRecord_priced d : storedRecord d → ∃ x, priced d x.
Proof.
  intros (o & x & -> & Ho). exists x. unfold priced. by rewrite getProp_obj, Ho.
Qed.

Lemma merged_shape ch p mg :
  merged ch p = Ok mg →
  ∃ hs fs, mapM pricePoint ch = Ok hs ∧ mg = hs ++ fs ∧ Forall predictionOnly fs.
Proof.
  unfold merged. intros (hs & Hhs & Hm)%bind_inv.
  apply bind_inv in Hm as (fs & (F & _ & Hfs)%arrayMap_inv & [= <-]).
  exists hs, fs. split; [done|]. split; [done|].
  apply mapM_Ok_Forall2 in Hfs.
  induction Hfs; constructor; eauto using forecastPoint_predictionOnly.
Qed.

Lemma transformMetrics_shape m r :
  transformMetrics m = Ok r →
  r = VNull ∨ ∃ a b c d e f g h, r = normalized m a b c d e f g h.
Proof.
  intros Hr. destruct (truthy m) eqn:Hm.
  2: { rewrite transformMetrics_falsy in Hr by done. injection Hr as <-. by left. }
  destruct (truthy (prop m "error")) eqn:He.
  { rewrite transformMetrics_error in Hr by done. injection Hr as <-. by left. }
  apply transformMetrics_inv in Hr
    as (a & b & c & d & e & f & g & h & _ & _ & _ & _ & _ & _ & _ & _ & ->);
    [|done..].
  right. by exists a, b, c, d, e, f, g, h.
Qed.

Lemma shaped_initial : shaped initialState.
Proof.
  split; [constructor|]. split; [|by left].
  exists [], []. split; [reflexivity|]. split; [reflexivity | constructor].
Qed.

Lemma shaped_reset st :
  shaped (setLoading false (setMetrics VNull (setMergedData [] (setStockData [] st)))).
Proof.
  split; [constructor|]. split; [|by left].
  exists [], []. split; [reflexivity|]. split; [reflexivity | constructor].
Qed.

Lemma shaped_settle net urls st : shaped (snd (selectSettle net urls st)).
Proof.
  destruct (selectSettle_cases net urls st)
    as [_ [->|(h & p & m & ch & mg & r & _ & _ & _ & Hch & Hmg & Hr & ->)]].
  - apply shaped_reset.
  - split; [exact (convertedHistorical_stored _ _ Hch)|].
    split; [exact (merged_shape _ _ _ Hmg)|].
    destruct (transformMetrics_shape _ _ Hr) as [->|(a&b&c&d&e&f&g&h'&->)];
      [by left | right; eauto 10].
Qed.

Lemma shaped_begin company st : shaped st → shaped (snd (selectBegin company st)).
Proof. by rewrite selectBegin_state. Qed.

Lemma shaped_select net company st :
  shaped st → shaped (snd (handleStockSelect net company st)).
Proof.
  intros Hst. rewrite handleStockSelect_split. unfold mbind, eff_bind.
  pose proof (shaped_begin company st Hst) as Hb.
  destruct (selectBegin company st) as [[urls|e] st']; [|exact Hb].
  apply shaped_settle.
Qed.

Lemma shaped_setCompanies v st : shaped st → shaped (setCompanies v st).
Proof. done. Qed.

Lemma shaped_mount net st : shaped st → shaped (snd (onMount net st)).
Proof.
  intros Hst. unfold onMount.
  destruct (fetchJson net symbolsUrl) as [items|]; [|by apply shaped_setCompanies].
  unfold catch. rewrite onSymbols_run.
  pose proof (shaped_setCompanies items st Hst) as Hc.
  destruct (hasItems items) as [[|]|e]; [|exact Hc|by apply shaped_setCompanies].
  destruct (getProp items "0") as [first|e]; [|by apply shaped_setCompanies].
  pose proof (shaped_select net first _ Hc) as Hs.
  destruct (handleStockSelect net first (setCompanies items st)) as [[[]|e] st'];
    [exact Hs | by apply shaped_setCompanies].
Qed.

Lemma reachable_shaped st : reachable st → shaped st.
Proof.
  induction 1 as [|net st _ IH|company st _ IH|net urls st _ IH].
  - apply shaped_initial.
  - by apply shaped_mount.
  - by apply shaped_begin.
  - apply shaped_settle.
Qed.

(** A whole selection is a reachable step. *)
Lemma reachable_select net company st :
  reachable st → reachable (snd (handleStockSelect net company st)).
Proof.
  intros Hst. rewrite handleStockSelect_split. unfold mbind, eff_bind.
  pose proof (reachable_begin company st Hst) as Hb.
  destruct (selectBegin company st) as [[urls|e] st']; [|exact Hb].
  by apply reachable_settle.
Qed.

(** X6.  In every state the component can reach, also with selections in
    flight, the two figures the header computes on each render,
    [getCurrentPrice] and [getPriceChange], return without throwing. *)
Theorem header_figures_never_throw (st : state) :
  reachable st →
  (∃ price, getCurrentPrice (stockData st) = Ok price) ∧
  (∃ change, getPriceChange (stockData st) = Ok change).
Proof.
  intros [Hsd _]%reachable_shaped.
  assert (Forall (λ d, ∃ x, priced d x) (stockData st)) as Hp
    by (eapply Forall_impl; [exact Hsd | apply storedRecord_priced]).
  split; [|by apply getPriceChange_total].
  unfold getCurrentPrice. destruct (last (stockData st)) as [d|] eqn:Hl; [|eauto].
  apply last_Some in Hl as [l' Hl]. rewrite Hl in Hp.
  apply Forall_app in Hp as [_ Hp]. inversion Hp as [|? ? [x Hx] _]; subst.
  unfold priced in Hx. rewrite Hx. eauto.
Qed.

Lemma header_figures_never_throw_witness :
  reachable (snd (handleStockSelect metricsRefused AAPL initialState)) ∧
  (∃ price, getCurrentPrice
      (stockData (snd (handleStockSelect metricsRefused AAPL initialState)))
      = Ok price) ∧
  (∃ change, getPriceChange
      (stockData (snd (handleStockSelect metricsRefused AAPL initialState)))
      = Ok change).
Proof.
  assert (reachable (snd (handleStockSelect metricsRefused AAPL initialState)))
    as Hr by (apply reachable_select, reachable_initial).
  split; [exact Hr|]. exact (header_figures_never_throw _ Hr).
Defined.

(** X7.  In every reachable state the chart data and the stored records
    agree: the merged series is the [{date, price}] projection of the
    stored historical records, in order, followed by points that carry a
    prediction and no price. *)
Theorem merged_tracks_stock (st : state) :
  reachable st →
  ∃ hs fs,
    mapM pricePoint (stockData st) = Ok hs ∧
    mergedData st = hs ++ fs ∧
    length hs = length (stockData st) ∧
    Forall2 (λ d pt, ∃ o x, d = VObj o ∧ o !! "price" = Some (VNum x) ∧
               pt = object [("date", default VUndefined (o !! "date"));
                            ("price", VNum x)])
            (stockData st) hs ∧
    Forall predictionOnly fs.
Proof.
  intros (Hsd & (hs & fs & Hhs & Hmg & Hfs) & _)%reachable_shaped.
  exists hs, fs. split; [done|]. split; [done|].
  split; [by eapply mapM_Ok_length|]. split; [|done].
  apply mapM_Ok_Forall2 in Hhs. clear Hmg.
  induction Hhs as [|d pt sd hs Hd _ IH]; [constructor|].
  inversion Hsd as [|? ? (o & x & -> & Ho) Hsd']; subst.
  constructor; [|by apply IH].
  exists o, x. split; [done|]. split; [done|].
  unfold pricePoint in Hd. rewrite !getProp_obj, Ho in Hd. by injection Hd as <-.
Qed.

Lemma merged_tracks_stock_witness :
  reachable (snd (handleStockSelect metricsRefused AAPL initialState)) ∧
  ∃ hs fs,
    mapM pricePoint
      (stockData (snd (handleStockSelect metricsRefused AAPL initialState)))
      = Ok hs ∧
    mergedData (snd (handleStockSelect metricsRefused AAPL initialState))
      = hs ++ fs ∧
    length hs =
      length (stockData (snd (handleStockSelect metricsRefused AAPL initialState))) ∧
    Forall2 (λ d pt, ∃ o x, d = VObj o ∧ o !! "price" = Some (VNum x) ∧
               pt = object [("date", default VUndefined (o !! "date"));
                            ("price", VNum x)])
            (stockData (snd (handleStockSelect metricsRefused AAPL initialState)))
            hs ∧
    Forall predictionOnly fs.
Proof.
  assert (reachable (snd (handleStockSelect metricsRefused AAPL initialState)))
    as Hr by (apply reachable_select, reachable_initial).
  split; [exact Hr|]. exact (merged_tracks_stock _ Hr).
Defined.

(** X8.  The current price is the converted price of the last raw record,
    and 0 when there is none. *)
Theorem getCurrentPrice_last_record (H ch : list value) :
  convertedHistorical (VArr H) = Ok ch →
  getCurrentPrice ch =
    match last H with
    | Some d => VNum <$> convertToInr (prop d "price")
    | None => Ok (VNum zero)
    end.
Proof.
  unfold convertedHistorical. simpl. intros Hch%mapM_Ok_Forall2.
  destruct H as [|d H' _] using rev_ind.
  - by inversion Hch.
  - apply Forall2_app_inv_l in Hch as (k1 & k2 & _ & Hd & ->).
    inversion Hd as [|? d' ? ? Hconv Hnil]; subst. inversion Hnil; subst.
    rewrite last_snoc. unfold getCurrentPrice. rewrite last_snoc.
    unfold convertRecord in Hconv.
    destruct (nullish d) eqn:Hn;
      [by rewrite getProp_nullish in Hconv|].
    rewrite getProp_prop in Hconv by done. simpl in Hconv.
    destruct (convertToInr (prop d "price")) as [x|]; [|done].
    injection Hconv as <-. by rewrite getProp_obj, lookup_insert_eq.
Qed.

Lemma getCurrentPrice_last_record_witness :
  convertedHistorical (VArr sampleHistorical) = Ok sampleConverted ∧
  getCurrentPrice sampleConverted = Ok (VNum zero) ∧
  getCurrentPrice sampleConverted =
    match last sampleHistorical with
    | Some d => VNum <$> convertToInr (prop d "price")
    | None => Ok (VNum zero)
    end.
Proof.
  assert (convertedHistorical (VArr sampleHistorical) = Ok sampleConverted)
    as Hch by (vm_compute; reflexivity).
  split; [exact Hch|]. split; [vm_compute; reflexivity|].
  exact (getCurrentPrice_last_record _ _ Hch).
Defined.

(* ===================================================================== *)
(** * The statistics row                                                  *)
(* ===================================================================== *)

(** [<] on numbers is the lexicographic order of their ranks. *)
Lemma SFltb_below x y :
  isNaN x = false → isNaN y = false →
  SFltb x y = true ↔ below (rank x) (rank y).
Proof.
  intros Hx Hy. unfold SFltb, below.
  destruct x as [sx|sx| |sx mx ex], y as [sy|sy| |sy my ey]; try discriminate;
    try destruct sx; try destruct sy; cbn [SFcompare rank fst snd];
    try (split; [intros _; lia | reflexivity]);
    try (split; [discriminate | intros H; exfalso; lia]).
  - destruct (Z.compare_spec ex ey) as [->|Hlt|Hgt].
    + fold (Pos.compare my mx). fold (Pos.compare mx my).
      destruct (Pos.compare_spec mx my) as [->|Hm|Hm]; simpl;
        (split; [first [discriminate | intros _; lia]
                |first [reflexivity | intros H; exfalso; lia]]).
    + split; [discriminate | intros H; exfalso; lia].
    + split; [intros _; lia | reflexivity].
  - destruct (Z.compare_spec ex ey) as [->|Hlt|Hgt].
    + fold (Pos.compare mx my).
      destruct (Pos.compare_spec mx my) as [->|Hm|Hm]; simpl;
        (split; [first [discriminate | intros _; lia]
                |first [reflexivity | intros H; exfalso; lia]]).
    + split; [intros _; lia | reflexivity].
    + split; [discriminate | intros H; exfalso; lia].
Qed.

Lemma SFltb_nan_l y : SFltb S754_nan y = false.
Proof. reflexivity. Qed.

Lemma not_below_trans a b c : ¬ below a b → ¬ below b c → ¬ below a c.
Proof.
  destruct a as [[a1 a2] a3], b as [[b1 b2] b3], c as [[c1 c2] c3].
  unfold below. simpl. lia.
Qed.

Lemma not_below_refl a : ¬ below a a.
Proof. destruct a as [[a1 a2] a3]. unfold below. simpl. lia. Qed.

Lemma below_asym a b : below a b → ¬ below b a.
Proof.
  destruct a as [[a1 a2] a3], b as [[b1 b2] b3]. unfold below. simpl. lia.
Qed.

Lemma atMost_below x h :
  isNaN x = false → isNaN h = false → atMost x h ↔ ¬ below (rank h) (rank x).
Proof.
  intros Hx Hh. unfold atMost. rewrite <- SFltb_below by done.
  by destruct (SFltb h x).
Qed.

Lemma maxStep_spec h x :
  isNaN h = false → isNaN x = false →
  isNaN (maxStep h x) = false ∧ (maxStep h x = h ∨ maxStep h x = x) ∧
  atMost h (maxStep h x) ∧ atMost x (maxStep h x).
Proof.
  intros Hh Hx. unfold maxStep.
  set (h' := match x, h with
             | S754_zero false, S754_zero true => x
             | _, _ => h
             end).
  assert (isNaN h' = false ∧ (h' = h ∨ h' = x) ∧ rank h' = rank h) as (Hn & Hor & Hr).
  { unfold h'. destruct x as [[|]| | |], h as [[|]| | |]; auto. }
  destruct (SFltb h' x) eqn:Hlt.
  - split; [done|]. split; [by right|].
    apply SFltb_below in Hlt; [|done..]. rewrite Hr in Hlt.
    split; apply atMost_below; try done;
      [by apply below_asym | apply not_below_refl].
  - split; [done|]. split; [destruct Hor as [->| ->]; auto|].
    split; apply atMost_below; try done.
    + rewrite Hr. apply not_below_refl.
    + apply atMost_below; done.
Qed.

Lemma minStep_spec l x :
  isNaN l = false → isNaN x = false →
  isNaN (minStep l x) = false ∧ (minStep l x = l ∨ minStep l x = x) ∧
  atMost (minStep l x) l ∧ atMost (minStep l x) x.
Proof.
  intros Hl Hx. unfold minStep.
  set (l' := match x, l with
             | S754_zero true, S754_zero false => x
             | _, _ => l
             end).
  assert (isNaN l' = false ∧ (l' = l ∨ l' = x) ∧ rank l' = rank l) as (Hn & Hor & Hr).
  { unfold l'. destruct x as [[|]| | |], l as [[|]| | |]; auto. }
  destruct (SFltb x l') eqn:Hlt.
  - split; [done|]. split; [by right|].
    apply SFltb_below in Hlt; [|done..]. rewrite Hr in Hlt.
    split; apply atMost_below; try done;
      [by apply below_asym | apply not_below_refl].
  - split; [done|]. split; [destruct Hor as [->| ->]; auto|].
    split; [|exact Hlt].
    apply atMost_below; try done. rewrite Hr. apply not_below_refl.
Qed.

Lemma atMost_trans x y z :
  isNaN x = false → isNaN y = false → isNaN z = false →
  atMost x y → atMost y z → atMost x z.
Proof.
  intros Hx Hy Hz Hxy Hyz. apply atMost_below in Hxy, Hyz; try done.
  apply atMost_below; try done. eauto using not_below_trans.
Qed.

Lemma mathMaxFrom_spec xs : ∀ h,
  isNaN h = false → Forall (λ x, isNaN x = false) xs →
  isNaN (mathMaxFrom h xs) = false ∧
  (mathMaxFrom h xs = h ∨ mathMaxFrom h xs ∈ xs) ∧
  atMost h (mathMaxFrom h xs) ∧
  Forall (λ x, atMost x (mathMaxFrom h xs)) xs.
Proof.
  induction xs as [|x xs IH]; intros h Hh Hxs; simpl.
  - split; [done|]. split; [by left|]. split; [|constructor].
    apply atMost_below; [done..|apply not_below_refl].
  - inversion Hxs as [|? ? Hx Hxs']; subst. rewrite Hx.
    destruct (maxStep_spec h x Hh Hx) as (Hn & Hor & Hh' & Hx').
    destruct (IH (maxStep h x) Hn Hxs') as (Hn' & Hor' & Hm & Hall).
    split; [done|]. split.
    { destruct Hor' as [->|Hin]; [|right; by right].
      destruct Hor as [->| ->]; [by left | right; by left]. }
    split; [exact (atMost_trans _ _ _ Hh Hn Hn' Hh' Hm)|].
    constructor; [exact (atMost_trans _ _ _ Hx Hn Hn' Hx' Hm) | done].
Qed.

Lemma mathMinFrom_spec xs : ∀ l,
  isNaN l = false → Forall (λ x, isNaN x = false) xs →
  isNaN (mathMinFrom l xs) = false ∧
  (mathMinFrom l xs = l ∨ mathMinFrom l xs ∈ xs) ∧
  atMost (mathMinFrom l xs) l ∧
  Forall (λ x, atMost (mathMinFrom l xs) x) xs.
Proof.
  induction xs as [|x xs IH]; intros l Hl Hxs; simpl.
  - split; [done|]. split; [by left|]. split; [|constructor].
    apply atMost_below; [done..|apply not_below_refl].
  - inversion Hxs as [|? ? Hx Hxs']; subst. rewrite Hx.
    destruct (minStep_spec l x Hl Hx) as (Hn & Hor & Hl' & Hx').
    destruct (IH (minStep l x) Hn Hxs') as (Hn' & Hor' & Hm & Hall).
    split; [done|]. split.
    { destruct Hor' as [->|Hin]; [|right; by right].
      destruct Hor as [->| ->]; [by left | right; by left]. }
    split; [exact (atMost_trans _ _ _ Hn' Hn Hl Hm Hl')|].
    constructor; [exact (atMost_trans _ _ _ Hn' Hn Hx Hm Hx') | done].
Qed.

Lemma mathMaxFrom_nan xs : ∀ h,
  Exists (λ x, isNaN x = true) xs → mathMaxFrom h xs = NaN.
Proof.
  induction xs as [|x xs IH]; intros h Hex; [by inversion Hex|]. simpl.
  destruct (isNaN x) eqn:Hx; [done|].
  inversion Hex as [? ? Hx'|? ? Hex']; subst; [congruence | by apply IH].
Qed.

Lemma mathMinFrom_nan xs : ∀ l,
  Exists (λ x, isNaN x = true) xs → mathMinFrom l xs = NaN.
Proof.
  induction xs as [|x xs IH]; intros l Hex; [by inversion Hex|]. simpl.
  destruct (isNaN x) eqn:Hx; [done|].
  inversion Hex as [? ? Hx'|? ? Hex']; subst; [congruence | by apply IH].
Qed.

(** The prices the two cells range over. *)
Lemma stat_prices sd xs :
  Forall2 priced sd xs →
  statHigh sd = Ok (mathMax xs) ∧ statLow sd = Ok (mathMin xs).
Proof.
  intros Hp.
  assert (mapM (λ d, getProp d "price") sd = Ok (VNum <$> xs)) as H1.
  { apply mapM_Ok_Forall2. induction Hp; constructor; done. }
  assert (mapM ToNumber (VNum <$> xs) = Ok xs) as H2.
  { apply mapM_Ok_Forall2. clear. induction xs; constructor; done. }
  unfold statHigh, statLow. by rewrite H1; simpl; rewrite H2.
Qed.

Lemma atMost_neg_infinity x :
  isNaN x = false → atMost x (S754_infinity true) → x = S754_infinity true.
Proof. unfold atMost. by destruct x as [[|]|[|]| |[|] m e]. Qed.

Lemma atMost_pos_infinity x :
  isNaN x = false → atMost (S754_infinity false) x → x = S754_infinity false.
Proof. unfold atMost. by destruct x as [[|]|[|]| |[|] m e]. Qed.

(** X9.  High and Low.  On an empty series the High cell gets [-Infinity]
    and the Low cell [+Infinity]; a [NaN] price makes both [NaN];
    otherwise High is one of the stored prices and no price exceeds it, and
    Low is one of the stored prices and no price is below it. *)
Theorem high_low_cells (sd : list value) (xs : list number) :
  Forall2 priced sd xs →
  (sd = [] → statHigh sd = Ok (S754_infinity true) ∧
             statLow sd = Ok (S754_infinity false)) ∧
  (Exists (λ x, isNaN x = true) xs →
   statHigh sd = Ok NaN ∧ statLow sd = Ok NaN) ∧
  (sd ≠ [] → Forall (λ x, isNaN x = false) xs →
   ∃ hi lo, statHigh sd = Ok hi ∧ statLow sd = Ok lo ∧
            hi ∈ xs ∧ lo ∈ xs ∧
            Forall (λ x, SFltb hi x = false) xs ∧
            Forall (λ x, SFltb x lo = false) xs).
Proof.
  intros Hp. destruct (stat_prices _ _ Hp) as [Hhi Hlo]. rewrite Hhi, Hlo.
  split; [|split].
  - intros ->. by inversion Hp.
  - intros Hex. unfold mathMax, mathMin.
    by rewrite mathMaxFrom_nan, mathMinFrom_nan.
  - intros Hne Hxs. exists (mathMax xs), (mathMin xs).
    split; [done|]. split; [done|].
    destruct xs as [|x xs']; [by inversion Hp; subst|].
    destruct (mathMaxFrom_spec (x :: xs') (S754_infinity true) eq_refl Hxs)
      as (_ & Hor & _ & Hall).
    destruct (mathMinFrom_spec (x :: xs') (S754_infinity false) eq_refl Hxs)
      as (_ & Hor' & _ & Hall').
    fold (mathMax (x :: xs')) in Hor, Hall.
    fold (mathMin (x :: xs')) in Hor', Hall'.
    inversion Hxs as [|? ? Hx _]; subst.
    split; [|split; [|split; [exact Hall | exact Hall']]].
    + destruct Hor as [Heq|Hin]; [|done].
      inversion Hall as [|? ? Hx' _]; subst. rewrite Heq in Hx'.
      rewrite Heq, (atMost_neg_infinity x Hx Hx'). by left.
    + destruct Hor' as [Heq|Hin]; [|done].
      inversion Hall' as [|? ? Hx' _]; subst. rewrite Heq in Hx'.
      rewrite Heq, (atMost_pos_infinity x Hx Hx'). by left.
Qed.

Lemma high_low_cells_witness :
  Forall2 priced sampleConverted
    [scale10 false 8300 0; scale10 false 9997 (-2); zero] ∧
  statHigh sampleConverted = Ok (scale10 false 8300 0) ∧
  statLow sampleConverted = Ok zero ∧
  ∃ hi lo,
    statHigh sampleConverted = Ok hi ∧ statLow sampleConverted = Ok lo ∧
    hi ∈ [scale10 false 8300 0; scale10 false 9997 (-2); zero] ∧
    lo ∈ [scale10 false 8300 0; scale10 false 9997 (-2); zero] ∧
    Forall (λ x, SFltb hi x = false)
           [scale10 false 8300 0; scale10 false 9997 (-2); zero] ∧
    Forall (λ x, SFltb x lo = false)
           [scale10 false 8300 0; scale10 false 9997 (-2); zero].
Proof.
  assert (Forall2 priced sampleConverted
            [scale10 false 8300 0; scale10 false 9997 (-2); zero]) as Hp
    by (repeat constructor).
  assert (sampleConverted ≠ []) as Hne by discriminate.
  assert (Forall (λ x, isNaN x = false)
            [scale10 false 8300 0; scale10 false 9997 (-2); zero]) as Hn
    by (repeat constructor).
  split; [exact Hp|]. split; [vm_compute; reflexivity|].
  split; [vm_compute; reflexivity|].
  exact (proj2 (proj2 (high_low_cells _ _ Hp)) Hne Hn).
Defined.

(** Empty and [NaN] series. *)
Example high_low_samples :
  statHigh [] = Ok (S754_infinity true) ∧ statLow [] = Ok Infinity ∧
  statHigh [risenRecord; object [("price", VNum NaN)]] = Ok NaN ∧
  statLow [object [("price", VNum NaN)]; risenRecord] = Ok NaN ∧
  statHigh [object [("price", VNum (S754_zero true))]; flatRecord] = Ok zero ∧
  statLow [flatRecord; object [("price", VNum (S754_zero true))]]
    = Ok (S754_zero true).
Proof. vm_compute. repeat split. Qed.

(** ** Average volume *)

Lemma addVolume_Ok a d v :
  getProp d "volume" = Ok v → addVolume a d = add a v.
Proof. unfold addVolume. by intros ->. Qed.

Lemma statAvgVolume_unfold sd :
  statAvgVolume sd =
  (total ← reduce addVolume (VNum zero) sd;
   t ← ToNumber total;
   Ok (div t (ofZ (Z.of_nat (length sd))))).
Proof. reflexivity. Qed.

Lemma reduce_numbers sd vs : ∀ a,
  Forall2 (λ d v, getProp d "volume" = Ok (VNum v)) sd vs →
  reduce addVolume (VNum a) sd = Ok (VNum (fold_left (SFadd prec emax) vs a)).
Proof.
  intros a Hv. revert a.
  induction Hv as [|d v sd vs Hd _ IH]; intros a; [done|].
  cbn [reduce fold_left]. rewrite (addVolume_Ok _ _ _ Hd). apply IH.
Qed.

Lemma reduce_strings sd ss : ∀ a,
  Forall2 (λ d s, getProp d "volume" = Ok (VStr s)) sd ss →
  reduce addVolume (VStr a) sd = Ok (VStr (fold_left String.append ss a)).
Proof.
  intros a Hv. revert a.
  induction Hv as [|d s sd ss Hd _ IH]; intros a; [done|].
  cbn [reduce fold_left]. rewrite (addVolume_Ok _ _ _ Hd). apply IH.
Qed.

Lemma SFadd_nan_r x : SFadd prec emax x NaN = NaN.
Proof. by destruct x as [ | | |[|] ? ?]. Qed.

Lemma SFadd_nan_l x : SFadd prec emax NaN x = NaN.
Proof. by destruct x. Qed.

Lemma reduce_nan sd :
  Forall numberOrMissing sd →
  reduce addVolume (VNum NaN) sd = Ok (VNum NaN).
Proof.
  induction 1 as [|d sd [Hd|[x Hd]] _ IH]; [done|..];
    cbn [reduce]; rewrite (addVolume_Ok _ _ _ Hd); unfold add; simpl;
    rewrite ?SFadd_nan_l; exact IH.
Qed.

Lemma reduce_missing sd : ∀ a,
  Forall numberOrMissing sd →
  Exists (λ d, getProp d "volume" = Ok VUndefined) sd →
  reduce addVolume (VNum a) sd = Ok (VNum NaN).
Proof.
  intros a Hall Hex. revert a.
  induction Hall as [|d sd Hd Hall IH]; intros a; [by inversion Hex|].
  cbn [reduce].
  inversion Hex as [? ? Hu|? ? Hex']; subst.
  - rewrite (addVolume_Ok _ _ _ Hu). unfold add. simpl.
    rewrite SFadd_nan_r. by apply reduce_nan.
  - destruct Hd as [Hu|[x Hx]].
    + rewrite (addVolume_Ok _ _ _ Hu). unfold add. simpl.
      rewrite SFadd_nan_r. by apply reduce_nan.
    + rewrite (addVolume_Ok _ _ _ Hx). unfold add. simpl. by apply IH.
Qed.

Lemma div_nan y : div NaN y = NaN.
Proof. by destruct y. Qed.

(** X10.  The Avg Volume cell.  On an empty series it gets [NaN] (0 / 0).
    With numeric volumes it gets their floating-point sum, added from the
    left starting at 0, over the number of records.  With string volumes
    [+] concatenates: the cell gets the number the text ["0"] followed by
    all the volumes reads as, over the number of records.  If a record has
    no volume among records with numeric volumes, it gets [NaN]. *)
Theorem avg_volume_cell (sd : list value) :
  (sd = [] → statAvgVolume sd = Ok NaN) ∧
  (∀ vs, Forall2 (λ d v, getProp d "volume" = Ok (VNum v)) sd vs →
     statAvgVolume sd =
       Ok (div (fold_left (SFadd prec emax) vs zero)
               (ofZ (Z.of_nat (length sd))))) ∧
  (∀ ss, sd ≠ [] →
     Forall2 (λ d s, getProp d "volume" = Ok (VStr s)) sd ss →
     statAvgVolume sd =
       Ok (div (StringToNumber (fold_left String.append ss "0"))
               (ofZ (Z.of_nat (length sd))))) ∧
  (Forall numberOrMissing sd →
   Exists (λ d, getProp d "volume" = Ok VUndefined) sd →
   statAvgVolume sd = Ok NaN).
Proof.
  split; [by intros ->|]. split; [|split].
  - intros vs Hv. rewrite statAvgVolume_unfold.
    by rewrite (reduce_numbers _ _ _ Hv).
  - intros ss Hne Hv. rewrite statAvgVolume_unfold.
    destruct Hv as [|d s sd ss Hd Hv]; [done|].
    cbn [reduce]. rewrite (addVolume_Ok _ _ _ Hd).
    change (add (VNum zero) (VStr s)) with (Ok (VStr ("0" +:+ s))).
    cbn [mbind result_bind].
    by rewrite (reduce_strings _ _ _ Hv).
  - intros Hall Hex. rewrite statAvgVolume_unfold.
    rewrite (reduce_missing _ _ Hall Hex). cbn [mbind result_bind ToNumber].
    by rewrite div_nan.
Qed.

Lemma avg_volume_cell_witness :
  statAvgVolume [] = Ok NaN ∧
  statAvgVolume [object [("volume", num 5000 0)]; object [("volume", num 7000 0)]]
    = Ok (scale10 false 6000 0) ∧
  statAvgVolume [object [("volume", VStr "5000")]; object [("volume", VStr "7000")]]
    = Ok (scale10 false 25003500 0) ∧
  statAvgVolume volumeRecords = Ok NaN.
Proof.
  split; [exact (proj1 (avg_volume_cell []) eq_refl)|].
  split.
  { exact (proj1 (proj2 (avg_volume_cell
             [object [("volume", num 5000 0)]; object [("volume", num 7000 0)]]))
             [scale10 false 5000 0; scale10 false 7000 0]
             ltac:(repeat constructor)). }
  split.
  { assert ([object [("volume", VStr "5000")]; object [("volume", VStr "7000")]]
            ≠ []) as Hne by discriminate.
    exact (proj1 (proj2 (proj2 (avg_volume_cell
             [object [("volume", VStr "5000")]; object [("volume", VStr "7000")]])))
             ["5000"; "7000"] Hne ltac:(repeat constructor)). }
  assert (Forall numberOrMissing volumeRecords) as Hall.
  { constructor; [right; by eexists|].
    constructor; [by left|].
    constructor; [right; by eexists|]. constructor. }
  assert (Exists (λ d, getProp d "volume" = Ok VUndefined) volumeRecords) as Hex.
  { apply Exists_cons_tl, Exists_cons_hd. reflexivity. }
  exact (proj2 (proj2 (proj2 (avg_volume_cell volumeRecords))) Hall Hex).
Defined.

(** Conversion leaves the volume of a record as it is. *)
Lemma convertRecord_volume d d' :
  convertRecord d = Ok d' → getProp d' "volume" = getProp d "volume".
Proof.
  intros (p & Hp & (x & _ & [= <-])%bind_inv)%bind_inv.
  assert (nullish d = false) as Hd.
  { destruct (nullish d) eqn:Hn; [|done]. by rewrite getProp_nullish in Hp. }
  rewrite getProp_obj, lookup_insert_ne by done.
  by rewrite getProp_prop.
Qed.

Lemma reduce_ext (f g : value → value → result value) H ch :
  Forall2 (λ d d', ∀ a, f a d = g a d') H ch →
  ∀ a, reduce f a H = reduce g a ch.
Proof.
  induction 1 as [|d d' H ch Hd _ IH]; intros a; [done|].
  cbn [reduce]. rewrite Hd. destruct (g a d'); [apply IH | done].
Qed.

(** X11.  The average volume is that of the payload: the conversion of the
    prices does not change it. *)
Theorem avg_volume_of_payload (H ch : list value) :
  convertedHistorical (VArr H) = Ok ch →
  statAvgVolume ch = statAvgVolume H.
Proof.
  intros Hch. change (mapM convertRecord H = Ok ch) in Hch.
  rewrite !statAvgVolume_unfold, (mapM_Ok_length _ _ _ Hch).
  rewrite (reduce_ext addVolume addVolume ch H); [done|].
  apply mapM_Ok_Forall2 in Hch.
  induction Hch as [|d d' H ch Hd _ IH]; constructor; [|done].
  intros a. unfold addVolume. by rewrite (convertRecord_volume _ _ Hd).
Qed.

Lemma avg_volume_of_payload_witness :
  convertedHistorical (VArr sampleHistorical) = Ok sampleConverted ∧
  statAvgVolume sampleConverted = statAvgVolume sampleHistorical.
Proof.
  assert (convertedHistorical (VArr sampleHistorical) = Ok sampleConverted) as Hc
    by (vm_compute; reflexivity).
  split; [exact Hc|].
  exact (avg_volume_of_payload sampleHistorical sampleConverted Hc).
Defined.

(** ** The price change badge *)

Lemma badge_of_change sd c pc :
  getPriceChange sd = Ok (object [("change", VNum c); ("percentage", VNum pc)]) →
  isPositive sd = Ok (SFleb zero c) ∧ percentageText sd = Ok (toFixed pc 2).
Proof. intros Hg. unfold isPositive, percentageText. by rewrite Hg. Qed.

Lemma change_nan c p : isNaN p || isNaN c = true → sub c p = NaN.
Proof.
  destruct p as [ | | |[|] ? ?], c as [ | | |[|] ? ?]; try discriminate; reflexivity.
Qed.

Lemma percentage_nan p : mul (div NaN p) (ofZ 100) = NaN.
Proof. by destruct p. Qed.

Lemma percentage_text_zero_previous c p :
  isZero p = true →
  toFixed (mul (div (sub c p) p) (ofZ 100)) 2 ∈ ["NaN"; "Infinity"; "-Infinity"].
Proof.
  destruct p as [sp| | |]; try discriminate. intros _.
  destruct c as [sc|sc| |sc m e]; try destruct sc; destruct sp;
    vm_compute; set_solver.
Qed.

(** X12.  The badge next to the price.  On fewer than two records it shows a
    rising trend and ["0.00"].  Otherwise the trend is [0 <= c - p] and the
    text is [(c - p) / p * 100] with two decimals, for the last two prices
    [p] and [c]; a [NaN] price gives a falling trend and the text ["NaN"],
    and a previous price of zero gives one of ["NaN"], ["Infinity"] and
    ["-Infinity"]. *)
Theorem price_change_badge (sd : list value) :
  ((length sd < 2)%nat →
   isPositive sd = Ok true ∧ percentageText sd = Ok "0.00") ∧
  (∀ l dp dc p c,
     sd = l ++ [dp; dc] → priced dp p → priced dc c →
     isPositive sd = Ok (SFleb zero (sub c p)) ∧
     percentageText sd = Ok (toFixed (mul (div (sub c p) p) (ofZ 100)) 2) ∧
     (isNaN p || isNaN c = true →
      isPositive sd = Ok false ∧ percentageText sd = Ok "NaN") ∧
     (isZero p = true →
      ∃ t, percentageText sd = Ok t ∧ t ∈ ["NaN"; "Infinity"; "-Infinity"])).
Proof.
  split.
  - intros Hl.
    destruct (badge_of_change _ _ _ (getPriceChange_short sd Hl)) as [-> ->].
    split; reflexivity.
  - intros l dp dc p c -> Hp Hc.
    destruct (badge_of_change _ _ _ (getPriceChange_last_two l dp dc p c Hp Hc))
      as [-> ->].
    split; [done|]. split; [done|]. split.
    + intros Hn. rewrite (change_nan _ _ Hn), percentage_nan. split; reflexivity.
    + intros Hz. eexists. split; [reflexivity|].
      by apply percentage_text_zero_previous.
Qed.

Lemma price_change_badge_witness :
  (length [risenRecord] < 2)%nat ∧
  isPositive [risenRecord] = Ok true ∧
  percentageText [risenRecord] = Ok "0.00" ∧
  priced flatRecord zero ∧ priced risenRecord (scale10 false 110 0) ∧
  isZero zero = true ∧
  isPositive [flatRecord; risenRecord] = Ok true ∧
  percentageText [flatRecord; risenRecord] = Ok "Infinity" ∧
  priced (object [("price", VNum NaN)]) NaN ∧
  isNaN (scale10 false 110 0) || isNaN NaN = true ∧
  isPositive [risenRecord; object [("price", VNum NaN)]] = Ok false ∧
  percentageText [risenRecord; object [("price", VNum NaN)]] = Ok "NaN".
Proof.
  assert ((length [risenRecord] < 2)%nat) as Hl by (simpl; lia).
  assert (priced flatRecord zero) as Hp by (vm_compute; reflexivity).
  assert (priced risenRecord (scale10 false 110 0)) as Hc
    by (vm_compute; reflexivity).
  assert (priced (object [("price", VNum NaN)]) NaN) as Hn
    by (vm_compute; reflexivity).
  assert (isZero zero = true) as Hz by reflexivity.
  assert (isNaN (scale10 false 110 0) || isNaN NaN = true) as Hnan
    by (vm_compute; reflexivity).
  destruct (proj1 (price_change_badge [risenRecord]) Hl) as [H1 H2].
  destruct (proj2 (price_change_badge [flatRecord; risenRecord])
                  [] flatRecord risenRecord _ _ eq_refl Hp Hc)
    as (H3 & H4 & _ & _).
  destruct (proj2 (price_change_badge
                     [risenRecord; object [("price", VNum NaN)]])
                  [] risenRecord (object [("price", VNum NaN)]) _ _ eq_refl Hc Hn)
    as (_ & _ & H5 & _).
  destruct (H5 Hnan) as [H6 H7].
  split; [exact Hl|]. split; [exact H1|]. split; [exact H2|].
  split; [exact Hp|]. split; [exact Hc|]. split; [exact Hz|].
  split; [exact H3|]. split; [exact H4|]. split; [exact Hn|].
  split; [exact Hnan|]. split; [exact H6 | exact H7].
Defined.

(** ** The metrics overlay *)

Lemma formatDecimal_number x digits :
  formatDecimal (VNum x) digits = Ok (toFixed x digits).
Proof. reflexivity. Qed.







(** The overlay for the sample metrics, for an error body, and for a
    payload without sections. *)
Example overlay_samples :
  (transformMetrics sampleMetrics ≫= overlay) =
    Ok (Some [("MAE", Price (num 83 0)); ("RMSE", Price (num 166 0));
              ("MAPE", Text "3.00%"); ("R²", Text "0.900");
              ("Accuracy", Text "0.800"); ("Precision", Text "0.700");
              ("Recall", Text "0.600"); ("F1", Text "0.650");
              ("TN", Child (num 1 0)); ("FP", Child (num 2 0));
              ("FN", Child (num 3 0)); ("TP", Child (num 4 0))]) ∧
  (transformMetrics errorBody ≫= overlay) = Ok None ∧
  (transformMetrics (object []) ≫= overlay) =
    Ok (Some [("MAE", Price (num 0 0)); ("RMSE", Price (num 0 0));
              ("MAPE", Text "0.00%"); ("R²", Text "0.000");
              ("Accuracy", Text "0.000"); ("Precision", Text "0.000");
              ("Recall", Text "0.000"); ("F1", Text "0.000");
              ("TN", Child (num 0 0)); ("FP", Child (num 0 0));
              ("FN", Child (num 0 0)); ("TP", Child (num 0 0))]).
Proof. vm_compute. repeat split. Qed.

(** ** The company list *)

Lemma optionalProp_symbol v :
  optionalProp v "symbol" =
    Ok (if nullish v then VUndefined else prop v "symbol").
Proof.
  unfold optionalProp. destruct (nullish v) eqn:Hv; [done|].
  by apply getProp_prop.
Qed.

Lemma isOk_elementKey v : isOk (elementKey v) = plain v.
Proof.
  destruct v as [ | |b|x|s|a|o]; try reflexivity.
  - rewrite <- isOk_ToString. unfold elementKey, add. cbn [ToPrimitive].
    by destruct (ToString (VArr a)).
  - rewrite <- isOk_ToString. unfold elementKey, add. cbn [ToPrimitive].
    by destruct (ToString (VObj o)).
Qed.

Lemma elementKey_plain v : plain v = true → elementKey v = Ok (keyText v).
Proof.
  rewrite <- isOk_elementKey. unfold keyText. by destruct (elementKey v).
Qed.

Lemma elementKey_shadowed v : plain v = false → elementKey v = Throw TypeError.
Proof.
  rewrite <- isOk_elementKey. destruct (elementKey v) as [k|e]; [done|].
  by rewrite (exn_unique e).
Qed.

Lemma sidebarRow_Ok sel c :
  usable "symbol" c = true → sidebarRow sel c = Ok (rowOf sel c).
Proof.
  intros [Hc Hp]%andb_true_iff. apply negb_true_iff in Hc. unfold sidebarRow.
  rewrite optionalProp_symbol, !getProp_prop by done. cbn [mbind result_bind].
  by rewrite (elementKey_plain _ Hp).
Qed.

Lemma sidebarRow_Throw sel c :
  usable "symbol" c = false → sidebarRow sel c = Throw TypeError.
Proof.
  intros Hu. unfold sidebarRow. destruct (nullish c) eqn:Hc.
  - rewrite !(getProp_nullish c) by done. reflexivity.
  - unfold usable in Hu. rewrite Hc in Hu. cbn [negb andb] in Hu.
    rewrite optionalProp_symbol, !getProp_prop by done. cbn [mbind result_bind].
    by rewrite (elementKey_shadowed _ Hu).
Qed.

Lemma mapM_sidebarRow sel a :
  mapM (sidebarRow sel) a =
    if forallb (usable "symbol") a then Ok (rowOf sel <$> a)
    else Throw TypeError.
Proof.
  induction a as [|c a IH]; [done|].
  rewrite mapM_cons. cbn [forallb]. destruct (usable "symbol" c) eqn:Hc.
  - rewrite sidebarRow_Ok by done. cbn [mbind result_bind andb]. rewrite IH.
    by destruct (forallb (usable "symbol") a).
  - by rewrite sidebarRow_Throw.
Qed.

Lemma rowAccepted_rowOf sel a :
  forallb rowAccepted (rowOf sel <$> a) = forallb childrenAccepted a.
Proof. induction a as [|c a IH]; [done|]. cbn [fmap list_fmap forallb]. by rewrite <- IH. Qed.

(** X14.  The company list.  Evaluating [companies.map(...)], which reads
    the properties of each company and creates its element, coercing the
    key, succeeds exactly when the stored companies are an array in which
    no element is [null] or [undefined] and every symbol has a string
    form; it then gives one row per company, in order, and React shows
    them unless a symbol, name or sector is an object, which it refuses as
    a child.  Anything else makes the evaluation throw a TypeError.  A
    string symbol is its own key and a missing symbol gives no key.  A row
    is marked selected by comparing symbols, so with nothing selected a
    company without a symbol is marked. *)
Theorem sidebar_rows (companies selectedStock : value) :
  (∀ a, companies = VArr a → forallb (usable "symbol") a = true →
        sidebar companies selectedStock = Ok (rowOf selectedStock <$> a) ∧
        companyList companies selectedStock =
          if forallb childrenAccepted a
          then Shown (rowOf selectedStock <$> a) else Refused) ∧
  (∀ a, companies = VArr a → forallb (usable "symbol") a = false →
        sidebar companies selectedStock = Throw TypeError ∧
        companyList companies selectedStock = Thrown TypeError) ∧
  ((∀ a, companies ≠ VArr a) →
   sidebar companies selectedStock = Throw TypeError ∧
   companyList companies selectedStock = Thrown TypeError) ∧
  (∀ c s, prop c "symbol" = VStr s →
          rowKey (rowOf selectedStock c) = Some s) ∧
  (∀ c, prop c "symbol" = VUndefined →
        rowKey (rowOf selectedStock c) = None) ∧
  (∀ c, nullish selectedStock = true → prop c "symbol" = VUndefined →
        rowSelected (rowOf selectedStock c) = Some true).
Proof.
  split; [|split; [|split; [|split; [|split]]]].
  - intros a -> Ha. unfold companyList. cbn [sidebar].
    rewrite mapM_sidebarRow, Ha. split; [done|].
    by rewrite rowAccepted_rowOf.
  - intros a -> Ha. unfold companyList. cbn [sidebar].
    by rewrite mapM_sidebarRow, Ha.
  - intros Hna. unfold companyList.
    destruct companies as [ | | | | |a|]; try done. by destruct (Hna a).
  - intros c s Hs. unfold rowOf. cbn [rowKey]. by rewrite Hs.
  - intros c Hu. unfold rowOf. cbn [rowKey]. by rewrite Hu.
  - intros c Hs Hu. unfold rowOf. cbn [rowSelected]. by rewrite Hs, Hu.
Qed.

Lemma sidebar_rows_witness :
  forallb (usable "symbol") [AAPL; MSFT] = true ∧
  sidebar (VArr [AAPL; MSFT]) MSFT = Ok (rowOf MSFT <$> [AAPL; MSFT]) ∧
  companyList (VArr [AAPL; MSFT]) MSFT = Shown (rowOf MSFT <$> [AAPL; MSFT]) ∧
  forallb (usable "symbol") [AAPL; VNull] = false ∧
  companyList (VArr [AAPL; VNull]) MSFT = Thrown TypeError ∧
  forallb (usable "symbol")
    [object [("symbol", object [("toString", VNull)])]] = false ∧
  sidebar (VArr [object [("symbol", object [("toString", VNull)])]]) VNull
    = Throw TypeError ∧
  forallb (usable "symbol") [object [("symbol", object [])]] = true ∧
  companyList (VArr [object [("symbol", object [])]]) VNull = Refused ∧
  (∀ a, errorBody ≠ VArr a) ∧
  sidebar errorBody VNull = Throw TypeError ∧
  prop AAPL "symbol" = VStr "AAPL" ∧
  rowKey (rowOf MSFT AAPL) = Some "AAPL" ∧
  nullish VNull = true ∧ prop errorBody "symbol" = VUndefined ∧
  rowKey (rowOf VNull errorBody) = None ∧
  rowSelected (rowOf VNull errorBody) = Some true.
Proof.
  assert (forallb (usable "symbol") [AAPL; MSFT] = true) as H1
    by (vm_compute; reflexivity).
  assert (forallb (usable "symbol") [AAPL; VNull] = false) as H2
    by (vm_compute; reflexivity).
  assert (forallb (usable "symbol")
            [object [("symbol", object [("toString", VNull)])]] = false) as H3
    by (vm_compute; reflexivity).
  assert (forallb (usable "symbol") [object [("symbol", object [])]] = true)
    as H4 by (vm_compute; reflexivity).
  assert (∀ a, errorBody ≠ VArr a) as Hna by (intros a; discriminate).
  assert (prop AAPL "symbol" = VStr "AAPL") as Hk by (vm_compute; reflexivity).
  assert (nullish VNull = true) as Hs by reflexivity.
  assert (prop errorBody "symbol" = VUndefined) as Hu by (vm_compute; reflexivity).
  split; [exact H1|].
  split; [exact (proj1 (proj1 (sidebar_rows (VArr [AAPL; MSFT]) MSFT)
                          _ eq_refl H1))|].
  split; [exact (proj2 (proj1 (sidebar_rows (VArr [AAPL; MSFT]) MSFT)
                          _ eq_refl H1))|].
  split; [exact H2|].
  split; [exact (proj2 (proj1 (proj2 (sidebar_rows (VArr [AAPL; VNull]) MSFT))
                          _ eq_refl H2))|].
  split; [exact H3|].
  split; [exact (proj1 (proj1 (proj2 (sidebar_rows
             (VArr [object [("symbol", object [("toString", VNull)])]]) VNull))
             _ eq_refl H3))|].
  split; [exact H4|].
  split; [exact (proj2 (proj1 (sidebar_rows
             (VArr [object [("symbol", object [])]]) VNull) _ eq_refl H4))|].
  split; [exact Hna|].
  split; [exact (proj1 (proj1 (proj2 (proj2 (sidebar_rows errorBody VNull))) Hna))|].
  split; [exact Hk|].
  split; [exact (proj1 (proj2 (proj2 (proj2 (sidebar_rows VNull MSFT)))) AAPL _ Hk)|].
  split; [exact Hs|]. split; [exact Hu|].
  split; [exact (proj1 (proj2 (proj2 (proj2 (proj2 (sidebar_rows VNull VNull)))))
                   errorBody Hu)|].
  exact (proj2 (proj2 (proj2 (proj2 (proj2 (sidebar_rows VNull VNull)))))
           errorBody Hs Hu).
Defined.

(** What the mount effect leaves as company list when nothing is selected
    or the selection starts. *)
Lemma onMount_companies net st items :
  fetchJson net symbolsUrl = Some items →
  hasItems items = Ok false ∨
    (hasItems items = Ok true ∧ ∃ url, endpoint "stock" (prop items "0") = Ok url) →
  companies (snd (onMount net st)) = items.
Proof.
  intros Hf Hg. unfold onMount, catch. rewrite Hf, onSymbols_run.
  destruct Hg as [->|[Hg [url Hu]]]; [done|]. rewrite Hg.
  rewrite (first_item _ (hasItems_true_truthy _ Hg)).
  rewrite handleStockSelect_split. unfold mbind, eff_bind.
  pose proof (selectBegin_state (prop items "0") (setCompanies items st)) as Hb.
  destruct (selectBegin (prop items "0") (setCompanies items st))
    as [[urls|e] st'] eqn:Hsb.
  - simpl in Hb. subst st'.
    destruct (selectSettle_cases net urls
                (setSelectedStock (prop items "0")
                   (setLoading true (setCompanies items st))))
      as [Hok [Hs|(?&?&?&?&?&?&_&_&_&_&_&_&Hs)]];
      destruct (selectSettle net urls _) as [[[]|e] st']; simpl in *;
      try discriminate; by subst st'.
  - exfalso. unfold selectBegin in Hsb.
    unfold mbind, mret, eff_bind, eff_ret, lift, set in Hsb.
    rewrite Hu in Hsb. unfold endpoint in *.
    destruct (getProp (prop items "0") "symbol") as [sym|]; [|done].
    simpl in *. destruct (ToString sym); [|done]. by simpl in *.
Qed.

(** X15.  A symbols response that is JSON but not an array, such as an error
    object, is stored as the company list, and the render that follows
    throws at [companies.map]: the [.catch] of the mount effect does not
    cover it. *)
Theorem non_array_symbols_break_render
    (net : string → fetched) (st : state) (items : value) :
  fetchJson net symbolsUrl = Some items →
  (∀ a, items ≠ VArr a) →
  hasItems items = Ok false ∨
    (hasItems items = Ok true ∧ ∃ url, endpoint "stock" (prop items "0") = Ok url) →
  fst (onMount net st) = Ok tt ∧
  sidebar (companies (snd (onMount net st))) (selectedStock (snd (onMount net st)))
    = Throw TypeError.
Proof.
  intros Hf Hna Hg. split.
  - unfold onMount. rewrite Hf.
    unfold catch. by destruct (onSymbols net items st) as [[[]|e] st'].
  - rewrite (onMount_companies _ _ _ Hf Hg).
    destruct items as [ | | | | |a|]; try done. by destruct (Hna a).
Qed.

Lemma non_array_symbols_break_render_witness :
  fetchJson (symbolsOnly (Some errorBody)) symbolsUrl = Some errorBody ∧
  (∀ a, errorBody ≠ VArr a) ∧
  hasItems errorBody = Ok false ∧
  fst (onMount (symbolsOnly (Some errorBody)) initialState) = Ok tt ∧
  sidebar (companies (snd (onMount (symbolsOnly (Some errorBody)) initialState)))
          (selectedStock (snd (onMount (symbolsOnly (Some errorBody)) initialState)))
    = Throw TypeError.
Proof.
  assert (fetchJson (symbolsOnly (Some errorBody)) symbolsUrl = Some errorBody)
    as Hf by (vm_compute; reflexivity).
  assert (∀ a, errorBody ≠ VArr a) as Hna by (intros a; discriminate).
  assert (hasItems errorBody = Ok false) as Hg by (vm_compute; reflexivity).
  split; [exact Hf|]. split; [exact Hna|]. split; [exact Hg|].
  exact (non_array_symbols_break_render _ initialState _ Hf Hna (or_introl Hg)).
Defined.

(** ** Decimal numerals *)

Lemma append_cons x (a b : string) : String x a +:+ b = String x (a +:+ b).
Proof. reflexivity. Qed.

Lemma append_assoc (a b c : string) : (a +:+ b) +:+ c = a +:+ (b +:+ c).
Proof. induction a as [|x a IH]; [done|]. rewrite !append_cons. by rewrite IH. Qed.

Lemma length_append (a b : string) :
  String.length (a +:+ b) = (String.length a + String.length b)%nat.
Proof.
  induction a as [|x a IH]; [done|]. rewrite append_cons. simpl. by rewrite IH.
Qed.

Lemma append_empty_r (a : string) : a +:+ "" = a.
Proof. induction a as [|x a IH]; [done|]. rewrite append_cons. by rewrite IH. Qed.

Lemma digitString_app a b :
  digitString (a +:+ b) = digitString a && digitString b.
Proof.
  induction a as [|x a IH]; [done|]. rewrite append_cons. simpl.
  by destruct (digitVal x).
Qed.

Lemma digitsValue_app a b acc :
  digitsValue (a +:+ b) acc = digitsValue b (digitsValue a acc).
Proof.
  revert acc. induction a as [|x a IH]; intros acc; [done|].
  rewrite append_cons. simpl. apply IH.
Qed.

Lemma digitsValue_shift s : ∀ acc,
  digitsValue s acc = acc * 10 ^ Z.of_nat (String.length s) + digitsValue s 0.
Proof.
  induction s as [|c s IH]; intros acc.
  - simpl. lia.
  - cbn [digitsValue String.length]. rewrite IH, (IH (10 * 0 + _)).
    rewrite Nat2Z.inj_succ, Z.pow_succ_r by lia. lia.
Qed.

Lemma digitsOf_digits ds rest : ∀ acc cnt,
  digitString ds = true →
  digitsOf (ds +:+ rest) acc cnt =
    digitsOf rest (digitsValue ds acc) (cnt + Z.of_nat (String.length ds)).
Proof.
  induction ds as [|c ds IH]; intros acc cnt Hd.
  - simpl. by rewrite Z.add_0_r.
  - simpl in Hd. rewrite append_cons. cbn [digitsOf digitsValue String.length].
    destruct (digitVal c) as [d|]; [|done]. rewrite IH by done.
    cbn [default from_option id]. f_equal. lia.
Qed.

Lemma digitVal_digitChar d : 0 ≤ d < 10 → digitVal (digitChar d) = Some d.
Proof.
  intros Hd.
  assert (d = 0 ∨ d = 1 ∨ d = 2 ∨ d = 3 ∨ d = 4 ∨ d = 5 ∨ d = 6 ∨ d = 7 ∨
          d = 8 ∨ d = 9) as Hc by lia.
  repeat (destruct Hc as [->|Hc]; [reflexivity|]). by subst.
Qed.

Lemma decimalAux_spec fuel : ∀ z acc,
  0 ≤ z < 2 ^ Z.of_nat fuel →
  ∃ ds, decimalAux fuel z acc = ds +:+ acc ∧ digitString ds = true ∧
        digitsValue ds 0 = z ∧ (fuel ≠ O → ds ≠ "").
Proof.
  induction fuel as [|fuel IH]; intros z acc Hz.
  - exists "". simpl in *. repeat split; [lia | done].
  - cbn [decimalAux]. destruct (z <? 10) eqn:Hlt.
    + apply Z.ltb_lt in Hlt. exists (String (digitChar z) "").
      split; [done|]. simpl. rewrite digitVal_digitChar by lia.
      repeat split; done.
    + apply Z.ltb_ge in Hlt.
      rewrite Nat2Z.inj_succ, Z.pow_succ_r in Hz by lia.
      destruct (IH (z / 10) (String (digitChar (z mod 10)) acc))
        as (ds & -> & Hds & Hv & _).
      { split; [apply Z.div_pos; lia|].
        apply Z.div_lt_upper_bound; lia. }
      exists (ds +:+ String (digitChar (z mod 10)) "").
      rewrite append_assoc. split; [done|].
      rewrite digitString_app, digitsValue_app, Hds, Hv. simpl.
      pose proof (Z.mod_pos_bound z 10 ltac:(lia)) as Hm.
      rewrite digitVal_digitChar by lia. simpl.
      split; [done|]. split; [|by destruct ds].
      pose proof (Z.div_mod z 10 ltac:(lia)). lia.
Qed.

Lemma decimal_spec n :
  0 ≤ n →
  digitString (decimal n) = true ∧ digitsValue (decimal n) 0 = n ∧
  decimal n ≠ "".
Proof.
  intros Hn. unfold decimal.
  destruct (decimalAux_spec (S (Z.to_nat (Z.log2 n))) n "") as (ds & -> & H1 & H2 & H3).
  - split; [done|]. rewrite Nat2Z.inj_succ, Z2Nat.id by apply Z.log2_nonneg.
    destruct (Z.eq_dec n 0) as [->|Hne]; [done|].
    apply Z.log2_spec. lia.
  - rewrite append_empty_r. split; [done|]. split; [done|]. by apply H3.
Qed.

Lemma zeros_spec k :
  digitString (zeros k) = true ∧ digitsValue (zeros k) 0 = 0 ∧
  String.length (zeros k) = k.
Proof.
  induction k as [|k (H1 & H2 & H3)]; [done|]. simpl.
  repeat split; [done|done|by rewrite H3].
Qed.

Lemma take_drop j s : takeS j s +:+ dropS j s = s.
Proof.
  revert s. induction j as [|j IH]; intros [|c s]; try done. simpl.
  rewrite append_cons. by rewrite IH.
Qed.

Lemma length_dropS j s :
  String.length (dropS j s) = (String.length s - j)%nat.
Proof.
  revert s. induction j as [|j IH]; intros [|c s]; try done.
  simpl. apply IH.
Qed.

Lemma length_takeS j s :
  (j ≤ String.length s)%nat → String.length (takeS j s) = j.
Proof.
  revert s. induction j as [|j IH]; intros [|c s]; simpl; try lia.
  intros Hj. rewrite IH; lia.
Qed.

(** The text [toFixed] builds from the integer [n]: an integer part of
    at least one digit, a point, and [f] digits, together denoting [n]. *)
Lemma fixedDigits_spec n f :
  0 ≤ n → f ≠ O →
  ∃ ip fp,
    fixedDigits n f = ip +:+ "." +:+ fp ∧
    digitString ip = true ∧ digitString fp = true ∧
    ip ≠ "" ∧ String.length fp = f ∧
    digitsValue (ip +:+ fp) 0 = n.
Proof.
  intros Hn Hf. destruct (decimal_spec n Hn) as (Hd & Hv & Hne).
  unfold fixedDigits. destruct f as [|f]; [done|].
  set (m := decimal n) in *.
  set (m' := if (String.length m <=? S f)%nat
             then zeros (S f + 1 - String.length m) +:+ m else m).
  assert (digitString m' = true ∧ digitsValue m' 0 = n ∧
          (S f < String.length m')%nat) as (Hd' & Hv' & Hl').
  { unfold m'. destruct (String.length m <=? S f)%nat eqn:Hk.
    - apply Nat.leb_le in Hk.
      destruct (zeros_spec (S f + 1 - String.length m)) as (Z1 & Z2 & Z3).
      rewrite digitString_app, digitsValue_app, length_append, Z1, Z2, Z3.
      split; [done|]. split; [done|]. lia.
    - apply Nat.leb_gt in Hk. done. }
  exists (takeS (String.length m' - S f) m'), (dropS (String.length m' - S f) m').
  split; [done|].
  pose proof (take_drop (String.length m' - S f) m') as Htd.
  assert (digitString (takeS (String.length m' - S f) m') &&
          digitString (dropS (String.length m' - S f) m') = true) as Hboth
    by (by rewrite <- digitString_app, Htd).
  apply andb_true_iff in Hboth as [Ht Hdr].
  split; [done|]. split; [done|].
  split.
  { intros He. pose proof (length_takeS (String.length m' - S f) m' ltac:(lia)) as Hlt.
    rewrite He in Hlt. simpl in Hlt. lia. }
  split; [rewrite length_dropS; lia|]. by rewrite Htd.
Qed.

(** What the parser needs to know about a first character that is a
    digit. *)
Lemma digit_first c d rest :
  digitVal c = Some d →
  isSpace c = false ∧
  signOf (String c rest) = (false, String c rest) ∧
  stripPrefix "Infinity" (String c rest) = None.
Proof.
  destruct c as [[|] [|] [|] [|] [|] [|] [|] [|]]; intros Hd;
    try discriminate Hd; repeat split.
Qed.

Lemma decimalLiteral_body sg s ip fp :
  signOf s = (sg, ip +:+ "." +:+ fp) →
  digitString ip = true → digitString fp = true → ip ≠ "" → fp ≠ "" →
  decimalLiteral s =
    Some (scale10 sg (digitsValue (ip +:+ fp) 0)
                  (- Z.of_nat (String.length fp)), "").
Proof.
  intros Hs Hip Hfp Hne Hfne. unfold decimalLiteral. rewrite Hs.
  assert (stripPrefix "Infinity" (ip +:+ "." +:+ fp) = None) as ->.
  { destruct ip as [|c ip']; [done|]. simpl in Hip.
    destruct (digitVal c) as [d|] eqn:Hc; [|done].
    rewrite append_cons. by destruct (digit_first c d (ip' +:+ "." +:+ fp) Hc) as (_ & _ & ->). }
  rewrite (digitsOf_digits ip) by done.
  change ("." +:+ fp) with (String "." fp).
  change (digitsOf (String "." fp) (digitsValue ip 0)
            (0 + Z.of_nat (String.length ip)))
    with (digitsValue ip 0, 0 + Z.of_nat (String.length ip), String "." fp).
  cbv beta iota.
  rewrite <- (append_empty_r fp) at 1. rewrite (digitsOf_digits fp) by done.
  change (digitsOf "" (digitsValue fp (digitsValue ip 0))
            (0 + Z.of_nat (String.length fp)))
    with (digitsValue fp (digitsValue ip 0), 0 + Z.of_nat (String.length fp), "").
  cbv beta iota.
  assert ((0 + Z.of_nat (String.length fp) =? 0) = false) as ->.
  { apply Z.eqb_neq. destruct fp; [done|]. simpl. lia. }
  rewrite andb_false_r. change (exponentOf "") with (0, ""). cbv beta iota.
  rewrite digitsValue_app.
  by replace (0 - (0 + Z.of_nat (String.length fp)))
    with (- Z.of_nat (String.length fp)) by lia.
Qed.

(** [parseFloat] reads such a text as the double nearest to the number it
    denotes. *)
Lemma parseFloat_fixed (sg : bool) ip fp :
  digitString ip = true → digitString fp = true → ip ≠ "" → fp ≠ "" →
  parseFloat ((if sg then "-" else "") +:+ ip +:+ "." +:+ fp) =
    scale10 sg (digitsValue (ip +:+ fp) 0) (- Z.of_nat (String.length fp)).
Proof.
  intros Hip Hfp Hne Hfne. unfold parseFloat.
  assert (∃ c ip' d, ip = String c ip' ∧ digitVal c = Some d) as (c & ip' & d & Hc & Hd).
  { destruct ip as [|c ip']; [done|]. simpl in Hip.
    destruct (digitVal c) as [d|] eqn:Hc; [|done]. eauto. }
  destruct (digit_first c d (ip' +:+ "." +:+ fp) Hd) as (Hsp & Hsign & _).
  destruct sg.
  - change ("-" +:+ ip +:+ "." +:+ fp) with (String "-" (ip +:+ "." +:+ fp)).
    change (trimStart (String "-" (ip +:+ "." +:+ fp)))
      with (String "-" (ip +:+ "." +:+ fp)).
    by rewrite (decimalLiteral_body true _ ip fp).
  - change ("" +:+ ip +:+ "." +:+ fp) with (ip +:+ "." +:+ fp).
    assert (trimStart (ip +:+ "." +:+ fp) = ip +:+ "." +:+ fp) as ->.
    { rewrite Hc, append_cons. simpl. by rewrite Hsp. }
    rewrite (decimalLiteral_body false _ ip fp); try done.
    by rewrite Hc, append_cons.
Qed.

Lemma fixedNearest_nonneg m e f : 0 ≤ fixedNearest m e f.
Proof.
  unfold fixedNearest. destruct (0 <=? e) eqn:He.
  - apply Z.leb_le in He.
    apply Z.mul_nonneg_nonneg; [|by apply Z.pow_nonneg].
    apply Z.mul_nonneg_nonneg; [done | by apply Z.pow_nonneg].
  - apply Z.leb_gt in He.
    assert (0 < 2 ^ (- e)) by (apply Z.pow_pos_nonneg; lia).
    assert (0 ≤ Z.pos m * 10 ^ Z.of_nat f)
      by (apply Z.mul_nonneg_nonneg; [done | by apply Z.pow_nonneg]).
    apply Z.div_pos; lia.
Qed.

(** The shape of [toFixed] on a finite number below 10^21, and the number
    the text reads as. *)
Lemma toFixed_finite s m e f :
  atLeast1e21 m e = false → f ≠ O →
  ∃ ip fp,
    toFixed (S754_finite s m e) f =
      (if s then "-" else "") +:+ ip +:+ "." +:+ fp ∧
    digitString ip = true ∧ digitString fp = true ∧
    ip ≠ "" ∧ String.length fp = f ∧
    digitsValue (ip +:+ fp) 0 = fixedNearest m e f ∧
    parseFloat (toFixed (S754_finite s m e) f) =
      scale10 s (fixedNearest m e f) (- Z.of_nat f).
Proof.
  intros Hb Hf. cbn [toFixed]. rewrite Hb.
  destruct (fixedDigits_spec (fixedNearest m e f) f (fixedNearest_nonneg m e f) Hf)
    as (ip & fp & -> & Hip & Hfp & Hne & Hl & Hv).
  exists ip, fp. repeat (split; [done|]).
  rewrite parseFloat_fixed, Hv, Hl; try done.
  intros ->. simpl in Hl. by subst f.
Qed.

Lemma fixedNearest_exact m e f :
  0 ≤ e → fixedNearest m e f = Z.pos m * 10 ^ Z.of_nat f * 2 ^ e.
Proof. intros He. unfold fixedNearest. by rewrite (proj2 (Z.leb_le 0 e) He). Qed.

Lemma fixedNearest_half m e f :
  e < 0 →
  - 2 ^ (- e) ≤
    2 * (Z.pos m * 10 ^ Z.of_nat f - fixedNearest m e f * 2 ^ (- e)) < 2 ^ (- e).
Proof.
  intros He. unfold fixedNearest. rewrite (proj2 (Z.leb_gt 0 e) He).
  assert (0 < 2 ^ (- e)) as Hd by (apply Z.pow_pos_nonneg; lia).
  set (D := 2 ^ (- e)) in *. set (num := Z.pos m * 10 ^ Z.of_nat f).
  pose proof (Z.div_mod (2 * num + D) (2 * D) ltac:(lia)) as Hdm.
  pose proof (Z.mod_pos_bound (2 * num + D) (2 * D) ltac:(lia)) as Hb.
  nia.
Qed.

Lemma inr_special x :
  (isZero (mul x (ofZ 83)) = true → inr x = zero) ∧
  (∀ s, mul x (ofZ 83) = S754_infinity s → inr x = S754_infinity s) ∧
  (isNaN (mul x (ofZ 83)) = true → inr x = NaN).
Proof.
  unfold inr. destruct (mul x (ofZ 83)) as [s|s| |s m e].
  - split; [intros _; reflexivity|]. split; [intros s' Hs | intros Hn]; discriminate.
  - split; [intros Hz; discriminate|].
    split; [|intros Hn; discriminate].
    intros s' [= <-]. by destruct s.
  - split; [intros Hz; discriminate|].
    split; [intros s' Hs; discriminate | intros _; reflexivity].
  - split; [intros Hz; discriminate|].
    split; [intros s' Hs | intros Hn]; discriminate.
Qed.

(** X16.  The conversion rounds to hundredths.  For a value that coerces to
    [x], [convertToInr] returns [inr x]; when [x * 83] is a finite double
    [±m·2^e] below 10^21, that is the double nearest to [±n / 100], where
    [n] is the integer nearest to [m·2^e·100], the larger one of two; a
    zero product gives [+0], an infinite one the same infinity, and [NaN]
    gives [NaN]. *)
Theorem convertToInr_hundredths (v : value) (x : number) :
  ToNumber (coalesce v (VNum zero)) = Ok x →
  convertToInr v = Ok (inr x) ∧
  (∀ s m e,
     mul x (ofZ 83) = S754_finite s m e → atLeast1e21 m e = false →
     inr x = scale10 s (fixedNearest m e 2) (-2) ∧
     (0 ≤ e → fixedNearest m e 2 = Z.pos m * 100 * 2 ^ e) ∧
     (e < 0 →
      - 2 ^ (- e) ≤
        2 * (Z.pos m * 100 - fixedNearest m e 2 * 2 ^ (- e)) < 2 ^ (- e))) ∧
  (isZero (mul x (ofZ 83)) = true → inr x = zero) ∧
  (∀ s, mul x (ofZ 83) = S754_infinity s → inr x = S754_infinity s) ∧
  (isNaN (mul x (ofZ 83)) = true → inr x = NaN).
Proof.
  intros Hx. split; [by apply convertToInr_Ok|].
  split; [|apply inr_special].
  intros s m e Hm Hb. split; [|split].
  - unfold inr. rewrite Hm.
    by destruct (toFixed_finite s m e 2 Hb ltac:(done)) as (_ & _ & _ & _ & _ & _ & _ & _ & ->).
  - apply (fixedNearest_exact m e 2).
  - apply (fixedNearest_half m e 2).
Qed.

Lemma convertToInr_hundredths_witness :
  ToNumber (coalesce (num 12345 (-4)) (VNum zero)) = Ok (scale10 false 12345 (-4)) ∧
  mul (scale10 false 12345 (-4)) (ofZ 83) =
    S754_finite false 7210227819048075 (-46) ∧
  atLeast1e21 7210227819048075 (-46) = false ∧
  fixedNearest 7210227819048075 (-46) 2 = 10246 ∧
  convertToInr (num 12345 (-4)) = Ok (inr (scale10 false 12345 (-4))) ∧
  inr (scale10 false 12345 (-4)) =
    scale10 false (fixedNearest 7210227819048075 (-46) 2) (-2).
Proof.
  assert (ToNumber (coalesce (num 12345 (-4)) (VNum zero)) =
          Ok (scale10 false 12345 (-4))) as Hx by reflexivity.
  assert (mul (scale10 false 12345 (-4)) (ofZ 83) =
          S754_finite false 7210227819048075 (-46)) as Hm
    by (vm_compute; reflexivity).
  assert (atLeast1e21 7210227819048075 (-46) = false) as Hb
    by (vm_compute; reflexivity).
  destruct (convertToInr_hundredths _ _ Hx) as (Hc & Hf & _).
  destruct (Hf _ _ _ Hm Hb) as (Hi & _ & _).
  split; [exact Hx|]. split; [exact Hm|]. split; [exact Hb|].
  split; [vm_compute; reflexivity|]. split; [exact Hc | exact Hi].
Defined.

(** Sample conversions: 1.2345 dollars, -10.05 dollars, and a missing
    value. *)
Example convertToInr_samples :
  convertToInr (num 12345 (-4)) = Ok (scale10 false 10246 (-2)) ∧
  convertToInr (VNum (scale10 true 1005 (-2))) = Ok (scale10 true 83415 (-2)) ∧
  convertToInr VUndefined = Ok zero.
Proof. vm_compute. repeat split. Qed.

Lemma zeros_snoc n : zeros n +:+ "0" = zeros (S n).
Proof.
  induction n as [|n IH]; [done|].
  cbn [zeros]. rewrite append_cons. by rewrite IH.
Qed.

Lemma fixedDigits_zero f : f ≠ O → fixedDigits 0 f = "0." +:+ zeros f.
Proof.
  destruct f as [|f]; [done|]. intros _. unfold fixedDigits.
  change (decimal 0) with "0". cbn [String.length].
  replace (1 <=? S f)%nat with true by (symmetry; apply Nat.leb_le; lia).
  replace (S f + 1 - 1)%nat with (S f) by lia.
  rewrite zeros_snoc. destruct (zeros_spec (S (S f))) as (_ & _ & ->).
  replace (S (S f) - S f)%nat with 1%nat by lia.
  reflexivity.
Qed.

(** X17.  The shape of [formatDecimal], for a digit count from 1 to 100
    (the counts for which [toFixed] raises no RangeError).  For a value
    that coerces to a finite number [±m·2^e] below 10^21 the text is an
    optional minus sign, at least one digit, a point and exactly [digits]
    digits, and the digits denote the integer [n] nearest to
    [m·2^e·10^digits], the larger one of two: [n] is that product when
    [0 ≤ e], and [-1/2 ≤ m·10^digits/2^-e - n < 1/2] otherwise.  A zero,
    and so a missing value, gives ["0."] followed by [digits] zeros; [NaN]
    and the infinities give their names. *)
Theorem formatDecimal_shape (v : value) (digits : nat) (x : number) :
  ToNumber (coalesce v (VNum zero)) = Ok x →
  digits ≠ O → (digits ≤ 100)%nat →
  (∀ s m e, x = S754_finite s m e → atLeast1e21 m e = false →
     ∃ ip fp,
       formatDecimal v digits =
         Ok ((if s then "-" else "") +:+ ip +:+ "." +:+ fp) ∧
       digitString ip = true ∧ digitString fp = true ∧
       ip ≠ "" ∧ String.length fp = digits ∧
       digitsValue (ip +:+ fp) 0 = fixedNearest m e digits ∧
       (0 ≤ e →
        digitsValue (ip +:+ fp) 0 = Z.pos m * 10 ^ Z.of_nat digits * 2 ^ e) ∧
       (e < 0 →
        - 2 ^ (- e) ≤
          2 * (Z.pos m * 10 ^ Z.of_nat digits
               - digitsValue (ip +:+ fp) 0 * 2 ^ (- e)) < 2 ^ (- e))) ∧
  (isZero x = true → formatDecimal v digits = Ok ("0." +:+ zeros digits)) ∧
  (nullish v = true → formatDecimal v digits = Ok ("0." +:+ zeros digits)) ∧
  (isNaN x = true → formatDecimal v digits = Ok "NaN") ∧
  (∀ s, x = S754_infinity s →
        formatDecimal v digits = Ok (if s then "-Infinity" else "Infinity")).
Proof.
  intros Hx Hd _. unfold formatDecimal. rewrite Hx. cbn [mbind result_bind].
  split; [|split; [|split; [|split]]].
  - intros s m e -> Hb.
    destruct (toFixed_finite s m e digits Hb Hd)
      as (ip & fp & -> & Hip & Hfp & Hne & Hl & Hv & _).
    exists ip, fp. repeat (split; [done|]). rewrite Hv.
    split; [apply fixedNearest_exact | apply fixedNearest_half].
  - destruct x; try discriminate. intros _. cbn [toFixed].
    by rewrite fixedDigits_zero.
  - intros Hn. destruct v; try discriminate; simpl in Hx; injection Hx as <-;
      change (toFixed zero digits) with (fixedDigits 0 digits);
      by rewrite fixedDigits_zero.
  - by destruct x.
  - by intros s ->.
Qed.

Lemma formatDecimal_shape_witness :
  ToNumber (coalesce (num 65 (-2)) (VNum zero)) = Ok (scale10 false 65 (-2)) ∧
  (3 ≤ 100)%nat ∧
  scale10 false 65 (-2) = S754_finite false 5854679515581645 (-53) ∧
  atLeast1e21 5854679515581645 (-53) = false ∧
  formatDecimal (num 65 (-2)) 3 = Ok "0.650" ∧
  ∃ ip fp,
    formatDecimal (num 65 (-2)) 3 = Ok ("" +:+ ip +:+ "." +:+ fp) ∧
    digitString ip = true ∧ digitString fp = true ∧
    ip ≠ "" ∧ String.length fp = 3%nat ∧
    digitsValue (ip +:+ fp) 0 = 650 ∧
    - 2 ^ 53 ≤ 2 * (5854679515581645 * 10 ^ 3 - digitsValue (ip +:+ fp) 0 * 2 ^ 53)
      < 2 ^ 53.
Proof.
  assert (ToNumber (coalesce (num 65 (-2)) (VNum zero)) =
          Ok (scale10 false 65 (-2))) as Hx by reflexivity.
  assert (scale10 false 65 (-2) = S754_finite false 5854679515581645 (-53))
    as Hm by (vm_compute; reflexivity).
  assert (atLeast1e21 5854679515581645 (-53) = false) as Hb
    by (vm_compute; reflexivity).
  assert (3%nat ≠ O) as Hd by discriminate.
  assert ((3 ≤ 100)%nat) as Hle by lia.
  assert (-53 < 0) as He by lia.
  split; [exact Hx|]. split; [exact Hle|]. split; [exact Hm|].
  split; [exact Hb|]. split; [vm_compute; reflexivity|].
  destruct (proj1 (formatDecimal_shape _ 3 _ Hx Hd Hle) _ _ _ Hm Hb)
    as (ip & fp & Hf & Hip & Hfp & Hne & Hl & Hv & _ & Hhalf).
  exists ip, fp.
  split; [exact Hf|]. split; [exact Hip|]. split; [exact Hfp|].
  split; [exact Hne|]. split; [exact Hl|].
  split; [exact (eq_trans Hv eq_refl)|]. exact (Hhalf He).
Defined.

(** ** Positive integers as doubles *)

Lemma fexp_bound e : fexp prec emax e = Z.max (e - 53) (-1074).
Proof. reflexivity. Qed.

Lemma shr_1_half mrs :
  0 ≤ shr_m mrs → shr_m (shr_1 mrs) = shr_m mrs / 2.
Proof.
  destruct mrs as [m r s]. cbn [shr_m shr_1]. intros Hm.
  destruct m as [|[p|p|]|p]; cbn [shr_m]; try lia;
    first [ reflexivity
          | apply (Z.div_unique _ 2 _ 1); lia
          | apply (Z.div_unique _ 2 _ 0); lia ].
Qed.

Lemma pow_xO k : 2 ^ Z.pos k~0 = 2 ^ Z.pos k * 2 ^ Z.pos k.
Proof. rewrite <- Z.pow_add_r by lia. f_equal. lia. Qed.

Lemma pow_xI k : 2 ^ Z.pos k~1 = 2 * (2 ^ Z.pos k * 2 ^ Z.pos k).
Proof.
  rewrite <- Z.pow_add_r, <- Z.pow_succ_r by lia. f_equal. lia.
Qed.

Lemma iter_shr_1 k : ∀ mrs,
  0 ≤ shr_m mrs →
  shr_m (SpecFloat.iter_pos shr_1 k mrs) = shr_m mrs / 2 ^ Z.pos k.
Proof.
  induction k as [k IH|k IH|]; intros mrs Hm; cbn [SpecFloat.iter_pos].
  - assert (0 ≤ shr_m (shr_1 mrs)) as H1
      by (rewrite shr_1_half by done; apply Z.div_pos; lia).
    assert (0 ≤ shr_m (SpecFloat.iter_pos shr_1 k (shr_1 mrs))) as H2
      by (rewrite IH by done; apply Z.div_pos; [done | apply Z.pow_pos_nonneg; lia]).
    assert (0 < 2 ^ Z.pos k) as Hp by (apply Z.pow_pos_nonneg; lia).
    rewrite IH, IH, shr_1_half by done.
    rewrite !Z.div_div by lia. f_equal. rewrite pow_xI. ring.
  - assert (0 ≤ shr_m (SpecFloat.iter_pos shr_1 k mrs)) as H2
      by (rewrite IH by done; apply Z.div_pos; [done | apply Z.pow_pos_nonneg; lia]).
    assert (0 < 2 ^ Z.pos k) as Hp by (apply Z.pow_pos_nonneg; lia).
    rewrite IH, IH by done.
    rewrite !Z.div_div by lia. f_equal. by rewrite pow_xO.
  - by rewrite shr_1_half.
Qed.

Lemma digits2_lower q : 2 ^ (Z.pos (digits2_pos q) - 1) ≤ Z.pos q.
Proof.
  induction q as [q IH|q IH|]; cbn [digits2_pos]; [| |done].
  - rewrite Pos2Z.inj_succ, (Pos2Z.inj_xI q).
    replace (Z.succ (Z.pos (digits2_pos q)) - 1)
      with (Z.succ (Z.pos (digits2_pos q) - 1)) by lia.
    rewrite Z.pow_succ_r by lia. lia.
  - rewrite Pos2Z.inj_succ, (Pos2Z.inj_xO q).
    replace (Z.succ (Z.pos (digits2_pos q)) - 1)
      with (Z.succ (Z.pos (digits2_pos q) - 1)) by lia.
    rewrite Z.pow_succ_r by lia. lia.
Qed.

(** Aligning a positive mantissa whose exponent is not below the least
    one keeps it positive. *)
Lemma shr_fexp_positive q e l :
  -1074 ≤ e →
  0 < shr_m (fst (shr_fexp prec emax (Z.pos q) e l)) ∧
  e ≤ snd (shr_fexp prec emax (Z.pos q) e l).
Proof.
  intros He. unfold shr_fexp, shr. rewrite fexp_bound. cbn [Zdigits2].
  set (d := Z.pos (digits2_pos q)).
  assert (shr_m (shr_record_of_loc (Z.pos q) l) = Z.pos q) as Hm
    by (by destruct l as [|[ | | ]]).
  destruct (Z.max (d + e - 53) (-1074) - e) as [|k|k] eqn:Hk; cbn [fst snd];
    try (rewrite Hm; lia).
  rewrite iter_shr_1, Hm by (rewrite Hm; lia). split; [|lia].
  pose proof (digits2_lower q) as Hq. fold d in Hq.
  assert (Z.pos k ≤ d - 1) as Hkd by lia.
  assert (2 ^ Z.pos k ≤ 2 ^ (d - 1)) as Hp
    by (apply Z.pow_le_mono_r; lia).
  assert (1 ≤ Z.pos q / 2 ^ Z.pos k); [|lia].
  apply Z.div_le_lower_bound; [apply Z.pow_pos_nonneg; lia | lia].
Qed.

Lemma binary_round_aux_positive q e :
  -1074 ≤ e →
  SFltb zero (binary_round_aux prec emax false (Z.pos q) e loc_Exact) = true.
Proof.
  intros He. unfold binary_round_aux.
  destruct (shr_fexp_positive q e loc_Exact He) as [H1 H2].
  destruct (shr_fexp prec emax (Z.pos q) e loc_Exact) as [mrs' e'].
  cbn [fst snd] in H1, H2.
  assert (0 < round_nearest_even (shr_m mrs') (loc_of_shr_record mrs')) as Hr.
  { unfold round_nearest_even.
    destruct (loc_of_shr_record mrs') as [|[ | | ]]; try lia.
    destruct (Z.even (shr_m mrs')); lia. }
  destruct (round_nearest_even (shr_m mrs') (loc_of_shr_record mrs'))
    as [|q'|q']; try lia.
  destruct (shr_fexp_positive q' e' loc_Exact ltac:(lia)) as [H3 _].
  destruct (shr_fexp prec emax (Z.pos q') e' loc_Exact) as [mrs'' e''].
  cbn [fst] in H3. destruct (shr_m mrs'') as [|m|m]; try lia.
  by destruct (e'' <=? emax - prec).
Qed.

Lemma ofZ_positive p : SFltb zero (ofZ (Z.pos p)) = true.
Proof.
  unfold ofZ, binary_normalize, binary_round, shl_align.
  rewrite fexp_bound.
  destruct (Z.max (Z.pos (digits2_pos p) + 0 - 53) (-1074) - 0) as [|k|k] eqn:Hk;
    apply binary_round_aux_positive; lia.
Qed.

Lemma length_positive n : SFltb zero (ofZ (Z.of_nat n)) = negb (Nat.eqb n 0).
Proof. destruct n as [|n]; [reflexivity|]. apply ofZ_positive. Qed.

(** X18.  The guard of the mount effect, [items && items.length > 0].  It
    passes for an array exactly when the array is not empty, and for a
    string exactly when the string is not empty; it fails for [null],
    booleans and numbers, and for an object without a [length]. *)
Theorem mount_guard :
  (∀ a, hasItems (VArr a) = Ok (negb (Nat.eqb (length a) 0))) ∧
  (∀ s, hasItems (VStr s) = Ok (negb (Nat.eqb (String.length s) 0))) ∧
  (∀ o, o !! "length" = None → hasItems (VObj o) = Ok false) ∧
  hasItems VNull = Ok false ∧ hasItems VUndefined = Ok false ∧
  (∀ b, hasItems (VBool b) = Ok false) ∧
  (∀ x, hasItems (VNum x) = Ok false).
Proof.
  split; [|split; [|split]].
  - intros a. unfold hasItems. cbn [truthy getProp].
    rewrite bool_decide_eq_true_2 by done. cbn [mbind result_bind ToNumber].
    by rewrite length_positive.
  - intros s. unfold hasItems. cbn [truthy].
    destruct s as [|c s]; [reflexivity|].
    rewrite bool_decide_eq_false_2 by done. cbn [negb getProp].
    rewrite bool_decide_eq_true_2 by done. cbn [mbind result_bind ToNumber].
    by rewrite length_positive.
  - intros o Ho. unfold hasItems. simpl. by rewrite Ho.
  - repeat split.
    + intros b. unfold hasItems. by destruct b.
    + intros x. unfold hasItems. by destruct (truthy (VNum x)).
Qed.

Lemma mount_guard_witness :
  (∅ : gmap string value) !! "length" = None ∧
  hasItems (VObj ∅) = Ok false.
Proof.
  assert ((∅ : gmap string value) !! "length" = None) as Ho by reflexivity.
  split; [exact Ho|].
  exact (proj1 (proj2 (proj2 mount_guard)) ∅ Ho).
Defined.
